(** * Scoundrel: the game state machine of go-scoundrel

    A shallow embedding of the two Go programs of the repository:

    - the game loop with the fight-style choice, the avoid-room move and the
      one-potion-per-room flag (the second source file, top level of this
      development);
    - the earlier [main.go], which resolves a card as soon as it is selected
      (module [Legacy]).

    Go's [int] is a 64-bit two's complement integer: it is embedded as [Z]
    with the wrap-around written out ([GoInt]).  Slices are lists; an
    out-of-range slice expression panics, which is the [Panic] result.
    Lines printed on the console by [fmt.Println] are not part of the
    session and are left out. *)

From Stdlib Require Import ZArith List String Bool Lia Permutation.
Import ListNotations.

Open Scope string_scope.
Open Scope list_scope.
Open Scope Z_scope.

(** ** Go's 64-bit [int] *)

Module GoInt.

Definition min_int : Z := - 2 ^ 63.
Definition max_int : Z := 2 ^ 63 - 1.

(** A value an [int] can hold. *)
Definition in_range (z : Z) : Prop := min_int <= z <= max_int.

(** Two's complement wrap-around of a mathematical integer. *)
Definition wrap (z : Z) : Z := (z + 2 ^ 63) mod 2 ^ 64 - 2 ^ 63.

Definition add (a b : Z) : Z := wrap (a + b).
Definition sub (a b : Z) : Z := wrap (a - b).

End GoInt.

(** [len(s)] of a slice. *)
Definition len {A : Type} (s : list A) : Z := Z.of_nat (List.length s).

(** ** Results of code that may panic *)

Inductive result (A : Type) : Type :=
| Ok (a : A)
| Panic.

Arguments Ok {A} a.
Arguments Panic {A}.

Definition bind {A B : Type} (r : result A) (k : A -> result B) : result B :=
  match r with
  | Ok a => k a
  | Panic => Panic
  end.

Definition fmap {A B : Type} (f : A -> B) (r : result A) : result B :=
  bind r (fun a => Ok (f a)).

Notation "x <- r ;; k" := (bind r (fun x => k))
  (at level 61, r at next level, right associativity).

(** ** Cards *)

Record Card : Type := mkCard {
  Suit : string;
  Value : Z;
  Type_ : string;       (* "Monster", "Weapon", "Potion" *)
  MonsterValue : Z      (* value of the monster slain by this weapon *)
}.

(** The zero value [Card{}]. *)
Definition emptyCard : Card := mkCard "" 0 "" 0.

(** Go's [==] on the struct: every field is compared. *)
Definition Card_eqb (a b : Card) : bool :=
  String.eqb (Suit a) (Suit b) && (Value a =? Value b)
  && String.eqb (Type_ a) (Type_ b) && (MonsterValue a =? MonsterValue b).

Definition set_MonsterValue (v : Z) (c : Card) : Card :=
  mkCard (Suit c) (Value c) (Type_ c) v.

(** [s[i]] for an index already checked to be in range. *)
Definition at_index (s : list Card) (i : Z) : Card :=
  nth (Z.to_nat i) s emptyCard.

(** [s[:i] ++ s[i+1:]], the slice without its element [i]. *)
Definition without {A : Type} (i : Z) (s : list A) : list A :=
  firstn (Z.to_nat i) s ++ skipn (Z.to_nat (i + 1)) s.

(** [append(s[:i], s[i+1:]...)]: the slice expression [s[i+1:]] panics
    unless [i + 1 <= len(s)], and [s[:i]] panics for a negative [i]. *)
Definition removeAt {A : Type} (i : Z) (s : list A) : result (list A) :=
  if (0 <=? i) && (i <? len s) then Ok (without i s) else Panic.

(** ** The session *)

Record model : Type := mkModel {
  health : Z;
  dungeon : list Card;
  room : list Card;
  equippedWeapon : Card;
  discardPile : list Card;
  selectedCard : Z;           (* index of the selected card in the room *)
  cardsChosen : Z;
  weaponLimit : Z;            (* the maximum value a weapon can be used on *)
  choosingFight : bool;       (* the player is choosing how to fight *)
  fightingBarehanded : bool;  (* the player chose to fight barehanded *)
  avoidedLastRoom : bool;     (* the player avoided the room last turn *)
  potionUsedThisTurn : bool
}.

(** Field assignments [m.f = v]. *)
Definition with_health (v : Z) (m : model) : model :=
  mkModel v (dungeon m) (room m) (equippedWeapon m) (discardPile m) (selectedCard m) (cardsChosen m) (weaponLimit m) (choosingFight m) (fightingBarehanded m) (avoidedLastRoom m) (potionUsedThisTurn m).
Definition with_dungeon (v : list Card) (m : model) : model :=
  mkModel (health m) v (room m) (equippedWeapon m) (discardPile m) (selectedCard m) (cardsChosen m) (weaponLimit m) (choosingFight m) (fightingBarehanded m) (avoidedLastRoom m) (potionUsedThisTurn m).
Definition with_room (v : list Card) (m : model) : model :=
  mkModel (health m) (dungeon m) v (equippedWeapon m) (discardPile m) (selectedCard m) (cardsChosen m) (weaponLimit m) (choosingFight m) (fightingBarehanded m) (avoidedLastRoom m) (potionUsedThisTurn m).
Definition with_equippedWeapon (v : Card) (m : model) : model :=
  mkModel (health m) (dungeon m) (room m) v (discardPile m) (selectedCard m) (cardsChosen m) (weaponLimit m) (choosingFight m) (fightingBarehanded m) (avoidedLastRoom m) (potionUsedThisTurn m).
Definition with_discardPile (v : list Card) (m : model) : model :=
  mkModel (health m) (dungeon m) (room m) (equippedWeapon m) v (selectedCard m) (cardsChosen m) (weaponLimit m) (choosingFight m) (fightingBarehanded m) (avoidedLastRoom m) (potionUsedThisTurn m).
Definition with_selectedCard (v : Z) (m : model) : model :=
  mkModel (health m) (dungeon m) (room m) (equippedWeapon m) (discardPile m) v (cardsChosen m) (weaponLimit m) (choosingFight m) (fightingBarehanded m) (avoidedLastRoom m) (potionUsedThisTurn m).
Definition with_cardsChosen (v : Z) (m : model) : model :=
  mkModel (health m) (dungeon m) (room m) (equippedWeapon m) (discardPile m) (selectedCard m) v (weaponLimit m) (choosingFight m) (fightingBarehanded m) (avoidedLastRoom m) (potionUsedThisTurn m).
Definition with_weaponLimit (v : Z) (m : model) : model :=
  mkModel (health m) (dungeon m) (room m) (equippedWeapon m) (discardPile m) (selectedCard m) (cardsChosen m) v (choosingFight m) (fightingBarehanded m) (avoidedLastRoom m) (potionUsedThisTurn m).
Definition with_choosingFight (v : bool) (m : model) : model :=
  mkModel (health m) (dungeon m) (room m) (equippedWeapon m) (discardPile m) (selectedCard m) (cardsChosen m) (weaponLimit m) v (fightingBarehanded m) (avoidedLastRoom m) (potionUsedThisTurn m).
Definition with_fightingBarehanded (v : bool) (m : model) : model :=
  mkModel (health m) (dungeon m) (room m) (equippedWeapon m) (discardPile m) (selectedCard m) (cardsChosen m) (weaponLimit m) (choosingFight m) v (avoidedLastRoom m) (potionUsedThisTurn m).
Definition with_avoidedLastRoom (v : bool) (m : model) : model :=
  mkModel (health m) (dungeon m) (room m) (equippedWeapon m) (discardPile m) (selectedCard m) (cardsChosen m) (weaponLimit m) (choosingFight m) (fightingBarehanded m) v (potionUsedThisTurn m).
Definition with_potionUsedThisTurn (v : bool) (m : model) : model :=
  mkModel (health m) (dungeon m) (room m) (equippedWeapon m) (discardPile m) (selectedCard m) (cardsChosen m) (weaponLimit m) (choosingFight m) (fightingBarehanded m) (avoidedLastRoom m) v.

(** ** The deck *)

(** The ranks [lo, lo+1, ...], [n] of them: the values of a counting loop. *)
Definition ranks (lo : Z) (n : nat) : list Z :=
  map (fun k => lo + Z.of_nat k) (seq 0 n).

Definition createDeck : list Card :=
  flat_map (fun suit => map (fun i => mkCard suit i "Monster" 0) (ranks 2 13))
           ["Club"; "Spade"]
  ++ map (fun i => mkCard "Diamond" i "Weapon" 0) (ranks 2 9)
  ++ map (fun i => mkCard "Heart" i "Potion" 0) (ranks 2 9).

(** ** Scoring *)

Definition calculateScore (m : model) : Z :=
  if health m <=? 0 then
    fold_left
      (fun score card =>
         if String.eqb (Type_ card) "Monster" then GoInt.sub score (Value card)
         else score)
      (dungeon m) (health m)
  else
    let score := health m in
    if (health m =? 20) && (0 <? len (discardPile m))
       && String.eqb (Type_ (at_index (discardPile m) (len (discardPile m) - 1))) "Potion"
    then GoInt.add score (Value (at_index (discardPile m) (len (discardPile m) - 1)))
    else score.

(** ** Dealing *)

(** The loop of [dealRoom]: while the room holds fewer than 4 cards, move
    the front dungeon card to the end of the room; stop on an empty
    dungeon.  Returns the room and the dungeon. *)
Fixpoint dealLoop (rm dg : list Card) : list Card * list Card :=
  if len rm <? 4 then
    match dg with
    | card :: rest => dealLoop (rm ++ [card]) rest
    | [] => (rm, dg)
    end
  else (rm, dg).

Definition dealRoom (m : model) : model :=
  let m := with_avoidedLastRoom false m in
  let m := with_potionUsedThisTurn false m in
  let '(rm, dg) := dealLoop (room m) (dungeon m) in
  let m := with_room rm (with_dungeon dg m) in
  let m := with_cardsChosen 0 m in
  with_selectedCard (-1) m.

Definition discard (card : Card) (m : model) : model :=
  with_discardPile (discardPile m ++ [card]) m.

Definition equipWeapon (card : Card) (m : model) : model :=
  let m := if negb (Card_eqb (equippedWeapon m) emptyCard)
           then discard (equippedWeapon m) m else m in
  let m := with_equippedWeapon card m in
  with_equippedWeapon (set_MonsterValue 0 (equippedWeapon m)) m.

Definition fightMonster (card : Card) (m : model) : model :=
  with_choosingFight true m.

(** What [Update] hands back to the runtime besides the model. *)
Inductive Cmd : Type := CmdNil | CmdQuit.

Definition finishFight (m : model) : result (model * Cmd) :=
  if (selectedCard m <? 0) || (len (room m) <=? selectedCard m) then
    Ok (with_choosingFight false m, CmdNil)
  else
    let card := at_index (room m) (selectedCard m) in
    let m :=
      if fightingBarehanded m then
        with_health (GoInt.sub (health m) (Value card)) m
      else if Card_eqb (equippedWeapon m) emptyCard then
        with_health (GoInt.sub (health m) (Value card)) m
      else if weaponLimit m <? Value card then
        with_health (GoInt.sub (health m) (Value card)) m
      else
        let damage := GoInt.sub (Value card) (Value (equippedWeapon m)) in
        if 0 <? damage then with_health (GoInt.sub (health m) damage) m else m in
    let m :=
      if negb (fightingBarehanded m) && negb (Card_eqb (equippedWeapon m) emptyCard)
         && (Value card <=? weaponLimit m)
      then
        let m := with_weaponLimit (Value card) m in
        with_equippedWeapon (set_MonsterValue (Value card) (equippedWeapon m)) m
      else m in
    let m := discard card m in
    rm <- removeAt (selectedCard m) (room m) ;;
    let m := with_room rm m in
    let m := with_selectedCard (-1) m in
    let m := with_choosingFight false m in
    if 4 - len (room m) =? 3 then Ok (dealRoom m, CmdNil) else Ok (m, CmdNil).

Section PackageScope.

(** [usePotion] reads an identifier [index] that it does not declare and
    that no source file of the repository declares: it can only be bound
    at package level.  It is a parameter of the functions that reach it. *)
Variable index : Z.

Definition usePotion (card : Card) (m : model) : result model :=
  if negb (potionUsedThisTurn m) then
    let h := GoInt.add (health m) (Value card) in
    let m := with_health h m in
    let m := if 20 <? health m then with_health 20 m else m in
    let m := discard card m in
    let m := with_potionUsedThisTurn true m in
    rm <- removeAt index (room m) ;;
    let m := with_room rm m in
    if 4 - len (room m) =? 3 then Ok (dealRoom m) else Ok m
  else
    Ok (discard card m).

(** The parameter of [selectCard] is also called [index] in the source
    and hides the package-level one inside [selectCard] only; it is [i]
    here. *)
Definition selectCard (i : Z) (m : model) : result model :=
  if (0 <=? i) && (i <? len (room m)) && (cardsChosen m <? 3) then
    let card := at_index (room m) i in
    let m := with_selectedCard i m in
    let m := with_cardsChosen (GoInt.add (cardsChosen m) 1) m in
    if String.eqb (Type_ card) "Weapon" then
      let m := equipWeapon card m in
      rm <- removeAt i (room m) ;;
      Ok (with_room rm m)
    else if String.eqb (Type_ card) "Potion" then
      m <- usePotion card m ;;
      rm <- removeAt i (room m) ;;
      Ok (with_room rm m)
    else if String.eqb (Type_ card) "Monster" then
      let m := with_selectedCard i m in
      let m := fightMonster card m in
      Ok (with_choosingFight true m)
    else Ok m
  else Ok m.

(** The messages of the runtime: a key press, with the name
    [msg.String()] gives it, or any other message. *)
Inductive Msg : Type :=
| KeyMsg (key : string)
| OtherMsg.

(** [initialModel]: [deck] is [createDeck()] after [rand.Shuffle]. *)
Definition initialModel (deck : list Card) : model :=
  let m := mkModel 20 deck [] emptyCard [] (-1) 0 14 false false false false in
  dealRoom m.

(** [Update]: [shuffled] is the deck a restart would shuffle. *)
Definition Update (shuffled : list Card) (msg : Msg) (m : model)
  : result (model * Cmd) :=
  match msg with
  | KeyMsg key =>
      if String.eqb key "ctrl+c" then Ok (m, CmdQuit)
      else if String.eqb key "a" then
        if negb (avoidedLastRoom m) then
          let m := fold_left (fun m card => with_dungeon (dungeon m ++ [card]) m)
                             (room m) m in
          let m := with_room [] m in
          let m := dealRoom m in
          let m := with_avoidedLastRoom true m in
          Ok (m, CmdNil)
        else Ok (m, CmdNil)
      else if String.eqb key "d" then Ok (dealRoom m, CmdNil)
      else if String.eqb key "1" then fmap (fun m => (m, CmdNil)) (selectCard 0 m)
      else if String.eqb key "2" then fmap (fun m => (m, CmdNil)) (selectCard 1 m)
      else if String.eqb key "3" then fmap (fun m => (m, CmdNil)) (selectCard 2 m)
      else if String.eqb key "4" then fmap (fun m => (m, CmdNil)) (selectCard 3 m)
      else if String.eqb key "b" then
        if choosingFight m then finishFight (with_fightingBarehanded true m)
        else Ok (m, CmdNil)
      else if String.eqb key "w" then
        if choosingFight m then finishFight (with_fightingBarehanded false m)
        else Ok (m, CmdNil)
      else if String.eqb key "r" then
        if health m <=? 0 then Ok (initialModel shuffled, CmdNil)
        else Ok (m, CmdNil)
      else if String.eqb key "t" then Ok (m, CmdNil)
      else Ok (m, CmdNil)
  | OtherMsg => Ok (m, CmdNil)
  end.

(** The package-level flag [debugMode], which only the key "t" flips and
    only [View] reads. *)
Definition Update_debugMode (msg : Msg) (debugMode : bool) : bool :=
  match msg with
  | KeyMsg key => if String.eqb key "t" then negb debugMode else debugMode
  | OtherMsg => debugMode
  end.

End PackageScope.

(** ** Reachable sessions *)

(** A session is reachable when the runtime can hold it: a fresh session
    on some shuffle of the deck, followed by messages.  The package-level
    [index] is not constrained: each step may find any value in it. *)
Inductive reachable : model -> Prop :=
| reach_init (deck : list Card) :
    Permutation createDeck deck -> reachable (initialModel deck)
| reach_step (m m' : model) (index : Z) (deck : list Card) (msg : Msg) (cmd : Cmd) :
    reachable m -> Permutation createDeck deck ->
    Update index deck msg m = Ok (m', cmd) -> reachable m'.

(** A run of [Update] over a list of messages, for concrete sessions. *)
Fixpoint run (index : Z) (deck : list Card) (msgs : list Msg) (m : model)
  : result model :=
  match msgs with
  | [] => Ok m
  | msg :: rest =>
      r <- Update index deck msg m ;; run index deck rest (fst r)
  end.

(** Key presses, by name. *)
Definition keys (names : list string) : list Msg := map KeyMsg names.

(** The session a run ends in, [m] itself when a step panics. *)
Definition run_from (index : Z) (deck : list Card) (names : list string)
           (m : model) : model :=
  match run index deck (keys names) m with
  | Ok m' => m'
  | Panic => m
  end.

(** An executable test that one list is a shuffle of another, for any
    type with a boolean equality. *)
Section ShuffleTest.

Context {A : Type} (eqb : A -> A -> bool).

Fixpoint take_out (c : A) (l : list A) : option (list A) :=
  match l with
  | [] => None
  | x :: rest =>
      if eqb c x then Some rest
      else match take_out c rest with
           | Some rest' => Some (x :: rest')
           | None => None
           end
  end.

Fixpoint is_shuffle_of (l1 l2 : list A) : bool :=
  match l1 with
  | [] => match l2 with [] => true | _ => false end
  | c :: rest =>
      match take_out c l2 with
      | Some l2' => is_shuffle_of rest l2'
      | None => false
      end
  end.

(** [front], then the cards of [deck] that are left once each card of
    [front] is taken out. *)
Definition bring_front (front deck : list A) : list A :=
  front
  ++ fold_left
       (fun left_over c =>
          match take_out c left_over with
          | Some rest => rest
          | None => left_over
          end)
       front deck.

End ShuffleTest.

(** The number of cards a session holds: the three piles and the weapon in
    hand. *)
Definition cards_held (m : model) : Z :=
  len (dungeon m) + len (room m) + len (discardPile m)
  + (if Card_eqb (equippedWeapon m) emptyCard then 0 else 1).

(** ** The earlier program, [main.go] *)

Module Legacy.

Record Card : Type := mkCard {
  Suit : string;
  Value : Z;
  Type_ : string
}.

Definition emptyCard : Card := mkCard "" 0 "".

Definition Card_eqb (a b : Card) : bool :=
  String.eqb (Suit a) (Suit b) && (Value a =? Value b)
  && String.eqb (Type_ a) (Type_ b).

Definition at_index (s : list Card) (i : Z) : Card :=
  nth (Z.to_nat i) s emptyCard.

Record model : Type := mkModel {
  health : Z;
  dungeon : list Card;
  room : list Card;
  equippedWeapon : Card;
  discardPile : list Card;
  selectedCard : Z;
  cardsChosen : Z;
  weaponLimit : Z
}.

Definition with_health (v : Z) (m : model) : model :=
  mkModel v (dungeon m) (room m) (equippedWeapon m) (discardPile m) (selectedCard m) (cardsChosen m) (weaponLimit m).
Definition with_dungeon (v : list Card) (m : model) : model :=
  mkModel (health m) v (room m) (equippedWeapon m) (discardPile m) (selectedCard m) (cardsChosen m) (weaponLimit m).
Definition with_room (v : list Card) (m : model) : model :=
  mkModel (health m) (dungeon m) v (equippedWeapon m) (discardPile m) (selectedCard m) (cardsChosen m) (weaponLimit m).
Definition with_equippedWeapon (v : Card) (m : model) : model :=
  mkModel (health m) (dungeon m) (room m) v (discardPile m) (selectedCard m) (cardsChosen m) (weaponLimit m).
Definition with_discardPile (v : list Card) (m : model) : model :=
  mkModel (health m) (dungeon m) (room m) (equippedWeapon m) v (selectedCard m) (cardsChosen m) (weaponLimit m).
Definition with_selectedCard (v : Z) (m : model) : model :=
  mkModel (health m) (dungeon m) (room m) (equippedWeapon m) (discardPile m) v (cardsChosen m) (weaponLimit m).
Definition with_cardsChosen (v : Z) (m : model) : model :=
  mkModel (health m) (dungeon m) (room m) (equippedWeapon m) (discardPile m) (selectedCard m) v (weaponLimit m).
Definition with_weaponLimit (v : Z) (m : model) : model :=
  mkModel (health m) (dungeon m) (room m) (equippedWeapon m) (discardPile m) (selectedCard m) (cardsChosen m) v.

Definition createDeck : list Card :=
  flat_map (fun suit => map (fun i => mkCard suit i "Monster") (ranks 2 13))
           ["Club"; "Spade"]
  ++ map (fun i => mkCard "Diamond" i "Weapon") (ranks 2 9)
  ++ map (fun i => mkCard "Heart" i "Potion") (ranks 2 9).

(** The loop of [dealRoom]: [n] iterations are left. *)
Fixpoint dealLoop (n : nat) (rm dg : list Card) : list Card * list Card :=
  match n with
  | O => (rm, dg)
  | S n' =>
      match dg with
      | card :: rest => dealLoop n' (rm ++ [card]) rest
      | [] => (rm, dg)
      end
  end.

Definition dealRoom (m : model) : model :=
  let m := with_room [] m in
  let '(rm, dg) := dealLoop 4 (room m) (dungeon m) in
  let m := with_room rm (with_dungeon dg m) in
  let m := with_cardsChosen 0 m in
  with_selectedCard (-1) m.

Definition discard (card : Card) (m : model) : model :=
  with_discardPile (discardPile m ++ [card]) m.

Definition equipWeapon (card : Card) (m : model) : model :=
  let m := if negb (Card_eqb (equippedWeapon m) emptyCard)
           then discard (equippedWeapon m) m else m in
  with_equippedWeapon card m.

Definition usePotion (card : Card) (m : model) : model :=
  let m := with_health (GoInt.add (health m) (Value card)) m in
  let m := if 20 <? health m then with_health 20 m else m in
  discard card m.

Definition fightMonster (card : Card) (m : model) : model :=
  let m :=
    if Card_eqb (equippedWeapon m) emptyCard then
      with_health (GoInt.sub (health m) (Value card)) m
    else
      let damage := GoInt.sub (Value card) (Value (equippedWeapon m)) in
      let m := if 0 <? damage then with_health (GoInt.sub (health m) damage) m
               else m in
      with_weaponLimit (Value card) m in
  discard card m.

Definition selectCard (index : Z) (m : model) : result model :=
  if (0 <=? index) && (index <? len (room m)) && (cardsChosen m <? 3) then
    let card := at_index (room m) index in
    let m := with_selectedCard index m in
    let m := with_cardsChosen (GoInt.add (cardsChosen m) 1) m in
    let m :=
      if String.eqb (Type_ card) "Weapon" then equipWeapon card m
      else if String.eqb (Type_ card) "Potion" then usePotion card m
      else if String.eqb (Type_ card) "Monster" then fightMonster card m
      else m in
    rm <- removeAt index (room m) ;;
    let m := with_room rm m in
    if cardsChosen m =? 3 then
      let m :=
        if 0 <? len (room m) then
          let m := discard (at_index (room m) 0) m in
          with_room [] m
        else m in
      Ok (dealRoom m)
    else Ok m
  else Ok (with_selectedCard (-1) m).

Definition initialModel (deck : list Card) : model :=
  dealRoom (mkModel 20 deck [] emptyCard [] (-1) 0 14).

Definition Update (shuffled : list Card) (msg : Msg) (m : model)
  : result (model * Cmd) :=
  match msg with
  | KeyMsg key =>
      if String.eqb key "ctrl+c" then Ok (m, CmdQuit)
      else if String.eqb key "d" then Ok (dealRoom m, CmdNil)
      else if String.eqb key "1" then fmap (fun m => (m, CmdNil)) (selectCard 0 m)
      else if String.eqb key "2" then fmap (fun m => (m, CmdNil)) (selectCard 1 m)
      else if String.eqb key "3" then fmap (fun m => (m, CmdNil)) (selectCard 2 m)
      else if String.eqb key "4" then fmap (fun m => (m, CmdNil)) (selectCard 3 m)
      else if String.eqb key "r" then
        if health m <=? 0 then Ok (initialModel shuffled, CmdNil)
        else Ok (m, CmdNil)
      else Ok (m, CmdNil)
  | OtherMsg => Ok (m, CmdNil)
  end.

Inductive reachable : model -> Prop :=
| reach_init (deck : list Card) :
    Permutation createDeck deck -> reachable (initialModel deck)
| reach_step (m m' : model) (deck : list Card) (msg : Msg) (cmd : Cmd) :
    reachable m -> Permutation createDeck deck ->
    Update deck msg m = Ok (m', cmd) -> reachable m'.

Fixpoint run (deck : list Card) (msgs : list Msg) (m : model) : result model :=
  match msgs with
  | [] => Ok m
  | msg :: rest => r <- Update deck msg m ;; run deck rest (fst r)
  end.

Definition run_from (deck : list Card) (names : list string) (m : model) : model :=
  match run deck (keys names) m with
  | Ok m' => m'
  | Panic => m
  end.

End Legacy.

(** * Predicates, specifications and example sessions *)

(** ** Dealing and fights *)

(** The number of cards the room lacks. *)
Definition missing (rm : list Card) : nat := Z.to_nat (4 - len rm).

(** The ranks met in a fight are non-negative and the health left after the
    full damage is still an [int]: no subtraction of the fight wraps. *)
Definition fight_fits (m : model) (card : Card) : Prop :=
  0 <= Value card <= GoInt.max_int /\
  0 <= Value (equippedWeapon m) <= GoInt.max_int /\
  GoInt.in_range (health m) /\
  GoInt.in_range (health m - Value card).

(** The fight is fought without the weapon: declined, none in hand, or
    the monster is above the ceiling. *)
Definition barehanded (m : model) (card : Card) : Prop :=
  fightingBarehanded m = true \/ equippedWeapon m = emptyCard
  \/ weaponLimit m < Value card.

(** The session after the damage and the weapon update of [finishFight],
    before the card leaves the room. *)
Definition fought (m : model) : model :=
  let card := at_index (room m) (selectedCard m) in
  let m :=
    if fightingBarehanded m then
      with_health (GoInt.sub (health m) (Value card)) m
    else if Card_eqb (equippedWeapon m) emptyCard then
      with_health (GoInt.sub (health m) (Value card)) m
    else if weaponLimit m <? Value card then
      with_health (GoInt.sub (health m) (Value card)) m
    else
      let damage := GoInt.sub (Value card) (Value (equippedWeapon m)) in
      if 0 <? damage then with_health (GoInt.sub (health m) damage) m else m in
  if negb (fightingBarehanded m) && negb (Card_eqb (equippedWeapon m) emptyCard)
     && (Value card <=? weaponLimit m)
  then
    let m := with_weaponLimit (Value card) m in
    with_equippedWeapon (set_MonsterValue (Value card) (equippedWeapon m)) m
  else m.

(** A fight pending on Spade 10 with Diamond 5 in hand. *)
Definition fight_example : model :=
  mkModel 20 []
          [mkCard "Spade" 10 "Monster" 0; mkCard "Club" 2 "Monster" 0]
          (mkCard "Diamond" 5 "Weapon" 0) [] 0 1 14 true false false false.

(** ** Scoring *)

(** The sum of the ranks of the Monster cards of a pile. *)
Definition monster_ranks (pile : list Card) : Z :=
  fold_right Z.add 0
    (map Value (filter (fun card => String.eqb (Type_ card) "Monster") pile)).

(** The most recently discarded card, if any. *)
Definition last_discarded (m : model) : option Card :=
  match rev (discardPile m) with
  | card :: _ => Some card
  | [] => None
  end.

(** The score in the words of the specification, over the integers. *)
Definition score_spec (m : model) : Z :=
  if health m <=? 0 then health m - monster_ranks (dungeon m)
  else
    match last_discarded m with
    | Some card =>
        if (health m =? 20) && String.eqb (Type_ card) "Potion"
        then health m + Value card
        else health m
    | None => health m
    end.

(** The results the score goes through are [int]s. *)
Definition score_fits (m : model) : Prop :=
  GoInt.in_range (health m)
  /\ GoInt.in_range (health m - monster_ranks (dungeon m))
  /\ (forall card, last_discarded m = Some card -> GoInt.in_range (20 + Value card)).

(** A session at full health whose last discard is Heart 7. *)
Definition score_example : model :=
  mkModel 20 [mkCard "Club" 9 "Monster" 0] [] emptyCard
          [mkCard "Spade" 4 "Monster" 0; mkCard "Heart" 7 "Potion" 0]
          (-1) 0 14 false false false true.

(** ** The invariant *)

(** The ranks of the deck, and of the zero card. *)
Definition card_ok (card : Card) : Prop := 0 <= Value card <= 14.

(** Every card in play has a rank of the deck, the piles hold at most [n]
    cards, and the health sits between the worst the discarded cards can
    have cost and the cap of 20. *)
Record sound_at (n : Z) (m : model) : Prop := mkSound {
  sound_dungeon : Forall card_ok (dungeon m);
  sound_room : Forall card_ok (room m);
  sound_weapon : card_ok (equippedWeapon m);
  sound_count : len (dungeon m) + len (room m) + len (discardPile m) <= n;
  sound_health : 20 - 14 * len (discardPile m) <= health m <= 20;
  sound_discard : Forall card_ok (discardPile m)
}.

(** The invariant: the piles hold at most the 44 cards of the deck. *)
Definition sound (m : model) : Prop := sound_at 44 m.

(** The fight-style test of [finishFight], as the code evaluates it. *)
Definition barehandedb (m : model) (card : Card) : bool :=
  fightingBarehanded m || Card_eqb (equippedWeapon m) emptyCard
  || (weaponLimit m <? Value card).

(** ** Potions and selections *)

(** The health after drinking: the sum, capped at 20. *)
Definition healed (m : model) (card : Card) : Z :=
  if 20 <? GoInt.add (health m) (Value card) then 20
  else GoInt.add (health m) (Value card).

(** The session a first potion leaves when [index] is in the room. *)
Definition drunk (rm : list Card) (card : Card) (m : model) : model :=
  let m1 := with_room rm
              (with_potionUsedThisTurn true
                 (discard card (with_health (healed m card) m))) in
  if 4 - len rm =? 3 then dealRoom m1 else m1.

(** A valid selection: the guard of [selectCard]. *)
Definition selectable (i : Z) (m : model) : Prop :=
  0 <= i < len (room m) /\ cardsChosen m < 3.

(** The room of the specification's example: Heart 5 and Heart 7 with two
    monsters, at health 10. *)
Definition potion_example : model :=
  mkModel 10 []
          [mkCard "Heart" 5 "Potion" 0; mkCard "Club" 3 "Monster" 0;
           mkCard "Heart" 7 "Potion" 0; mkCard "Spade" 4 "Monster" 0]
          emptyCard [] (-1) 0 14 false false false false.

(** That room once Heart 5 is drunk: Club 3 has left the room with it. *)
Definition potion_example_1 : model :=
  mkModel 15 []
          [mkCard "Heart" 7 "Potion" 0; mkCard "Spade" 4 "Monster" 0]
          emptyCard [mkCard "Heart" 5 "Potion" 0] 0 1 14 false false false true.

(** ** Claims that fail, and the sessions that show it *)



(** The unshuffled deck after five barehanded fights: Clubs 2 to 6 have
    cost the 20 points of health. *)
Definition dead_example : model :=
  run_from 0 createDeck ["1"; "b"; "1"; "b"; "1"; "b"; "1"; "b"; "1"; "b"]
           (initialModel createDeck).

(** The claim that selections and avoid are blocked while a fight choice
    is pending. *)
Definition idle_only : Prop :=
  forall (m m' : model) (index : Z) (deck : list Card) (key : string) (cmd : Cmd),
    reachable m -> choosingFight m = true ->
    In key ["1"; "2"; "3"; "4"; "a"] ->
    Update index deck (KeyMsg key) m = Ok (m', cmd) -> m' = m.

(** A fresh session on the unshuffled deck with Club 2 selected. *)
Definition pending_example : model :=
  run_from 0 createDeck ["1"] (initialModel createDeck).

(** The claim for the earlier program: at the third selection in a room,
    the cards still in the room are in the next room. *)
Definition legacy_leftover_persists : Prop :=
  forall (m m' : Legacy.model) (i : Z) (card : Legacy.Card),
    Legacy.reachable m -> Legacy.cardsChosen m = 2 ->
    0 <= i < len (Legacy.room m) ->
    Legacy.selectCard i m = Ok m' ->
    In card (without i (Legacy.room m)) -> In card (Legacy.room m').

(** The earlier program on the unshuffled deck after two fights: Club 4
    and Club 5 are left in the room. *)
Definition legacy_third_example : Legacy.model :=
  Legacy.run_from Legacy.createDeck ["1"; "1"] (Legacy.initialModel Legacy.createDeck).

(** What the earlier [selectCard] does with the selected card. *)
Definition legacy_resolved (card : Legacy.Card) (m : Legacy.model) : Legacy.model :=
  if String.eqb (Legacy.Type_ card) "Weapon" then Legacy.equipWeapon card m
  else if String.eqb (Legacy.Type_ card) "Potion" then Legacy.usePotion card m
  else if String.eqb (Legacy.Type_ card) "Monster" then Legacy.fightMonster card m
  else m.

(** One card to fight and one to keep, four cards in the dungeon. *)
Definition refill_example : model :=
  mkModel 20
          [mkCard "Club" 2 "Monster" 0; mkCard "Club" 3 "Monster" 0;
           mkCard "Club" 4 "Monster" 0; mkCard "Club" 5 "Monster" 0]
          [mkCard "Spade" 10 "Monster" 0; mkCard "Heart" 7 "Potion" 0]
          emptyCard [] 0 2 14 true true false false.

(** The deck with the Hearts on top, Heart 10 first. *)
Definition hearts_first : list Card := rev createDeck.

(** A fresh session on that deck, and the session after the key "1". *)
Definition before_potion : model := initialModel hearts_first.
Definition after_potion : model := run_from 0 hearts_first ["1"] before_potion.

(** The deck with Diamond 5, Club 3 and Club 10 on top. *)
Definition legacy_stacked : list Legacy.Card :=
  bring_front Legacy.Card_eqb
    [Legacy.mkCard "Diamond" 5 "Weapon"; Legacy.mkCard "Club" 3 "Monster";
     Legacy.mkCard "Club" 10 "Monster"]
    Legacy.createDeck.

(** The earlier program after Diamond 5 is taken and Club 3 fought, and
    after Club 10 is fought too. *)
Definition legacy_after_small : Legacy.model :=
  Legacy.run_from legacy_stacked ["1"; "1"] (Legacy.initialModel legacy_stacked).
Definition legacy_after_big : Legacy.model :=
  Legacy.run_from legacy_stacked ["1"; "1"; "1"] (Legacy.initialModel legacy_stacked).

(** ** Further predicates and sessions *)

(** The number of cards of a pile with a given type. *)
Definition count_type (type : string) (pile : list Card) : nat :=
  List.length (filter (fun card => String.eqb (Type_ card) type) pile).

(** The ranks a card of the deck can have for its type: 2 to 14 for a
    Monster, 2 to 10 for a Weapon or a Potion. *)
Definition deck_card (card : Card) : Prop :=
  MonsterValue card = 0
  /\ ((Type_ card = "Monster" /\ 2 <= Value card <= 14)
      \/ (Type_ card = "Weapon" /\ 2 <= Value card <= 10)
      \/ (Type_ card = "Potion" /\ 2 <= Value card <= 10)).

(** The same, as a test. *)
Definition deck_cardb (card : Card) : bool :=
  (MonsterValue card =? 0)
  && ((String.eqb (Type_ card) "Monster" && (2 <=? Value card) && (Value card <=? 14))
      || (String.eqb (Type_ card) "Weapon" && (2 <=? Value card) && (Value card <=? 10))
      || (String.eqb (Type_ card) "Potion" && (2 <=? Value card) && (Value card <=? 10))).

(** A test that no card occurs twice in a pile. *)
Fixpoint no_dupb (pile : list Card) : bool :=
  match pile with
  | [] => true
  | card :: rest => negb (existsb (Card_eqb card) rest) && no_dupb rest
  end.

(** A room of two monsters over a dungeon of one, a fight pending on the
    first. *)
Definition short_example : model :=
  mkModel 20 [mkCard "Club" 4 "Monster" 0]
          [mkCard "Spade" 10 "Monster" 0; mkCard "Club" 2 "Monster" 0]
          emptyCard [] 0 1 14 true false true true.

(** The session once slot [i] is marked as selected and counted: the first
    two assignments of a valid [selectCard]. *)
Definition chosen (i : Z) (m : model) : model :=
  with_cardsChosen (GoInt.add (cardsChosen m) 1) (with_selectedCard i m).

(** The slot a key selects: the four card keys of [Update]. *)
Definition slot (key : string) : option Z :=
  if String.eqb key "1" then Some 0
  else if String.eqb key "2" then Some 1
  else if String.eqb key "3" then Some 2
  else if String.eqb key "4" then Some 3
  else None.

(** The room holds at most four cards, the selection counter is between 0
    and 3, and the selected slot is one of the four or none. *)
Definition tidy (m : model) : Prop :=
  len (room m) <= 4 /\ 0 <= cardsChosen m <= 3 /\ -1 <= selectedCard m <= 3.

(** The three piles of a session, in one list. *)
Definition piles (m : model) : list Card :=
  dungeon m ++ room m ++ discardPile m.

(** The deck with the Diamonds on top, Diamond 10 first, then the Spades
    and the Clubs, then the Hearts. *)
Definition diamonds_first : list Card :=
  rev (firstn 35 createDeck) ++ skipn 35 createDeck.

(** The discard pile once the weapon in hand, if any, is put on it. *)
Definition weapon_discarded (m : model) : list Card :=
  if Card_eqb (equippedWeapon m) emptyCard then discardPile m
  else discardPile m ++ [equippedWeapon m].

(** The selections that panic: a first potion of the room when the
    package-level [index] is outside the room, or when the slot [i] is no
    longer in the room once the card at [index] has left it (the last
    slot; in a room of two, where the room is refilled, the second slot
    over an empty dungeon). *)
Definition potion_panics (index i : Z) (m : model) : Prop :=
  selectable i m
  /\ Type_ (at_index (room m) i) = "Potion"
  /\ potionUsedThisTurn m = false
  /\ (~ 0 <= index < len (room m)
      \/ (len (room m) <> 2 /\ i = len (room m) - 1)
      \/ (len (room m) = 2 /\ i = 1 /\ dungeon m = [])).

(** The keys [Update] has a case for. *)
Definition bound_keys : list string :=
  ["ctrl+c"; "a"; "d"; "1"; "2"; "3"; "4"; "b"; "w"; "r"; "t"].

(** A fight pending on Club 5 in the first slot, with Diamond 3, Heart 4
    and Spade 9 after it. *)
Definition redirect_example : model :=
  mkModel 20 []
          [mkCard "Club" 5 "Monster" 0; mkCard "Diamond" 3 "Weapon" 0;
           mkCard "Heart" 4 "Potion" 0; mkCard "Spade" 9 "Monster" 0]
          emptyCard [] 0 1 14 true false false false.

(** ** The earlier program *)

(** The earlier session once slot [i] is marked as selected and counted. *)
Definition legacy_chosen (i : Z) (m : Legacy.model) : Legacy.model :=
  Legacy.with_cardsChosen (GoInt.add (Legacy.cardsChosen m) 1)
    (Legacy.with_selectedCard i m).

(** The guard of the earlier [selectCard]. *)
Definition legacy_selectable (i : Z) (m : Legacy.model) : Prop :=
  0 <= i < len (Legacy.room m) /\ Legacy.cardsChosen m < 3.

(** The end of a valid selection in the earlier program, once the card has
    left the room: at the third card the first card left is discarded and
    a new room is dealt. *)
Definition legacy_room_end (m : Legacy.model) : Legacy.model :=
  if Legacy.cardsChosen m =? 3 then
    Legacy.dealRoom
      (if 0 <? len (Legacy.room m)
       then Legacy.with_room [] (Legacy.discard (Legacy.at_index (Legacy.room m) 0) m)
       else m)
  else m.

(** Two earlier sessions that differ in the weapon ceiling at most. *)
Definition legacy_same_game (m1 m2 : Legacy.model) : Prop :=
  Legacy.with_weaponLimit 0 m1 = Legacy.with_weaponLimit 0 m2.

(** The ranks of the earlier deck, and of the zero card. *)
Definition legacy_card_ok (card : Legacy.Card) : Prop := 0 <= Legacy.Value card <= 14.

(** The invariant of the earlier program: ranks of the deck in the dungeon,
    the room and the hand, a room of four cards at most, fewer than three
    selections counted, at most 44 cards in the piles, and a health between
    the worst the discarded cards can have cost and the cap of 20. *)
Record legacy_sound (m : Legacy.model) : Prop := mkLegacySound {
  legacy_sound_dungeon : Forall legacy_card_ok (Legacy.dungeon m);
  legacy_sound_room : Forall legacy_card_ok (Legacy.room m);
  legacy_sound_weapon : legacy_card_ok (Legacy.equippedWeapon m);
  legacy_sound_room_len : len (Legacy.room m) <= 4;
  legacy_sound_chosen : 0 <= Legacy.cardsChosen m <= 2;
  legacy_sound_selected : -1 <= Legacy.selectedCard m <= 3;
  legacy_sound_count :
    len (Legacy.dungeon m) + len (Legacy.room m) + len (Legacy.discardPile m) <= 44;
  legacy_sound_health :
    20 - 14 * len (Legacy.discardPile m) <= Legacy.health m <= 20
}.

(** An earlier session in which Heart 5 was drunk in this room, at health
    15 with Heart 7 still in the room. *)
Definition legacy_potion_example : Legacy.model :=
  Legacy.mkModel 15 []
    [Legacy.mkCard "Heart" 7 "Potion"; Legacy.mkCard "Spade" 4 "Monster"]
    Legacy.emptyCard [Legacy.mkCard "Heart" 5 "Potion"] 0 1 14.

(** The damage of a fight in the earlier program: the full rank without a
    weapon in hand, the rank above the weapon's otherwise. *)
Definition legacy_damage (m : Legacy.model) (card : Legacy.Card) : Z :=
  if Legacy.Card_eqb (Legacy.equippedWeapon m) Legacy.emptyCard
  then Legacy.Value card
  else Z.max 0 (Legacy.Value card - Legacy.Value (Legacy.equippedWeapon m)).

(** * Properties *)

(** ** Arithmetic of [int] *)

Arguments len : simpl never.
Arguments GoInt.wrap : simpl never.
Arguments GoInt.add : simpl never.
Arguments GoInt.sub : simpl never.

Lemma wrap_in_range (z : Z) : GoInt.in_range z -> GoInt.wrap z = z.
Proof.
  unfold GoInt.in_range, GoInt.min_int, GoInt.max_int, GoInt.wrap. intros H.
  rewrite Z.mod_small; lia.
Qed.

Lemma wrap_is_int (z : Z) : GoInt.in_range (GoInt.wrap z).
Proof.
  unfold GoInt.in_range, GoInt.min_int, GoInt.max_int, GoInt.wrap.
  pose proof (Z.mod_pos_bound (z + 2 ^ 63) (2 ^ 64)). lia.
Qed.

(** Subtracting from a wrapped value wraps as subtracting from the value. *)
Lemma wrap_sub_wrap (a b : Z) : GoInt.wrap (GoInt.wrap a - b) = GoInt.wrap (a - b).
Proof.
  unfold GoInt.wrap. f_equal.
  replace ((a + 2 ^ 63) mod 2 ^ 64 - 2 ^ 63 - b + 2 ^ 63)
    with ((a + 2 ^ 63) mod 2 ^ 64 + - b) by lia.
  rewrite Zplus_mod_idemp_l. f_equal. lia.
Qed.

(** ** Cards and slices *)

Lemma Card_eqb_eq (a b : Card) : Card_eqb a b = true <-> a = b.
Proof.
  unfold Card_eqb. destruct a, b; simpl.
  rewrite !andb_true_iff, !String.eqb_eq, !Z.eqb_eq.
  split; [intros [[[-> ->] ->] ->]; reflexivity | intros H; inversion H; auto].
Qed.

Lemma Card_eqb_neq (a b : Card) : Card_eqb a b = false <-> a <> b.
Proof.
  rewrite <- Card_eqb_eq. destruct (Card_eqb a b); split; congruence.
Qed.

Lemma len_app {A : Type} (l1 l2 : list A) : len (l1 ++ l2) = len l1 + len l2.
Proof. unfold len. rewrite length_app. lia. Qed.

Lemma len_nonneg {A : Type} (l : list A) : 0 <= len l.
Proof. unfold len. lia. Qed.

Lemma len_without {A : Type} (i : Z) (s : list A) :
  0 <= i < len s -> len (without i s) = len s - 1.
Proof.
  unfold without, len. intros H.
  rewrite length_app, length_firstn, length_skipn. lia.
Qed.

Lemma removeAt_ok {A : Type} (i : Z) (s : list A) :
  0 <= i < len s -> removeAt i s = Ok (without i s).
Proof.
  intros H. unfold removeAt.
  replace (0 <=? i) with true by (symmetry; apply Z.leb_le; lia).
  replace (i <? len s) with true by (symmetry; apply Z.ltb_lt; lia).
  reflexivity.
Qed.

Lemma removeAt_inv {A : Type} (i : Z) (s r : list A) :
  removeAt i s = Ok r -> 0 <= i < len s /\ r = without i s.
Proof.
  unfold removeAt.
  destruct (0 <=? i) eqn:H0; destruct (i <? len s) eqn:H1; simpl; try discriminate.
  intros H; inversion H. apply Z.leb_le in H0. apply Z.ltb_lt in H1. auto.
Qed.

(** ** Dealing a room *)

(** The loop tops the room up from the front of the dungeon. *)
Lemma dealLoop_spec (dg rm : list Card) :
  dealLoop rm dg = (rm ++ firstn (missing rm) dg, skipn (missing rm) dg).
Proof.
  revert rm. induction dg as [|card rest IH]; intros rm; simpl.
  - rewrite firstn_nil, skipn_nil, app_nil_r. destruct (len rm <? 4); reflexivity.
  - destruct (len rm <? 4) eqn:Hlt.
    + apply Z.ltb_lt in Hlt. rewrite IH.
      assert (Hm : missing rm = S (missing (rm ++ [card]))).
      { unfold missing. rewrite len_app. change (len [card]) with 1.
        pose proof (len_nonneg rm). lia. }
      rewrite Hm. simpl. rewrite <- app_assoc. reflexivity.
    + apply Z.ltb_ge in Hlt.
      assert (Hm : missing rm = O) by (unfold missing; lia).
      rewrite Hm. simpl. rewrite app_nil_r. reflexivity.
Qed.

Lemma dealRoom_spec (m : model) :
  dealRoom m =
  mkModel (health m) (skipn (missing (room m)) (dungeon m))
          (room m ++ firstn (missing (room m)) (dungeon m))
          (equippedWeapon m) (discardPile m) (-1) 0 (weaponLimit m)
          (choosingFight m) (fightingBarehanded m) false false.
Proof.
  unfold dealRoom. simpl. rewrite dealLoop_spec. reflexivity.
Qed.

(** The range loop of the key "a" puts the room behind the dungeon. *)
Lemma append_room_to_dungeon (rm : list Card) (m : model) :
  fold_left (fun m card => with_dungeon (dungeon m ++ [card]) m) rm m
  = with_dungeon (dungeon m ++ rm) m.
Proof.
  revert m. induction rm as [|card rest IH]; intros m; simpl.
  - rewrite app_nil_r. destruct m; reflexivity.
  - rewrite IH. simpl. rewrite <- app_assoc. reflexivity.
Qed.

(** ** Fights *)

Lemma finishFight_invalid (m : model) :
  ~ 0 <= selectedCard m < len (room m) ->
  finishFight m = Ok (with_choosingFight false m, CmdNil).
Proof.
  intros H. unfold finishFight.
  destruct (selectedCard m <? 0) eqn:H0; [reflexivity|].
  destruct (len (room m) <=? selectedCard m) eqn:H1; [reflexivity|].
  apply Z.ltb_ge in H0. apply Z.leb_gt in H1. lia.
Qed.

Arguments fought : simpl never.

Lemma fought_frame (m : model) :
  dungeon (fought m) = dungeon m /\ room (fought m) = room m
  /\ discardPile (fought m) = discardPile m
  /\ selectedCard (fought m) = selectedCard m
  /\ cardsChosen (fought m) = cardsChosen m
  /\ choosingFight (fought m) = choosingFight m
  /\ fightingBarehanded (fought m) = fightingBarehanded m
  /\ avoidedLastRoom (fought m) = avoidedLastRoom m
  /\ potionUsedThisTurn (fought m) = potionUsedThisTurn m.
Proof.
  destruct m; unfold fought; simpl.
  repeat match goal with
         | |- context [if ?b then _ else _] => destruct b
         end; simpl; repeat split; reflexivity.
Qed.

(** [finishFight] on a valid selection: the fight, then the card goes to
    the discard pile and leaves the room, and the room is topped up when a
    single card is left. *)
Lemma finishFight_valid (m : model) :
  0 <= selectedCard m < len (room m) ->
  let card := at_index (room m) (selectedCard m) in
  let m1 := with_choosingFight false
              (with_selectedCard (-1)
                 (with_room (without (selectedCard m) (room m))
                    (discard card (fought m)))) in
  finishFight m
  = Ok (if 4 - len (room m1) =? 3 then dealRoom m1 else m1, CmdNil).
Proof.
  intros H card m1. unfold finishFight.
  replace (selectedCard m <? 0) with false by (symmetry; apply Z.ltb_ge; lia).
  replace (len (room m) <=? selectedCard m) with false by (symmetry; apply Z.leb_gt; lia).
  cbv beta iota zeta. simpl orb. cbv iota.
  fold card. change (let m0 := fought m in
    rm <- removeAt (selectedCard (discard card m0)) (room (discard card m0)) ;;
    (if 4 - len (room (with_choosingFight false (with_selectedCard (-1) (with_room rm (discard card m0))))) =? 3
     then Ok (dealRoom (with_choosingFight false (with_selectedCard (-1) (with_room rm (discard card m0)))), CmdNil)
     else Ok (with_choosingFight false (with_selectedCard (-1) (with_room rm (discard card m0))), CmdNil))
    = Ok (if 4 - len (room m1) =? 3 then dealRoom m1 else m1, CmdNil)).
  cbv zeta.
  destruct (fought_frame m) as (_ & Hr & _ & Hs & _).
  simpl selectedCard. simpl room at 1. rewrite Hr, Hs, (removeAt_ok _ _ H). cbn [bind].
  subst m1. destruct (4 - len _ =? 3); reflexivity.
Qed.

Lemma dealRoom_frame (m : model) :
  health (dealRoom m) = health m /\ weaponLimit (dealRoom m) = weaponLimit m
  /\ equippedWeapon (dealRoom m) = equippedWeapon m
  /\ discardPile (dealRoom m) = discardPile m
  /\ choosingFight (dealRoom m) = choosingFight m.
Proof. rewrite dealRoom_spec. simpl. repeat split. Qed.

Lemma fought_barehanded (m : model) :
  barehanded m (at_index (room m) (selectedCard m)) ->
  fought m
  = with_health (GoInt.sub (health m) (Value (at_index (room m) (selectedCard m)))) m.
Proof.
  unfold barehanded, fought. intros H.
  destruct (fightingBarehanded m) eqn:Hb; simpl; rewrite ?Hb; simpl; [reflexivity|].
  destruct (Card_eqb (equippedWeapon m) emptyCard) eqn:He; simpl; rewrite ?Hb, ?He; simpl;
    [reflexivity|].
  apply Card_eqb_neq in He.
  destruct H as [H | [H | H]]; [discriminate | contradiction |].
  replace (weaponLimit m <? _) with true by (symmetry; apply Z.ltb_lt; exact H).
  simpl. apply Card_eqb_neq in He. rewrite Hb, He. simpl.
  replace (_ <=? weaponLimit m) with false by (symmetry; apply Z.leb_gt; exact H).
  reflexivity.
Qed.

Lemma fought_with_weapon (m : model) :
  let card := at_index (room m) (selectedCard m) in
  let damage := GoInt.sub (Value card) (Value (equippedWeapon m)) in
  ~ barehanded m card ->
  fought m
  = with_equippedWeapon (set_MonsterValue (Value card) (equippedWeapon m))
      (with_weaponLimit (Value card)
         (if 0 <? damage then with_health (GoInt.sub (health m) damage) m else m)).
Proof.
  intros card damage H. unfold barehanded in H. unfold fought. fold card.
  destruct (fightingBarehanded m) eqn:Hb; [tauto|].
  destruct (Card_eqb (equippedWeapon m) emptyCard) eqn:He;
    [apply Card_eqb_eq in He; tauto|].
  assert (Hl : Value card <= weaponLimit m) by lia.
  replace (weaponLimit m <? Value card) with false by (symmetry; apply Z.ltb_ge; exact Hl).
  fold damage.
  destruct (0 <? damage); simpl; rewrite Hb, He; simpl;
    (replace (Value card <=? weaponLimit m) with true by (symmetry; apply Z.leb_le; exact Hl));
    reflexivity.
Qed.

(** C1. A resolved fight costs the monster's rank when the weapon is
    declined, missing or over its ceiling, and leaves the ceiling and the
    weapon as they were; otherwise it costs max(0, monster rank - weapon
    rank) and sets both the ceiling and the weapon's slain value to the
    monster's rank. *)
Theorem finishFight_damage (m : model) :
  0 <= selectedCard m < len (room m) ->
  fight_fits m (at_index (room m) (selectedCard m)) ->
  exists m' : model,
    finishFight m = Ok (m', CmdNil)
    /\ (barehanded m (at_index (room m) (selectedCard m)) ->
        health m' = health m - Value (at_index (room m) (selectedCard m))
        /\ weaponLimit m' = weaponLimit m
        /\ equippedWeapon m' = equippedWeapon m)
    /\ (~ barehanded m (at_index (room m) (selectedCard m)) ->
        health m'
        = health m - Z.max 0 (Value (at_index (room m) (selectedCard m))
                              - Value (equippedWeapon m))
        /\ weaponLimit m' = Value (at_index (room m) (selectedCard m))
        /\ equippedWeapon m'
           = set_MonsterValue (Value (at_index (room m) (selectedCard m)))
                              (equippedWeapon m)).
Proof.
  intros Hsel (Hc & Hw & Hh & Hd).
  rewrite (finishFight_valid m Hsel). cbv zeta.
  set (card := at_index (room m) (selectedCard m)) in *.
  set (m1 := with_choosingFight false _).
  assert (Hm1 : health m1 = health (fought m) /\ weaponLimit m1 = weaponLimit (fought m)
                /\ equippedWeapon m1 = equippedWeapon (fought m))
    by (subst m1; simpl; auto).
  destruct Hm1 as (H1 & H2 & H3).
  eexists. split; [reflexivity|].
  assert (Hres : forall m2, m2 = (if 4 - len (room m1) =? 3 then dealRoom m1 else m1) ->
            health m2 = health (fought m) /\ weaponLimit m2 = weaponLimit (fought m)
            /\ equippedWeapon m2 = equippedWeapon (fought m)).
  { intros m2 ->. destruct (4 - len (room m1) =? 3).
    - destruct (dealRoom_frame m1) as (-> & -> & -> & _). auto.
    - auto. }
  destruct (Hres _ eq_refl) as (-> & -> & ->). clear Hres H1 H2 H3.
  unfold GoInt.in_range, GoInt.min_int, GoInt.max_int in *.
  split; intros Hb.
  - rewrite (fought_barehanded m Hb). fold card. simpl.
    unfold GoInt.sub. rewrite wrap_in_range; [auto | unfold GoInt.in_range, GoInt.min_int, GoInt.max_int; lia].
  - rewrite (fought_with_weapon m Hb). fold card. simpl.
    unfold GoInt.sub.
    rewrite (wrap_in_range (Value card - _))
      by (unfold GoInt.in_range, GoInt.min_int, GoInt.max_int; lia).
    destruct (0 <? Value card - Value (equippedWeapon m)) eqn:Hpos; simpl.
    + apply Z.ltb_lt in Hpos. rewrite wrap_in_range
        by (unfold GoInt.in_range, GoInt.min_int, GoInt.max_int; lia).
      repeat split. lia.
    + apply Z.ltb_ge in Hpos. repeat split. lia.
Qed.

Lemma finishFight_damage_witness :
  0 <= selectedCard fight_example < len (room fight_example)
  /\ fight_fits fight_example
       (at_index (room fight_example) (selectedCard fight_example))
  /\ exists m' : model,
       finishFight fight_example = Ok (m', CmdNil)
       /\ (barehanded fight_example
             (at_index (room fight_example) (selectedCard fight_example)) ->
           health m' = 20 - 10 /\ weaponLimit m' = 14
           /\ equippedWeapon m' = mkCard "Diamond" 5 "Weapon" 0)
       /\ (~ barehanded fight_example
               (at_index (room fight_example) (selectedCard fight_example)) ->
           health m' = 20 - Z.max 0 (10 - 5) /\ weaponLimit m' = 10
           /\ equippedWeapon m' = mkCard "Diamond" 5 "Weapon" 10).
Proof.
  assert (H1 : 0 <= selectedCard fight_example < len (room fight_example))
    by (unfold len; simpl; lia).
  assert (H2 : fight_fits fight_example
                 (at_index (room fight_example) (selectedCard fight_example)))
    by (unfold fight_fits, GoInt.in_range, GoInt.min_int, GoInt.max_int; simpl; lia).
  split; [exact H1 | split; [exact H2 |]].
  exact (finishFight_damage fight_example H1 H2).
Defined.

(** ** Scoring *)

Lemma penalty_loop (pile : list Card) (score : Z) :
  GoInt.in_range score ->
  fold_left
    (fun score card =>
       if String.eqb (Type_ card) "Monster" then GoInt.sub score (Value card)
       else score)
    pile score
  = GoInt.wrap (score - monster_ranks pile).
Proof.
  revert score. induction pile as [|card rest IH]; intros score Hs; simpl.
  - unfold monster_ranks; simpl. rewrite Z.sub_0_r. symmetry. apply wrap_in_range, Hs.
  - unfold monster_ranks in *. simpl.
    destruct (String.eqb (Type_ card) "Monster"); simpl.
    + rewrite IH by apply wrap_is_int. unfold GoInt.sub.
      rewrite wrap_sub_wrap. f_equal. lia.
    + apply IH, Hs.
Qed.

Lemma at_index_last (pile : list Card) (card : Card) :
  at_index (pile ++ [card]) (len (pile ++ [card]) - 1) = card.
Proof.
  unfold at_index, len. rewrite length_app. simpl.
  replace (Z.to_nat (Z.of_nat (List.length pile + 1) - 1)) with (List.length pile) by lia.
  apply nth_middle.
Qed.

Lemma last_discarded_some (m : model) (card : Card) :
  last_discarded m = Some card ->
  exists pile, discardPile m = pile ++ [card].
Proof.
  unfold last_discarded. destruct (rev (discardPile m)) as [|c r] eqn:Hr; [discriminate|].
  intros H; inversion H; subst c. exists (rev r).
  rewrite <- (rev_involutive (discardPile m)), Hr. reflexivity.
Qed.

Lemma last_discarded_none (m : model) :
  last_discarded m = None -> discardPile m = [].
Proof.
  unfold last_discarded. destruct (rev (discardPile m)) as [|c r] eqn:Hr; [|discriminate].
  intros _. rewrite <- (rev_involutive (discardPile m)), Hr. reflexivity.
Qed.

(** C2. [calculateScore] is a function of the session alone and returns:
    at health <= 0, the health minus the ranks of the Monster cards left in
    the dungeon; otherwise the health, plus the rank of the last discarded
    card exactly when the health is 20 and that card is a Potion. *)
Theorem calculateScore_spec (m : model) :
  score_fits m -> calculateScore m = score_spec m.
Proof.
  intros (Hh & Hp & Hb). unfold calculateScore, score_spec.
  destruct (health m <=? 0).
  - rewrite penalty_loop by exact Hh. apply wrap_in_range, Hp.
  - destruct (last_discarded m) as [card|] eqn:Hl.
    + destruct (last_discarded_some m card Hl) as [pile Hpile].
      rewrite Hpile, at_index_last.
      replace (0 <? len (pile ++ [card])) with true
        by (symmetry; apply Z.ltb_lt; rewrite len_app; change (len [card]) with 1;
            pose proof (len_nonneg pile); lia).
      rewrite andb_true_r.
      destruct (health m =? 20) eqn:H20; simpl; [|reflexivity].
      destruct (String.eqb (Type_ card) "Potion"); [|reflexivity].
      apply Z.eqb_eq in H20. unfold GoInt.add. rewrite H20.
      apply wrap_in_range, Hb. reflexivity.
    + rewrite (last_discarded_none m Hl). simpl.
      rewrite andb_false_r. reflexivity.
Qed.

Lemma calculateScore_spec_witness :
  score_fits score_example /\ calculateScore score_example = 27.
Proof.
  assert (H : score_fits score_example).
  { unfold score_fits, GoInt.in_range, GoInt.min_int, GoInt.max_int. simpl.
    split; [lia | split; [lia | intros card Hc; inversion Hc; simpl; lia]]. }
  split; [exact H | exact (calculateScore_spec score_example H)].
Defined.

(** ** Avoiding a room *)

Lemma Update_avoid (index : Z) (deck : list Card) (m : model) :
  avoidedLastRoom m = false ->
  Update index deck (KeyMsg "a") m
  = Ok (with_avoidedLastRoom true
          (dealRoom (with_room [] (with_dungeon (dungeon m ++ room m) m))),
        CmdNil).
Proof.
  intros H. unfold Update. simpl. rewrite H. simpl.
  rewrite append_room_to_dungeon. reflexivity.
Qed.

Lemma Update_avoid_rejected (index : Z) (deck : list Card) (m : model) :
  avoidedLastRoom m = true -> Update index deck (KeyMsg "a") m = Ok (m, CmdNil).
Proof. intros H. unfold Update. simpl. rewrite H. reflexivity. Qed.

(** C6. Avoiding is rejected, with the session unchanged, when the room
    was already avoided.  Otherwise the cards of the room go behind the
    dungeon in their order, the new room is dealt from the front of that
    dungeon, the flag is set, and an immediate second avoid is rejected. *)
Theorem avoid_room_once (index : Z) (deck : list Card) (m : model) :
  (avoidedLastRoom m = true ->
   Update index deck (KeyMsg "a") m = Ok (m, CmdNil))
  /\ (avoidedLastRoom m = false ->
      exists m' : model,
        Update index deck (KeyMsg "a") m = Ok (m', CmdNil)
        /\ room m' = firstn 4 (dungeon m ++ room m)
        /\ dungeon m' = skipn 4 (dungeon m ++ room m)
        /\ avoidedLastRoom m' = true
        /\ discardPile m' = discardPile m
        /\ equippedWeapon m' = equippedWeapon m
        /\ health m' = health m
        /\ forall (index' : Z) (deck' : list Card),
             Update index' deck' (KeyMsg "a") m' = Ok (m', CmdNil)).
Proof.
  split; [apply Update_avoid_rejected|].
  intros H. eexists. split; [apply Update_avoid, H|].
  rewrite dealRoom_spec. simpl.
  repeat split.
Qed.

(** The first room of the unshuffled deck, about to be avoided. *)
Lemma avoid_room_once_witness :
  avoidedLastRoom (initialModel createDeck) = false
  /\ exists m' : model,
       Update 0 createDeck (KeyMsg "a") (initialModel createDeck) = Ok (m', CmdNil)
       /\ map Value (room m') = [6; 7; 8; 9]
       /\ Update 0 createDeck (KeyMsg "a") m' = Ok (m', CmdNil).
Proof.
  assert (H : avoidedLastRoom (initialModel createDeck) = false) by reflexivity.
  split; [exact H|].
  destruct (proj2 (avoid_room_once 0 createDeck (initialModel createDeck)) H)
    as (m' & Hu & Hr & _ & _ & _ & _ & _ & Hagain).
  exists m'. split; [exact Hu|]. split; [rewrite Hr; reflexivity | apply Hagain].
Defined.

(** Reading a field of an updated session, without touching the
    arithmetic around it. *)
Ltac fields :=
  cbn [health dungeon room equippedWeapon discardPile selectedCard cardsChosen
       weaponLimit choosingFight fightingBarehanded avoidedLastRoom
       potionUsedThisTurn with_health with_dungeon with_room with_equippedWeapon
       with_discardPile with_selectedCard with_cardsChosen with_weaponLimit
       with_choosingFight with_fightingBarehanded with_avoidedLastRoom
       with_potionUsedThisTurn discard set_MonsterValue Value Suit Type_
       MonsterValue] in *.

(** ** An invariant of the reachable sessions *)

Lemma card_ok_empty : card_ok emptyCard.
Proof. unfold card_ok; simpl; lia. Qed.

Lemma at_index_ok (s : list Card) (i : Z) :
  Forall card_ok s -> card_ok (at_index s i).
Proof.
  intros H. unfold at_index.
  destruct (nth_in_or_default (Z.to_nat i) s emptyCard) as [Hin | ->].
  - rewrite Forall_forall in H. apply H, Hin.
  - apply card_ok_empty.
Qed.

Lemma Forall_firstn_skipn {A : Type} (P : A -> Prop) (k : nat) (l : list A) :
  Forall P l -> Forall P (firstn k l) /\ Forall P (skipn k l).
Proof.
  intros H. rewrite <- (firstn_skipn k l) in H. apply Forall_app in H. exact H.
Qed.

Lemma len_firstn_skipn {A : Type} (k : nat) (l : list A) :
  len (firstn k l) + len (skipn k l) = len l.
Proof. rewrite <- len_app, firstn_skipn. reflexivity. Qed.

Lemma Forall_without {A : Type} (P : A -> Prop) (i : Z) (s : list A) :
  Forall P s -> Forall P (without i s).
Proof.
  intros H. unfold without. apply Forall_app. split.
  - apply (Forall_firstn_skipn P _ s H).
  - apply (Forall_firstn_skipn P _ s H).
Qed.

Lemma sound_dealRoom (n : Z) (m : model) : sound_at n m -> sound_at n (dealRoom m).
Proof.
  intros [Hd Hr Hw Hc Hh Hp]. rewrite dealRoom_spec.
  destruct (Forall_firstn_skipn card_ok (missing (room m)) (dungeon m) Hd) as [Hf Hs].
  pose proof (len_firstn_skipn (missing (room m)) (dungeon m)) as Hl.
  constructor; fields; auto.
  - apply Forall_app; auto.
  - rewrite len_app. lia.
Qed.

Lemma barehandedb_spec (m : model) (card : Card) :
  barehandedb m card = true <-> barehanded m card.
Proof.
  unfold barehandedb, barehanded.
  rewrite !orb_true_iff, Card_eqb_eq, Z.ltb_lt. tauto.
Qed.

Lemma barehanded_dec (m : model) (card : Card) :
  barehanded m card \/ ~ barehanded m card.
Proof.
  rewrite <- barehandedb_spec. destruct (barehandedb m card); [left | right]; congruence.
Qed.

(** In a sound session a fight costs between 0 and 14 and keeps a sound
    weapon. *)
Lemma fought_sound (m : model) :
  sound m ->
  health m - 14 <= health (fought m) <= health m
  /\ card_ok (equippedWeapon (fought m)).
Proof.
  intros [Hd Hr Hw Hc Hh Hp].
  pose proof (at_index_ok (room m) (selectedCard m) Hr) as Hcard.
  pose proof (len_nonneg (discardPile m)) as Hn.
  pose proof (len_nonneg (dungeon m)). pose proof (len_nonneg (room m)).
  unfold card_ok in *.
  destruct (barehanded_dec m (at_index (room m) (selectedCard m))) as [Hb | Hb].
  - rewrite (fought_barehanded m Hb). simpl. unfold GoInt.sub.
    rewrite wrap_in_range
      by (unfold GoInt.in_range, GoInt.min_int, GoInt.max_int; lia).
    lia.
  - rewrite (fought_with_weapon m Hb). simpl. unfold GoInt.sub.
    rewrite (wrap_in_range (Value _ - _))
      by (unfold GoInt.in_range, GoInt.min_int, GoInt.max_int; lia).
    destruct (0 <? _) eqn:Hpos; simpl.
    + apply Z.ltb_lt in Hpos. rewrite wrap_in_range
        by (unfold GoInt.in_range, GoInt.min_int, GoInt.max_int; lia).
      lia.
    + lia.
Qed.

Lemma sound_finishFight (m m' : model) (cmd : Cmd) :
  sound m -> finishFight m = Ok (m', cmd) -> sound m'.
Proof.
  unfold sound. intros Hs Hf.
  assert (Hdec : 0 <= selectedCard m < len (room m) \/ ~ 0 <= selectedCard m < len (room m))
    by lia.
  destruct Hdec as [Hsel | Hsel].
  - rewrite (finishFight_valid m Hsel) in Hf. cbv zeta in Hf.
    set (m1 := with_choosingFight false _) in Hf.
    assert (H1 : sound m1).
    { destruct (fought_sound m Hs) as [Hh Hw].
      destruct (fought_frame m) as (Hd & Hr & Hp & _).
      destruct Hs as [Sd Sr Sw Sc Sh Sp].
      subst m1. constructor; fields.
      - rewrite ?Hd. exact Sd.
      - rewrite ?Hr. apply Forall_without, Sr.
      - exact Hw.
      - rewrite ?Hd, ?Hr, ?Hp, len_app, (len_without _ _ Hsel).
        change (len [_]) with 1. lia.
      - rewrite ?Hp, len_app. change (len [_]) with 1. lia.
      - rewrite ?Hp. apply Forall_app. split; [exact Sp|].
        constructor; [apply at_index_ok, Sr | constructor]. }
    destruct (4 - len (room m1) =? 3); inversion Hf; subst m';
      [apply sound_dealRoom|]; exact H1.
  - rewrite (finishFight_invalid m Hsel) in Hf. inversion Hf; subst m'.
    destruct Hs. constructor; fields; auto.
Qed.

(** ** Potions *)

Lemma healed_le_20 (m : model) (card : Card) : healed m card <= 20.
Proof.
  unfold healed. destruct (20 <? _) eqn:H; [lia | apply Z.ltb_ge in H; exact H].
Qed.

Lemma usePotion_first (index : Z) (card : Card) (m : model) :
  potionUsedThisTurn m = false ->
  usePotion index card m
  = rm <- removeAt index (room m) ;; Ok (drunk rm card m).
Proof.
  intros H. unfold usePotion, drunk, healed. rewrite H. cbn [negb]. cbv zeta.
  fields. destruct (20 <? GoInt.add (health m) (Value card)); fields;
    (destruct (removeAt index (room m)) as [rm|]; cbn [bind]; [|reflexivity]);
    destruct (4 - len rm =? 3); reflexivity.
Qed.

Lemma usePotion_again (index : Z) (card : Card) (m : model) :
  potionUsedThisTurn m = true -> usePotion index card m = Ok (discard card m).
Proof. intros H. unfold usePotion. rewrite H. reflexivity. Qed.

Lemma sound_drunk (n : Z) (i : Z) (card : Card) (m : model) :
  n <= 100 -> card_ok card -> sound_at n m -> 0 <= i < len (room m) ->
  sound_at n (drunk (without i (room m)) card m).
Proof.
  intros Hn Hc [Sd Sr Sw Sc Sh Sp] Hi. unfold drunk. cbv zeta.
  pose proof (len_nonneg (discardPile m)). pose proof (len_nonneg (dungeon m)).
  assert (Hh : health m <= healed m card <= 20).
  { split; [|apply healed_le_20]. unfold healed, card_ok, GoInt.add in *.
    rewrite wrap_in_range
      by (unfold GoInt.in_range, GoInt.min_int, GoInt.max_int; lia).
    destruct (20 <? _); lia. }
  match goal with
  | |- sound_at n (if _ then dealRoom ?x else _) => assert (H1 : sound_at n x)
  end.
  { constructor; fields; auto.
    - apply Forall_without, Sr.
    - rewrite len_app, (len_without _ _ Hi). change (len [_]) with 1. lia.
    - rewrite len_app. change (len [_]) with 1. lia.
    - apply Forall_app. split; [exact Sp | constructor; [exact Hc | constructor]]. }
  destruct (_ =? 3); [apply sound_dealRoom|]; exact H1.
Qed.

(** A potion either keeps the bound on the piles (first potion: one card
    discarded, one removed) or adds one card to them (wasted potion: the
    card is discarded and still in the room). *)
Lemma sound_usePotion (index : Z) (card : Card) (m m' : model) :
  card_ok card -> sound m -> usePotion index card m = Ok m' ->
  sound_at 45 m'
  /\ (potionUsedThisTurn m = false -> sound m').
Proof.
  unfold sound. intros Hc Hs Hu.
  destruct (potionUsedThisTurn m) eqn:Hp.
  - rewrite (usePotion_again _ _ _ Hp) in Hu. inversion Hu; subst m'.
    split; [|discriminate].
    destruct Hs as [Sd Sr Sw Sc Sh Sp]. constructor; fields; auto.
    + rewrite len_app. change (len [_]) with 1. lia.
    + rewrite len_app. change (len [_]) with 1. lia.
    + apply Forall_app. split; [exact Sp | constructor; [exact Hc | constructor]].
  - rewrite (usePotion_first _ _ _ Hp) in Hu.
    destruct (removeAt index (room m)) as [rm|] eqn:Hr; [|discriminate].
    apply removeAt_inv in Hr. destruct Hr as [Hi ->].
    cbn [bind] in Hu. inversion Hu; subst m'.
    assert (H44 : sound_at 44 (drunk (without index (room m)) card m))
      by (apply sound_drunk; [lia | assumption..]).
    split; [|intros _; exact H44].
    destruct H44. constructor; auto. lia.
Qed.

(** ** Selecting a card *)

Lemma sound_equipWeapon_removed (i : Z) (card : Card) (m : model) :
  card_ok card -> sound m -> 0 <= i < len (room m) ->
  sound (with_room (without i (room (equipWeapon card m))) (equipWeapon card m)).
Proof.
  unfold sound. intros Hc [Sd Sr Sw Sc Sh Sp] Hi. unfold equipWeapon. cbv zeta.
  destruct (negb (Card_eqb (equippedWeapon m) emptyCard)); constructor; fields; auto.
  - apply Forall_without, Sr.
  - rewrite len_app, (len_without _ _ Hi). change (len [_]) with 1. lia.
  - rewrite len_app. change (len [_]) with 1. lia.
  - apply Forall_app. split; [exact Sp | constructor; [exact Sw | constructor]].
  - apply Forall_without, Sr.
  - rewrite (len_without _ _ Hi). lia.
Qed.

Lemma sound_flags (n : Z) (m m' : model) :
  sound_at n m ->
  dungeon m' = dungeon m -> room m' = room m ->
  equippedWeapon m' = equippedWeapon m -> discardPile m' = discardPile m ->
  health m' = health m ->
  sound_at n m'.
Proof.
  intros [Sd Sr Sw Sc Sh Sp] H1 H2 H3 H4 H5.
  constructor; rewrite ?H1, ?H2, ?H3, ?H4, ?H5; assumption.
Qed.

Lemma sound_selectCard (index i : Z) (m m' : model) :
  sound m -> selectCard index i m = Ok m' -> sound m'.
Proof.
  intros Hs Hsel. unfold selectCard in Hsel.
  destruct ((0 <=? i) && (i <? len (room m)) && (cardsChosen m <? 3)) eqn:Hg;
    [|inversion Hsel; subst; exact Hs].
  apply andb_true_iff in Hg. destruct Hg as [Hg _].
  apply andb_true_iff in Hg. destruct Hg as [H0 H1].
  apply Z.leb_le in H0. apply Z.ltb_lt in H1.
  cbv zeta in Hsel.
  set (card := at_index (room m) i) in *.
  set (m2 := with_cardsChosen _ _) in *.
  assert (Hc : card_ok card) by (apply at_index_ok, Hs).
  assert (H2 : sound m2) by (apply (sound_flags 44 m); auto).
  assert (Hroom : room m2 = room m) by reflexivity.
  destruct (String.eqb (Type_ card) "Weapon").
  - assert (Hi : 0 <= i < len (room (equipWeapon card m2))).
    { unfold equipWeapon. cbv zeta.
      destruct (negb _); fields; rewrite Hroom; lia. }
    rewrite (removeAt_ok _ _ Hi) in Hsel. cbn [bind] in Hsel.
    inversion Hsel; subst m'.
    apply (sound_equipWeapon_removed i card m2); auto.
  - destruct (String.eqb (Type_ card) "Potion").
    + destruct (usePotion index card m2) as [m3|] eqn:Hu; [|discriminate].
      cbn [bind] in Hsel.
      destruct (removeAt i (room m3)) as [rm|] eqn:Hr; [|discriminate].
      cbn [bind] in Hsel. inversion Hsel; subst m'.
      apply removeAt_inv in Hr. destruct Hr as [Hi ->].
      destruct (sound_usePotion _ _ _ _ Hc H2 Hu) as [[Sd Sr Sw Sc Sh Sp] _].
      unfold sound. constructor; fields; auto.
      * apply Forall_without, Sr.
      * rewrite (len_without _ _ Hi). lia.
    + destruct (String.eqb (Type_ card) "Monster"); inversion Hsel; subst m'.
      * apply (sound_flags 44 m2); auto.
      * exact H2.
Qed.

(** ** Reachable sessions are sound *)

Lemma createDeck_ok : Forall card_ok createDeck.
Proof.
  unfold createDeck, ranks. simpl.
  repeat constructor; unfold card_ok; simpl; lia.
Qed.

Lemma len_createDeck : len createDeck = 44.
Proof. reflexivity. Qed.

Lemma len_shuffle (deck : list Card) : Permutation createDeck deck -> len deck = 44.
Proof.
  intros H. unfold len. rewrite <- (Permutation_length H). reflexivity.
Qed.

Lemma sound_initialModel (deck : list Card) :
  Permutation createDeck deck -> sound (initialModel deck).
Proof.
  intros H. unfold initialModel. cbv zeta. apply sound_dealRoom.
  constructor; fields.
  - eapply Permutation_Forall; [exact H | exact createDeck_ok].
  - constructor.
  - apply card_ok_empty.
  - rewrite (len_shuffle deck H). change (len []) with 0. lia.
  - change (len []) with 0. lia.
  - constructor.
Qed.

Lemma sound_avoid (m : model) :
  sound m ->
  sound (with_avoidedLastRoom true
           (dealRoom (with_room [] (with_dungeon (dungeon m ++ room m) m)))).
Proof.
  intros [Sd Sr Sw Sc Sh Sp].
  apply (sound_flags 44 (dealRoom (with_room [] (with_dungeon (dungeon m ++ room m) m))));
    try reflexivity.
  apply sound_dealRoom. constructor; fields; auto.
  - apply Forall_app; auto.
  - rewrite len_app. change (len []) with 0. lia.
Qed.

Lemma fmap_pair_inv (r : result model) (m' : model) (cmd : Cmd) :
  fmap (fun m => (m, CmdNil)) r = Ok (m', cmd) -> r = Ok m' /\ cmd = CmdNil.
Proof.
  destruct r as [m|]; simpl; [|discriminate].
  intros H; inversion H; auto.
Qed.

Lemma sound_Update (index : Z) (deck : list Card) (msg : Msg)
      (m m' : model) (cmd : Cmd) :
  Permutation createDeck deck -> sound m ->
  Update index deck msg m = Ok (m', cmd) -> sound m'.
Proof.
  intros Hp Hs Hu. unfold Update in Hu.
  destruct msg as [key|]; [|inversion Hu; subst; exact Hs].
  repeat match type of Hu with
         | (if String.eqb key ?k then _ else _) = _ =>
             destruct (String.eqb key k)
         end;
    try (inversion Hu; subst; exact Hs).
  - (* a *)
    destruct (negb (avoidedLastRoom m)); [|inversion Hu; subst; exact Hs].
    cbv zeta in Hu. rewrite append_room_to_dungeon in Hu.
    inversion Hu; subst m'. apply sound_avoid, Hs.
  - (* d *)
    inversion Hu; subst m'. apply sound_dealRoom, Hs.
  - apply fmap_pair_inv in Hu. destruct Hu as [Hu _].
    exact (sound_selectCard _ _ _ _ Hs Hu).
  - apply fmap_pair_inv in Hu. destruct Hu as [Hu _].
    exact (sound_selectCard _ _ _ _ Hs Hu).
  - apply fmap_pair_inv in Hu. destruct Hu as [Hu _].
    exact (sound_selectCard _ _ _ _ Hs Hu).
  - apply fmap_pair_inv in Hu. destruct Hu as [Hu _].
    exact (sound_selectCard _ _ _ _ Hs Hu).
  - (* b *)
    destruct (choosingFight m); [|inversion Hu; subst; exact Hs].
    refine (sound_finishFight _ _ _ _ Hu).
    apply (sound_flags 44 m); auto.
  - (* w *)
    destruct (choosingFight m); [|inversion Hu; subst; exact Hs].
    refine (sound_finishFight _ _ _ _ Hu).
    apply (sound_flags 44 m); auto.
  - (* r *)
    destruct (health m <=? 0); inversion Hu; subst m'; [|exact Hs].
    apply sound_initialModel, Hp.
Qed.

Lemma reachable_sound (m : model) : reachable m -> sound m.
Proof.
  induction 1 as [deck Hp | m m' index deck msg cmd _ IH Hp Hu].
  - apply sound_initialModel, Hp.
  - exact (sound_Update _ _ _ _ _ _ Hp IH Hu).
Qed.

(** The assumptions of the fight and score theorems hold in every
    reachable session. *)
Lemma reachable_fight_fits (m : model) :
  reachable m -> fight_fits m (at_index (room m) (selectedCard m)).
Proof.
  intros Hr. destruct (reachable_sound m Hr) as [Sd Sr Sw Sc Sh Sp].
  pose proof (at_index_ok (room m) (selectedCard m) Sr) as Hc.
  pose proof (len_nonneg (discardPile m)). pose proof (len_nonneg (dungeon m)).
  pose proof (len_nonneg (room m)).
  unfold fight_fits, card_ok, GoInt.in_range, GoInt.min_int, GoInt.max_int in *. lia.
Qed.

Lemma monster_ranks_bound (pile : list Card) :
  Forall card_ok pile -> 0 <= monster_ranks pile <= 14 * len pile.
Proof.
  unfold monster_ranks.
  induction 1 as [|card rest Hc _ IH]; [unfold len; simpl; lia|].
  change (len (card :: rest)) with (len ([card] ++ rest)). rewrite len_app.
  change (len [card]) with 1. unfold card_ok in Hc.
  cbn [filter]. destruct (String.eqb (Type_ card) "Monster"); cbn [map fold_right]; lia.
Qed.

Lemma reachable_score_fits (m : model) : reachable m -> score_fits m.
Proof.
  intros Hr. destruct (reachable_sound m Hr) as [Sd Sr Sw Sc Sh Sp].
  pose proof (monster_ranks_bound (dungeon m) Sd).
  pose proof (len_nonneg (discardPile m)). pose proof (len_nonneg (dungeon m)).
  pose proof (len_nonneg (room m)).
  unfold score_fits, GoInt.in_range, GoInt.min_int, GoInt.max_int.
  split; [lia | split; [lia|]].
  intros card Hl. destruct (last_discarded_some m card Hl) as [pile Hpile].
  rewrite Hpile in Sp. apply Forall_app in Sp. destruct Sp as [_ Sp].
  inversion Sp as [|? ? Hc _]; subst. unfold card_ok in Hc. lia.
Qed.

(** C3. In every reachable session the health is at most 20, and it
    still is after any call of [usePotion] that returns, whatever the card
    and whatever [index] holds. *)
Theorem health_never_exceeds_20 (m : model) :
  reachable m ->
  health m <= 20
  /\ forall (index : Z) (card : Card) (m' : model),
       usePotion index card m = Ok m' -> health m' <= 20.
Proof.
  intros Hr. pose proof (reachable_sound m Hr) as [_ _ _ _ Hh _].
  split; [lia|].
  intros index card m' Hu.
  destruct (potionUsedThisTurn m) eqn:Hp.
  - rewrite (usePotion_again _ _ _ Hp) in Hu. inversion Hu; subst m'. fields. lia.
  - rewrite (usePotion_first _ _ _ Hp) in Hu.
    destruct (removeAt index (room m)) as [rm|]; [|discriminate].
    cbn [bind] in Hu. inversion Hu; subst m'. unfold drunk. cbv zeta.
    destruct (_ =? 3).
    + destruct (dealRoom_frame
                  (with_room rm
                     (with_potionUsedThisTurn true
                        (discard card (with_health (healed m card) m)))))
        as (-> & _).
      fields. apply healed_le_20.
    + fields. apply healed_le_20.
Qed.

Lemma health_never_exceeds_20_witness :
  reachable (initialModel createDeck)
  /\ health (initialModel createDeck) <= 20
  /\ forall (index : Z) (card : Card) (m' : model),
       usePotion index card (initialModel createDeck) = Ok m' -> health m' <= 20.
Proof.
  assert (H : reachable (initialModel createDeck))
    by (apply reach_init, Permutation_refl).
  split; [exact H | exact (health_never_exceeds_20 (initialModel createDeck) H)].
Defined.

Lemma selectCard_guard (i : Z) (m : model) :
  selectable i m ->
  (0 <=? i) && (i <? len (room m)) && (cardsChosen m <? 3) = true.
Proof.
  intros [[H0 H1] H2]. rewrite !andb_true_iff, Z.leb_le, !Z.ltb_lt. auto.
Qed.

Lemma selectCard_rejected (index i : Z) (m : model) :
  ~ selectable i m -> selectCard index i m = Ok m.
Proof.
  intros H. unfold selectCard.
  destruct ((0 <=? i) && (i <? len (room m)) && (cardsChosen m <? 3)) eqn:Hg;
    [|reflexivity].
  exfalso. apply H. rewrite !andb_true_iff, Z.leb_le, !Z.ltb_lt in Hg.
  unfold selectable. tauto.
Qed.




(** ** Concrete shuffles and runs *)

Section ShuffleTestSound.

Context {A : Type} (eqb : A -> A -> bool).
Hypothesis eqb_eq : forall a b, eqb a b = true -> a = b.

Lemma take_out_perm (c : A) (l l' : list A) :
  take_out eqb c l = Some l' -> Permutation l (c :: l').
Proof.
  revert l'. induction l as [|x rest IH]; intros l' H; simpl in H; [discriminate|].
  destruct (eqb c x) eqn:E.
  - apply eqb_eq in E. inversion H; subst. apply Permutation_refl.
  - destruct (take_out eqb c rest) as [rest'|]; [|discriminate].
    inversion H; subst l'.
    apply (perm_trans (perm_skip x (IH rest' eq_refl))). apply perm_swap.
Qed.

Lemma is_shuffle_of_sound (l1 l2 : list A) :
  is_shuffle_of eqb l1 l2 = true -> Permutation l1 l2.
Proof.
  revert l2. induction l1 as [|c rest IH]; intros l2 H; simpl in H.
  - destruct l2; [apply perm_nil | discriminate].
  - destruct (take_out eqb c l2) as [l2'|] eqn:E; [|discriminate].
    apply take_out_perm in E. apply Permutation_sym in E.
    apply (perm_trans (perm_skip c (IH l2' H)) E).
Qed.

End ShuffleTestSound.

Lemma shuffle_by_test (deck : list Card) :
  is_shuffle_of Card_eqb createDeck deck = true -> Permutation createDeck deck.
Proof.
  apply is_shuffle_of_sound. intros a b H. apply Card_eqb_eq, H.
Qed.

Lemma reachable_run (index : Z) (deck : list Card) (msgs : list Msg) (m m' : model) :
  Permutation createDeck deck -> reachable m ->
  run index deck msgs m = Ok m' -> reachable m'.
Proof.
  intros Hp. revert m. induction msgs as [|msg rest IH]; intros m Hr Hrun; simpl in Hrun.
  - inversion Hrun; subst; exact Hr.
  - destruct (Update index deck msg m) as [[m1 cmd]|] eqn:Hu; [|discriminate].
    cbn [bind fst] in Hrun.
    exact (IH m1 (reach_step m m1 index deck msg cmd Hr Hp Hu) Hrun).
Qed.

Lemma reachable_run_from (index : Z) (deck : list Card) (names : list string) :
  Permutation createDeck deck ->
  reachable (run_from index deck names (initialModel deck)).
Proof.
  intros Hp. unfold run_from.
  destruct (run index deck (keys names) (initialModel deck)) as [m'|] eqn:Hrun.
  - exact (reachable_run _ _ _ _ _ Hp (reach_init deck Hp) Hrun).
  - exact (reach_init deck Hp).
Qed.

(** ** After the game is over *)




(** ** While a fight choice is pending *)

(** C8, as stated, fails: with a fight choice pending the key "a" still
    sends the room behind the dungeon and deals the next one. *)
Lemma idle_only_fails : ~ idle_only.
Proof.
  intros H.
  assert (Hr : reachable pending_example)
    by (apply reachable_run_from, Permutation_refl).
  assert (Hc : choosingFight pending_example = true) by reflexivity.
  assert (Hk : In "a" ["1"; "2"; "3"; "4"; "a"]) by (simpl; tauto).
  destruct (Update 0 createDeck (KeyMsg "a") pending_example) as [[m' cmd]|] eqn:Hu;
    [|vm_compute in Hu; discriminate].
  pose proof (H pending_example m' 0 createDeck "a" cmd Hr Hc Hk Hu) as E.
  subst m'. vm_compute in Hu. discriminate.
Qed.

Lemma dealRoom_choosing (b : bool) (m : model) :
  dealRoom (with_choosingFight b m) = with_choosingFight b (dealRoom m).
Proof. rewrite !dealRoom_spec. reflexivity. Qed.

Lemma usePotion_choosing (index : Z) (card : Card) (b : bool) (m : model) :
  usePotion index card (with_choosingFight b m)
  = fmap (with_choosingFight b) (usePotion index card m).
Proof.
  destruct (potionUsedThisTurn m) eqn:Hp.
  - rewrite !usePotion_again by exact Hp. reflexivity.
  - rewrite !usePotion_first by exact Hp. fields.
    destruct (removeAt index (room m)) as [rm|]; [|reflexivity].
    cbn [bind fmap]. f_equal. unfold drunk. cbv zeta.
    destruct (4 - len rm =? 3); [|reflexivity].
    rewrite <- dealRoom_choosing. reflexivity.
Qed.

Lemma equipWeapon_choosing (card : Card) (b : bool) (m : model) :
  equipWeapon card (with_choosingFight b m)
  = with_choosingFight b (equipWeapon card m).
Proof.
  unfold equipWeapon. cbv zeta. fields.
  destruct (negb (Card_eqb (equippedWeapon m) emptyCard)); reflexivity.
Qed.

Lemma chosen_choosing (c i : Z) (b : bool) (m : model) :
  with_cardsChosen c (with_selectedCard i (with_choosingFight b m))
  = with_choosingFight b (with_cardsChosen c (with_selectedCard i m)).
Proof. reflexivity. Qed.

Lemma selectCard_choosing (index i : Z) (m : model) :
  selectCard index i (with_choosingFight true m)
  = fmap (with_choosingFight true) (selectCard index i m).
Proof.
  unfold selectCard. fields.
  destruct ((0 <=? i) && (i <? len (room m)) && (cardsChosen m <? 3)); [|reflexivity].
  cbv zeta.
  destruct (String.eqb (Type_ (at_index (room m) i)) "Weapon").
  - rewrite chosen_choosing, equipWeapon_choosing. fields.
    destruct (removeAt i _); reflexivity.
  - destruct (String.eqb (Type_ (at_index (room m) i)) "Potion").
    + rewrite chosen_choosing, usePotion_choosing.
      destruct (usePotion index _ _) as [m3|]; [|reflexivity].
      cbn [bind fmap]. fields.
      destruct (removeAt i (room m3)); reflexivity.
    + destruct (String.eqb (Type_ (at_index (room m) i)) "Monster"); reflexivity.
Qed.

(** C8, amended. A pending fight choice blocks nothing: a selection and
    an avoid act from [AwaitingFightChoice] exactly as from [Idle], the
    choice staying pending.  The gate is the other way round: a fight style
    is a no-op unless a choice is pending. *)
Theorem pending_choice_blocks_nothing (index : Z) (deck : list Card) (m : model) :
  (forall i : Z,
     selectCard index i (with_choosingFight true m)
     = fmap (with_choosingFight true) (selectCard index i m))
  /\ Update index deck (KeyMsg "a") (with_choosingFight true m)
     = fmap (fun r => (with_choosingFight true (fst r), snd r))
            (Update index deck (KeyMsg "a") m)
  /\ (choosingFight m = false ->
      Update index deck (KeyMsg "b") m = Ok (m, CmdNil)
      /\ Update index deck (KeyMsg "w") m = Ok (m, CmdNil)).
Proof.
  split; [intros i; apply selectCard_choosing|]. split.
  - destruct (avoidedLastRoom m) eqn:Ha.
    + rewrite !Update_avoid_rejected by exact Ha. reflexivity.
    + rewrite !Update_avoid by exact Ha. cbn [fmap bind fst snd]. fields.
      rewrite !dealRoom_spec. reflexivity.
  - intros H. unfold Update. simpl. rewrite H. split; reflexivity.
Qed.

Lemma pending_choice_blocks_nothing_witness :
  choosingFight (initialModel createDeck) = false
  /\ Update 0 createDeck (KeyMsg "b") (initialModel createDeck)
     = Ok (initialModel createDeck, CmdNil)
  /\ Update 0 createDeck (KeyMsg "a") pending_example
     = Ok (with_choosingFight true
             (run_from 0 createDeck ["a"] (initialModel createDeck)), CmdNil).
Proof.
  assert (H : choosingFight (initialModel createDeck) = false) by reflexivity.
  destruct (pending_choice_blocks_nothing 0 createDeck (initialModel createDeck))
    as (_ & _ & Hb).
  split; [exact H | split; [exact (proj1 (Hb H)) |]].
  destruct (pending_choice_blocks_nothing 0 createDeck
              (with_choosingFight false pending_example)) as (_ & Ha & _).
  exact Ha.
Defined.

(** ** The card left in the room at a refill *)

Lemma dealRoom_len (m : model) :
  len (room m) <= 4 ->
  len (room (dealRoom m)) = Z.min 4 (len (room m) + len (dungeon m)).
Proof.
  intros H. rewrite dealRoom_spec. fields. rewrite len_app.
  unfold len at 2. rewrite length_firstn. unfold missing.
  pose proof (len_nonneg (room m)). unfold len in *. lia.
Qed.

Lemma legacy_reachable_run (deck : list Legacy.Card) (msgs : list Msg)
      (m m' : Legacy.model) :
  Permutation Legacy.createDeck deck -> Legacy.reachable m ->
  Legacy.run deck msgs m = Ok m' -> Legacy.reachable m'.
Proof.
  intros Hp. revert m. induction msgs as [|msg rest IH]; intros m Hr Hrun; simpl in Hrun.
  - inversion Hrun; subst; exact Hr.
  - destruct (Legacy.Update deck msg m) as [[m1 cmd]|] eqn:Hu; [|discriminate].
    cbn [bind fst] in Hrun.
    exact (IH m1 (Legacy.reach_step m m1 deck msg cmd Hr Hp Hu) Hrun).
Qed.

Lemma legacy_reachable_run_from (deck : list Legacy.Card) (names : list string) :
  Permutation Legacy.createDeck deck ->
  Legacy.reachable (Legacy.run_from deck names (Legacy.initialModel deck)).
Proof.
  intros Hp. unfold Legacy.run_from.
  destruct (Legacy.run deck (keys names) (Legacy.initialModel deck)) as [m'|] eqn:Hrun.
  - exact (legacy_reachable_run _ _ _ _ Hp (Legacy.reach_init deck Hp) Hrun).
  - exact (Legacy.reach_init deck Hp).
Qed.

(** C9, as stated, fails on [main.go]: the third selection discards the
    card left in the room (here Club 5) and deals four new cards. *)
Lemma legacy_leftover_persists_fails : ~ legacy_leftover_persists.
Proof.
  intros H.
  assert (Hr : Legacy.reachable legacy_third_example)
    by (apply legacy_reachable_run_from, Permutation_refl).
  destruct (Legacy.selectCard 0 legacy_third_example) as [m'|] eqn:Hs;
    [|vm_compute in Hs; discriminate].
  assert (Hin : In (Legacy.mkCard "Club" 5 "Monster")
                   (without 0 (Legacy.room legacy_third_example)))
    by (left; reflexivity).
  assert (Hi : 0 <= 0 < len (Legacy.room legacy_third_example))
    by (vm_compute; split; [discriminate | reflexivity]).
  pose proof (H legacy_third_example m' 0 _ Hr eq_refl Hi Hs Hin) as Hbad.
  vm_compute in Hs. inversion Hs; subst m'. simpl in Hbad.
  repeat (destruct Hbad as [Hbad | Hbad]; [discriminate Hbad|]). exact Hbad.
Qed.

Lemma legacy_dealLoop_spec (n : nat) (dg rm : list Legacy.Card) :
  Legacy.dealLoop n rm dg = (rm ++ firstn n dg, skipn n dg).
Proof.
  revert dg rm. induction n as [|n IH]; intros dg rm; simpl.
  - rewrite app_nil_r. reflexivity.
  - destruct dg as [|card rest]; simpl.
    + rewrite app_nil_r. reflexivity.
    + rewrite IH, <- app_assoc. reflexivity.
Qed.

Lemma legacy_resolved_frame (card : Legacy.Card) (m : Legacy.model) :
  Legacy.room (legacy_resolved card m) = Legacy.room m
  /\ Legacy.dungeon (legacy_resolved card m) = Legacy.dungeon m
  /\ Legacy.cardsChosen (legacy_resolved card m) = Legacy.cardsChosen m.
Proof.
  unfold legacy_resolved, Legacy.equipWeapon, Legacy.usePotion, Legacy.fightMonster.
  destruct m; cbv zeta.
  repeat match goal with
         | |- context [if ?b then _ else _] => destruct b
         end; repeat split.
Qed.

Lemma legacy_third_selection (m : Legacy.model) (i : Z) :
  0 <= i < len (Legacy.room m) -> Legacy.cardsChosen m = 2 ->
  2 <= len (Legacy.room m) ->
  exists (m' : Legacy.model) (pile : list Legacy.Card),
    Legacy.selectCard i m = Ok m'
    /\ Legacy.room m' = firstn 4 (Legacy.dungeon m)
    /\ Legacy.dungeon m' = skipn 4 (Legacy.dungeon m)
    /\ Legacy.discardPile m'
       = pile ++ [Legacy.at_index (without i (Legacy.room m)) 0].
Proof.
  intros Hi Hc Hlen. unfold Legacy.selectCard.
  replace (0 <=? i) with true by (symmetry; apply Z.leb_le; lia).
  replace (i <? len (Legacy.room m)) with true by (symmetry; apply Z.ltb_lt; lia).
  rewrite Hc. cbv zeta. cbn [andb Z.ltb Z.compare Pos.compare Pos.compare_cont].
  change (GoInt.add (Legacy.cardsChosen (Legacy.with_selectedCard i m)) 1)
    with (GoInt.add (Legacy.cardsChosen m) 1).
  rewrite Hc. change (GoInt.add 2 1) with 3.
  fold (legacy_resolved (Legacy.at_index (Legacy.room m) i)
          (Legacy.with_cardsChosen 3 (Legacy.with_selectedCard i m))).
  set (m2 := legacy_resolved _ _).
  destruct (legacy_resolved_frame (Legacy.at_index (Legacy.room m) i)
              (Legacy.with_cardsChosen 3 (Legacy.with_selectedCard i m)))
    as (Hr & Hd & Hcc).
  fold m2 in Hr, Hd, Hcc. simpl in Hr, Hd, Hcc.
  rewrite Hr, (removeAt_ok _ _ Hi). cbn [bind].
  change (Legacy.cardsChosen (Legacy.with_room (without i (Legacy.room m)) m2))
    with (Legacy.cardsChosen m2).
  rewrite Hcc. cbn [Z.eqb Pos.eqb].
  change (Legacy.room (Legacy.with_room (without i (Legacy.room m)) m2))
    with (without i (Legacy.room m)).
  replace (0 <? len (without i (Legacy.room m))) with true
    by (symmetry; apply Z.ltb_lt; rewrite (len_without _ _ Hi); lia).
  eexists. exists (Legacy.discardPile m2). split; [reflexivity|].
  unfold Legacy.dealRoom. cbv zeta.
  cbn [Legacy.room Legacy.dungeon Legacy.with_room Legacy.discard
       Legacy.with_discardPile Legacy.discardPile].
  rewrite legacy_dealLoop_spec, Hd. repeat split.
Qed.

(** C9, amended. In the game loop with the fight-style choice a refill
    only tops the room up from the front of the dungeon, to 4 cards or to
    what the dungeon still holds, and discards nothing; so when a fight
    leaves one card in the room, that card heads the next room.  In
    [main.go] the third selection discards the first card left in the room
    and deals a fresh room. *)
Theorem refill_keeps_leftover :
  (forall m : model,
     room (dealRoom m) = room m ++ firstn (missing (room m)) (dungeon m)
     /\ dungeon (dealRoom m) = skipn (missing (room m)) (dungeon m)
     /\ discardPile (dealRoom m) = discardPile m
     /\ (len (room m) <= 4 ->
         len (room (dealRoom m)) = Z.min 4 (len (room m) + len (dungeon m))))
  /\ (forall m : model,
        0 <= selectedCard m < len (room m) -> len (room m) = 2 ->
        exists m' : model,
          finishFight m = Ok (m', CmdNil)
          /\ room m' = without (selectedCard m) (room m) ++ firstn 3 (dungeon m)
          /\ dungeon m' = skipn 3 (dungeon m)
          /\ discardPile m'
             = discardPile m ++ [at_index (room m) (selectedCard m)])
  /\ (forall (m : Legacy.model) (i : Z),
        0 <= i < len (Legacy.room m) -> Legacy.cardsChosen m = 2 ->
        2 <= len (Legacy.room m) ->
        exists (m' : Legacy.model) (pile : list Legacy.Card),
          Legacy.selectCard i m = Ok m'
          /\ Legacy.room m' = firstn 4 (Legacy.dungeon m)
          /\ Legacy.dungeon m' = skipn 4 (Legacy.dungeon m)
          /\ Legacy.discardPile m'
             = pile ++ [Legacy.at_index (without i (Legacy.room m)) 0]).
Proof.
  split; [|split].
  - intros m. split; [|split; [|split]].
    + rewrite dealRoom_spec. reflexivity.
    + rewrite dealRoom_spec. reflexivity.
    + rewrite dealRoom_spec. reflexivity.
    + apply dealRoom_len.
  - intros m Hsel Hlen. rewrite (finishFight_valid m Hsel). cbv zeta.
    destruct (fought_frame m) as (Hd & Hr & Hp & _).
    fields.
    assert (Hl : len (without (selectedCard m) (room m)) = 1)
      by (rewrite (len_without _ _ Hsel); lia).
    rewrite Hl. cbn [Z.sub Z.add Z.opp Z.pos_sub Pos.pred_double Z.eqb Pos.eqb Z.succ_double Z.pred_double Z.double].
    eexists. split; [reflexivity|].
    rewrite dealRoom_spec. fields. rewrite Hd, Hp.
    unfold missing. rewrite Hl. repeat split.
  - apply legacy_third_selection.
Qed.

Lemma refill_keeps_leftover_witness :
  (exists m' : model,
     finishFight refill_example = Ok (m', CmdNil)
     /\ room m'
        = [mkCard "Heart" 7 "Potion" 0; mkCard "Club" 2 "Monster" 0;
           mkCard "Club" 3 "Monster" 0; mkCard "Club" 4 "Monster" 0]
     /\ dungeon m' = [mkCard "Club" 5 "Monster" 0]
     /\ discardPile m' = [mkCard "Spade" 10 "Monster" 0])
  /\ (exists (m' : Legacy.model) (pile : list Legacy.Card),
        Legacy.selectCard 0 legacy_third_example = Ok m'
        /\ Legacy.room m' = firstn 4 (Legacy.dungeon legacy_third_example)
        /\ Legacy.dungeon m' = skipn 4 (Legacy.dungeon legacy_third_example)
        /\ Legacy.discardPile m' = pile ++ [Legacy.mkCard "Club" 5 "Monster"]).
Proof.
  destruct refill_keeps_leftover as (_ & Hnew & Hold).
  split.
  - apply (Hnew refill_example); unfold len; simpl; lia.
  - apply (Hold legacy_third_example 0).
    + vm_compute. split; [discriminate | reflexivity].
    + reflexivity.
    + vm_compute. discriminate.
Defined.

(** ** Counting the cards *)

(** C10 fails on a first potion: [usePotion] removes the card at [index]
    from the room and [selectCard] then removes slot 0 as well, so two
    cards leave the room and one reaches the discard pile. *)
Theorem first_potion_loses_a_card :
  reachable before_potion /\ reachable after_potion
  /\ cards_held before_potion = 44
  /\ cards_held after_potion = 43
  /\ map Value (room before_potion) = [10; 9; 8; 7]
  /\ map Value (room after_potion) = [8; 7]
  /\ map Value (discardPile after_potion) = [10]
  /\ dungeon after_potion = dungeon before_potion
  /\ equippedWeapon after_potion = emptyCard.
Proof.
  assert (Hp : Permutation createDeck hearts_first) by apply Permutation_rev.
  split; [exact (reach_init hearts_first Hp)|].
  split; [exact (reachable_run_from 0 hearts_first ["1"] Hp)|].
  repeat (split; [vm_compute; reflexivity|]). vm_compute. reflexivity.
Qed.

(** The other ways out of the room keep the count: a fight, and a weapon
    taken in hand (the deck with the Diamonds and then the Spades on top). *)
Lemma fight_and_equip_keep_the_count :
  cards_held (run_from 0 createDeck ["1"; "b"] (initialModel createDeck)) = 44
  /\ cards_held (run_from 0 (rev (firstn 35 createDeck) ++ skipn 35 createDeck)
                          ["1"; "1"]
                          (initialModel (rev (firstn 35 createDeck)
                                         ++ skipn 35 createDeck))) = 44.
Proof. split; vm_compute; reflexivity. Qed.

(** ** The weapon ceiling *)

(** In the game loop with the fight-style choice a fight never raises the
    ceiling: it is lowered to the monster's rank, or left alone. *)
Lemma fought_ceiling (m : model) : weaponLimit (fought m) <= weaponLimit m.
Proof.
  destruct (barehanded_dec m (at_index (room m) (selectedCard m))) as [Hb | Hb].
  - rewrite (fought_barehanded m Hb). cbn [weaponLimit with_health]. lia.
  - rewrite (fought_with_weapon m Hb). unfold barehanded in Hb.
    destruct (0 <? GoInt.sub _ _);
      cbn [weaponLimit with_health with_weaponLimit with_equippedWeapon]; lia.
Qed.

Lemma finishFight_ceiling (m m' : model) (cmd : Cmd) :
  finishFight m = Ok (m', cmd) -> weaponLimit m' <= weaponLimit m.
Proof.
  intros Hf. pose proof (fought_ceiling m) as Hw.
  assert (Hdec : 0 <= selectedCard m < len (room m) \/ ~ 0 <= selectedCard m < len (room m))
    by lia.
  destruct Hdec as [Hsel | Hsel].
  - rewrite (finishFight_valid m Hsel) in Hf. cbv zeta in Hf.
    set (m1 := with_choosingFight false _) in Hf.
    assert (H1 : weaponLimit m1 = weaponLimit (fought m)) by reflexivity.
    destruct (4 - len (room m1) =? 3); inversion Hf; subst m'.
    + destruct (dealRoom_frame m1) as (_ & -> & _). lia.
    + lia.
  - rewrite (finishFight_invalid m Hsel) in Hf. inversion Hf; subst m'.
    cbn [weaponLimit with_choosingFight]. lia.
Qed.

Lemma legacy_Card_eqb_eq (a b : Legacy.Card) : Legacy.Card_eqb a b = true -> a = b.
Proof.
  unfold Legacy.Card_eqb. destruct a, b; simpl.
  rewrite !andb_true_iff, !String.eqb_eq, !Z.eqb_eq.
  intros [[-> ->] ->]. reflexivity.
Qed.

Lemma legacy_stacked_shuffle : Permutation Legacy.createDeck legacy_stacked.
Proof.
  apply (is_shuffle_of_sound Legacy.Card_eqb legacy_Card_eqb_eq).
  vm_compute. reflexivity.
Qed.

(** C4 fails on [main.go]: [fightMonster] assigns the monster's rank to
    the ceiling whenever a weapon is in hand, so with Diamond 5 in hand
    the ceiling goes from 3 to 10. *)
Theorem legacy_ceiling_rises :
  Legacy.reachable legacy_after_small
  /\ Legacy.Update legacy_stacked (KeyMsg "1") legacy_after_small
     = Ok (legacy_after_big, CmdNil)
  /\ Legacy.equippedWeapon legacy_after_small = Legacy.mkCard "Diamond" 5 "Weapon"
  /\ Legacy.equippedWeapon legacy_after_big = Legacy.mkCard "Diamond" 5 "Weapon"
  /\ Legacy.weaponLimit legacy_after_small = 3
  /\ Legacy.weaponLimit legacy_after_big = 10
  /\ Legacy.health legacy_after_small = 20
  /\ Legacy.health legacy_after_big = 15.
Proof.
  split; [exact (legacy_reachable_run_from legacy_stacked ["1"; "1"] legacy_stacked_shuffle)|].
  repeat (split; [vm_compute; reflexivity|]). vm_compute. reflexivity.
Qed.

(** * Further properties of the code *)

(** ** The deck and the fresh session *)

Lemma count_type_shuffle (type : string) (l1 l2 : list Card) :
  Permutation l1 l2 -> count_type type l1 = count_type type l2.
Proof.
  intros H. unfold count_type.
  induction H as [|x l l' _ IH|x y l|l l' l'' _ IH1 _ IH2]; simpl.
  - reflexivity.
  - destruct (String.eqb (Type_ x) type); simpl; congruence.
  - destruct (String.eqb (Type_ x) type), (String.eqb (Type_ y) type); reflexivity.
  - congruence.
Qed.

Lemma deck_cardb_spec (card : Card) : deck_cardb card = true -> deck_card card.
Proof.
  unfold deck_cardb, deck_card.
  rewrite andb_true_iff, !orb_true_iff, !andb_true_iff, !String.eqb_eq,
    !Z.leb_le, Z.eqb_eq.
  tauto.
Qed.

Lemma createDeck_cards : Forall deck_card createDeck.
Proof.
  apply Forall_forall. intros card Hin. apply deck_cardb_spec.
  assert (H : forallb deck_cardb createDeck = true) by (vm_compute; reflexivity).
  rewrite forallb_forall in H. apply H, Hin.
Qed.

Lemma no_dupb_sound (pile : list Card) : no_dupb pile = true -> NoDup pile.
Proof.
  induction pile as [|card rest IH]; simpl; intros H; [constructor|].
  apply andb_true_iff in H. destruct H as [Hn Hr].
  constructor; [|apply IH, Hr].
  intros Hin. apply negb_true_iff in Hn.
  assert (He : existsb (Card_eqb card) rest = true).
  { apply existsb_exists. exists card. split; [exact Hin | apply Card_eqb_eq; reflexivity]. }
  congruence.
Qed.

Lemma createDeck_NoDup : NoDup createDeck.
Proof. apply no_dupb_sound. vm_compute. reflexivity. Qed.

(** X1. Whatever the shuffle, the deck of a session holds 44 distinct
    cards: 26 Monsters of ranks 2 to 14, 9 Weapons and 9 Potions of ranks
    2 to 10, none with a slain monster on it. *)
Theorem shuffled_deck_composition (deck : list Card) :
  Permutation createDeck deck ->
  len deck = 44 /\ NoDup deck /\ Forall deck_card deck
  /\ count_type "Monster" deck = 26%nat
  /\ count_type "Weapon" deck = 9%nat
  /\ count_type "Potion" deck = 9%nat.
Proof.
  intros H. split; [apply len_shuffle, H|].
  split; [exact (Permutation_NoDup H createDeck_NoDup)|].
  split; [exact (Permutation_Forall H createDeck_cards)|].
  rewrite <- !(count_type_shuffle _ _ _ H).
  repeat (split; [vm_compute; reflexivity|]). vm_compute. reflexivity.
Qed.

Lemma shuffled_deck_composition_witness :
  Permutation createDeck (rev createDeck)
  /\ len (rev createDeck) = 44 /\ NoDup (rev createDeck)
  /\ Forall deck_card (rev createDeck)
  /\ count_type "Monster" (rev createDeck) = 26%nat
  /\ count_type "Weapon" (rev createDeck) = 9%nat
  /\ count_type "Potion" (rev createDeck) = 9%nat.
Proof.
  assert (H : Permutation createDeck (rev createDeck)) by apply Permutation_rev.
  split; [exact H | exact (shuffled_deck_composition (rev createDeck) H)].
Defined.



(** ** Dealing, redealing and avoiding *)

Lemma missing_full (rm : list Card) : 4 <= len rm -> missing rm = 0%nat.
Proof. unfold missing. lia. Qed.

Lemma dealRoom_full (m : model) :
  4 <= len (room m) ->
  room (dealRoom m) = room m /\ dungeon (dealRoom m) = dungeon m.
Proof.
  intros H. rewrite dealRoom_spec. fields. rewrite (missing_full _ H).
  cbn [firstn skipn]. rewrite app_nil_r. split; reflexivity.
Qed.

(** Once dealt, a room lacks nothing the dungeon could still give. *)
Lemma dealt_lacks_nothing (rm dg : list Card) :
  firstn (missing (rm ++ firstn (missing rm) dg)) (skipn (missing rm) dg) = []
  /\ skipn (missing (rm ++ firstn (missing rm) dg)) (skipn (missing rm) dg)
     = skipn (missing rm) dg.
Proof.
  assert (Hcase : (missing rm <= List.length dg)%nat \/ (List.length dg <= missing rm)%nat)
    by lia.
  destruct Hcase as [Hle | Hge].
  - assert (H0 : missing (rm ++ firstn (missing rm) dg) = 0%nat).
    { unfold missing at 1. rewrite len_app. unfold len at 2. rewrite length_firstn.
      unfold missing. unfold missing in Hle. pose proof (len_nonneg rm). lia. }
    rewrite H0. split; reflexivity.
  - rewrite (skipn_all2 dg Hge). rewrite firstn_nil, skipn_nil. split; reflexivity.
Qed.

(** X3. Dealing tops the room up once: a second deal changes nothing, the
    cards keep their order (the room followed by the dungeon is the same
    sequence before and after), and a room of four cards or more is left
    as it is. *)
Theorem dealRoom_tops_up_once (m : model) :
  dealRoom (dealRoom m) = dealRoom m
  /\ room (dealRoom m) ++ dungeon (dealRoom m) = room m ++ dungeon m
  /\ (4 <= len (room m) ->
      room (dealRoom m) = room m /\ dungeon (dealRoom m) = dungeon m).
Proof.
  split; [|split; [|apply dealRoom_full]].
  - rewrite (dealRoom_spec (dealRoom m)). rewrite (dealRoom_spec m). fields.
    destruct (dealt_lacks_nothing (room m) (dungeon m)) as [-> ->].
    rewrite app_nil_r. reflexivity.
  - rewrite dealRoom_spec. fields. rewrite <- app_assoc, firstn_skipn. reflexivity.
Qed.

Lemma dealRoom_tops_up_once_witness :
  4 <= len (room (initialModel createDeck))
  /\ room (dealRoom (initialModel createDeck)) = room (initialModel createDeck)
  /\ dungeon (dealRoom (initialModel createDeck)) = dungeon (initialModel createDeck).
Proof.
  assert (H : 4 <= len (room (initialModel createDeck)))
    by (vm_compute; discriminate).
  split; [exact H|].
  exact (proj2 (proj2 (dealRoom_tops_up_once (initialModel createDeck))) H).
Defined.

Lemma Update_redeal (index : Z) (deck : list Card) (m : model) :
  Update index deck (KeyMsg "d") m = Ok (dealRoom m, CmdNil).
Proof. reflexivity. Qed.

Lemma Update_fight_style (index : Z) (deck : list Card) (m : model) (style : bool) :
  choosingFight m = true ->
  Update index deck (KeyMsg (if style then "b" else "w")) m
  = finishFight (with_fightingBarehanded style m).
Proof.
  intros H. destruct style; unfold Update; simpl; rewrite H; reflexivity.
Qed.

(** X4. A redeal cancels a pending fight: with a fight choice pending, the
    key "d" followed by either fight style costs no health and discards
    nothing; the choice is cleared and the monster is still in the room. *)
Theorem redeal_cancels_pending_fight (index : Z) (deck : list Card)
        (style : bool) (m : model) :
  choosingFight m = true ->
  exists m' : model,
    run index deck [KeyMsg "d"; KeyMsg (if style then "b" else "w")] m = Ok m'
    /\ health m' = health m
    /\ discardPile m' = discardPile m
    /\ equippedWeapon m' = equippedWeapon m
    /\ weaponLimit m' = weaponLimit m
    /\ room m' = room m ++ firstn (missing (room m)) (dungeon m)
    /\ choosingFight m' = false.
Proof.
  intros H. cbn [run]. rewrite Update_redeal. cbn [bind fst].
  rewrite Update_fight_style
    by (destruct (dealRoom_frame m) as (_ & _ & _ & _ & ->); exact H).
  rewrite finishFight_invalid
    by (rewrite dealRoom_spec; fields; pose proof (len_nonneg (room m ++ firstn (missing (room m)) (dungeon m))); lia).
  cbn [bind fst]. eexists. split; [reflexivity|].
  rewrite dealRoom_spec. fields. repeat split.
Qed.

Lemma redeal_cancels_pending_fight_witness :
  choosingFight short_example = true
  /\ exists m' : model,
       run 0 createDeck [KeyMsg "d"; KeyMsg "b"] short_example = Ok m'
       /\ health m' = 20 /\ discardPile m' = []
       /\ map Value (room m') = [10; 2; 4].
Proof.
  assert (H : choosingFight short_example = true) by reflexivity.
  split; [exact H|].
  destruct (redeal_cancels_pending_fight 0 createDeck true short_example H)
    as (m' & Hrun & Hh & Hd & _ & _ & Hr & _).
  exists m'. split; [exact Hrun|]. split; [exact Hh|]. split; [exact Hd|].
  rewrite Hr. reflexivity.
Defined.

(** X5. A redeal reopens the room: after the key "d" the avoid flag, the
    potion flag and the selection counter are reset, so an avoid is
    accepted right after it even when the room had already been avoided. *)
Theorem redeal_reopens_avoid (index : Z) (deck : list Card) (m : model) :
  avoidedLastRoom (dealRoom m) = false
  /\ potionUsedThisTurn (dealRoom m) = false
  /\ cardsChosen (dealRoom m) = 0
  /\ selectedCard (dealRoom m) = -1
  /\ exists m' : model,
       run index deck [KeyMsg "d"; KeyMsg "a"] m = Ok m'
       /\ avoidedLastRoom m' = true
       /\ room m' = firstn 4 (dungeon (dealRoom m) ++ room (dealRoom m))
       /\ dungeon m' = skipn 4 (dungeon (dealRoom m) ++ room (dealRoom m)).
Proof.
  assert (Ha : avoidedLastRoom (dealRoom m) = false)
    by (rewrite dealRoom_spec; reflexivity).
  split; [exact Ha|].
  split; [rewrite dealRoom_spec; reflexivity|].
  split; [rewrite dealRoom_spec; reflexivity|].
  split; [rewrite dealRoom_spec; reflexivity|].
  cbn [run]. rewrite Update_redeal. cbn [bind fst].
  rewrite (Update_avoid _ _ _ Ha). cbn [bind fst].
  eexists. split; [reflexivity|].
  rewrite (dealRoom_spec (with_room _ _)). fields.
  change (missing []) with 4%nat. repeat split.
Qed.

(** X6. Avoiding when the room and the dungeon hold four cards or fewer
    between them: the whole dungeon comes into the room ahead of the old
    room and the dungeon is left empty; with an empty dungeon the player
    gets the same room back and has spent the avoid. *)
Theorem avoid_with_short_dungeon (index : Z) (deck : list Card) (m : model) :
  avoidedLastRoom m = false ->
  len (dungeon m) + len (room m) <= 4 ->
  exists m' : model,
    Update index deck (KeyMsg "a") m = Ok (m', CmdNil)
    /\ room m' = dungeon m ++ room m
    /\ dungeon m' = []
    /\ avoidedLastRoom m' = true
    /\ (dungeon m = [] -> room m' = room m).
Proof.
  intros Ha Hl. rewrite (Update_avoid _ _ _ Ha).
  eexists. split; [reflexivity|].
  rewrite dealRoom_spec. fields. change (missing []) with 4%nat. cbn [app].
  assert (Hlen : (List.length (dungeon m ++ room m) <= 4)%nat).
  { rewrite length_app. unfold len in Hl. lia. }
  rewrite (firstn_all2 _ Hlen), (skipn_all2 _ Hlen).
  repeat split. intros ->. reflexivity.
Qed.

Lemma avoid_with_short_dungeon_witness :
  avoidedLastRoom (with_avoidedLastRoom false short_example) = false
  /\ len (dungeon (with_avoidedLastRoom false short_example))
     + len (room (with_avoidedLastRoom false short_example)) <= 4
  /\ exists m' : model,
       Update 0 createDeck (KeyMsg "a") (with_avoidedLastRoom false short_example)
       = Ok (m', CmdNil)
       /\ map Value (room m') = [4; 10; 2] /\ dungeon m' = [].
Proof.
  assert (H1 : avoidedLastRoom (with_avoidedLastRoom false short_example) = false)
    by reflexivity.
  assert (H2 : len (dungeon (with_avoidedLastRoom false short_example))
               + len (room (with_avoidedLastRoom false short_example)) <= 4)
    by (vm_compute; discriminate).
  split; [exact H1 | split; [exact H2|]].
  destruct (avoid_with_short_dungeon 0 createDeck _ H1 H2)
    as (m' & Hu & Hr & Hd & _).
  exists m'. split; [exact Hu|]. split; [rewrite Hr; reflexivity | exact Hd].
Defined.

(** ** The shapes of a step *)

Lemma equipWeapon_spec (card : Card) (m : model) :
  equipWeapon card m
  = mkModel (health m) (dungeon m) (room m) (set_MonsterValue 0 card)
            (if Card_eqb (equippedWeapon m) emptyCard then discardPile m
             else discardPile m ++ [equippedWeapon m])
            (selectedCard m) (cardsChosen m) (weaponLimit m) (choosingFight m)
            (fightingBarehanded m) (avoidedLastRoom m) (potionUsedThisTurn m).
Proof.
  unfold equipWeapon. destruct (Card_eqb (equippedWeapon m) emptyCard); reflexivity.
Qed.

Lemma selectable_dec (i : Z) (m : model) : selectable i m \/ ~ selectable i m.
Proof. unfold selectable. lia. Qed.

Lemma selectCard_guard_false (i : Z) (m : model) :
  ~ selectable i m ->
  (0 <=? i) && (i <? len (room m)) && (cardsChosen m <? 3) = false.
Proof.
  intros H. apply not_true_is_false. intros Hg. apply H.
  apply andb_true_iff in Hg. destruct Hg as [Hg H3].
  apply andb_true_iff in Hg. destruct Hg as [H0 H1].
  apply Z.leb_le in H0. apply Z.ltb_lt in H1. apply Z.ltb_lt in H3.
  unfold selectable. lia.
Qed.

(** What a valid selection does, by the type of the card. *)
Lemma selectCard_valid (index i : Z) (m : model) :
  selectable i m ->
  selectCard index i m
  = let card := at_index (room m) i in
    if String.eqb (Type_ card) "Weapon" then
      Ok (with_room (without i (room m)) (equipWeapon card (chosen i m)))
    else if String.eqb (Type_ card) "Potion" then
      m3 <- usePotion index card (chosen i m) ;;
      rm <- removeAt i (room m3) ;; Ok (with_room rm m3)
    else if String.eqb (Type_ card) "Monster" then
      Ok (with_choosingFight true (chosen i m))
    else Ok (chosen i m).
Proof.
  intros Hs. unfold selectCard. rewrite (selectCard_guard i m Hs). cbv zeta.
  change (with_cardsChosen (GoInt.add (cardsChosen (with_selectedCard i m)) 1)
            (with_selectedCard i m)) with (chosen i m).
  destruct (String.eqb (Type_ (at_index (room m) i)) "Weapon"); [|reflexivity].
  rewrite equipWeapon_spec. fields.
  rewrite removeAt_ok by (destruct Hs; assumption). reflexivity.
Qed.

(** The outcomes of a selection that returns. *)
Lemma selectCard_cases (index i : Z) (m m' : model) :
  selectCard index i m = Ok m' ->
  m' = m
  \/ (selectable i m
      /\ (m' = with_room (without i (room m))
                 (equipWeapon (at_index (room m) i) (chosen i m))
          \/ (potionUsedThisTurn m = true
              /\ m' = with_room (without i (room m))
                        (discard (at_index (room m) i) (chosen i m)))
          \/ (potionUsedThisTurn m = false
              /\ 0 <= index < len (room m)
              /\ 0 <= i < len (room (drunk (without index (room m))
                                            (at_index (room m) i) (chosen i m)))
              /\ m' = with_room
                        (without i (room (drunk (without index (room m))
                                                (at_index (room m) i) (chosen i m))))
                        (drunk (without index (room m))
                               (at_index (room m) i) (chosen i m)))
          \/ m' = with_choosingFight true (chosen i m)
          \/ m' = chosen i m)).
Proof.
  intros H. destruct (selectable_dec i m) as [Hs | Hs].
  - right. split; [exact Hs|]. rewrite (selectCard_valid index i m Hs) in H.
    cbv zeta in H.
    destruct (String.eqb (Type_ (at_index (room m) i)) "Weapon").
    { left. inversion H. reflexivity. }
    destruct (String.eqb (Type_ (at_index (room m) i)) "Potion").
    { right. destruct (potionUsedThisTurn m) eqn:Hp.
      - left. split; [reflexivity|].
        rewrite usePotion_again in H by exact Hp. cbn [bind] in H. fields.
        rewrite removeAt_ok in H by (destruct Hs; assumption).
        cbn [bind] in H. inversion H. reflexivity.
      - right. left. split; [reflexivity|].
        rewrite usePotion_first in H by exact Hp.
        change (room (chosen i m)) with (room m) in H.
        destruct (removeAt index (room m)) as [rm|] eqn:Hr; [|discriminate].
        apply removeAt_inv in Hr. destruct Hr as [Hi ->]. cbn [bind] in H.
        destruct (removeAt i (room (drunk (without index (room m))
                                          (at_index (room m) i) (chosen i m))))
          as [rm|] eqn:Hr; [|discriminate].
        apply removeAt_inv in Hr. destruct Hr as [Hi' ->]. cbn [bind] in H.
        inversion H. repeat split; try lia. }
    right. right. right.
    destruct (String.eqb (Type_ (at_index (room m) i)) "Monster");
      inversion H; [left | right]; reflexivity.
  - left. rewrite (selectCard_rejected index i m Hs) in H. inversion H. reflexivity.
Qed.

Lemma Update_slot (index : Z) (deck : list Card) (key : string) (i : Z) (m : model) :
  slot key = Some i ->
  0 <= i <= 3
  /\ Update index deck (KeyMsg key) m = fmap (fun m => (m, CmdNil)) (selectCard index i m).
Proof.
  unfold slot. intros H.
  destruct (String.eqb key "1") eqn:H1.
  { apply String.eqb_eq in H1. subst key. inversion H. split; [lia | reflexivity]. }
  destruct (String.eqb key "2") eqn:H2.
  { apply String.eqb_eq in H2. subst key. inversion H. split; [lia | reflexivity]. }
  destruct (String.eqb key "3") eqn:H3.
  { apply String.eqb_eq in H3. subst key. inversion H. split; [lia | reflexivity]. }
  destruct (String.eqb key "4") eqn:H4.
  { apply String.eqb_eq in H4. subst key. inversion H. split; [lia | reflexivity]. }
  discriminate.
Qed.

(** The outcomes of a step that returns. *)
Lemma Update_cases (index : Z) (deck : list Card) (msg : Msg)
      (m m' : model) (cmd : Cmd) :
  Update index deck msg m = Ok (m', cmd) ->
  m' = m
  \/ m' = with_avoidedLastRoom true
            (dealRoom (with_room [] (with_dungeon (dungeon m ++ room m) m)))
  \/ m' = dealRoom m
  \/ (exists i : Z, selectCard index i m = Ok m')
  \/ (exists style : bool,
        finishFight (with_fightingBarehanded style m) = Ok (m', cmd))
  \/ (msg = KeyMsg "r" /\ health m <= 0 /\ m' = initialModel deck).
Proof.
  intros Hu. unfold Update in Hu.
  destruct msg as [key|]; [|inversion Hu; left; reflexivity].
  destruct (String.eqb key "ctrl+c"); [inversion Hu; left; reflexivity|].
  destruct (String.eqb key "a").
  { destruct (negb (avoidedLastRoom m)); [|inversion Hu; left; reflexivity].
    cbv zeta in Hu. rewrite append_room_to_dungeon in Hu.
    inversion Hu. right. left. reflexivity. }
  destruct (String.eqb key "d").
  { inversion Hu. right. right. left. reflexivity. }
  destruct (String.eqb key "1").
  { apply fmap_pair_inv in Hu. destruct Hu as [Hu _]. do 3 right. left. eauto. }
  destruct (String.eqb key "2").
  { apply fmap_pair_inv in Hu. destruct Hu as [Hu _]. do 3 right. left. eauto. }
  destruct (String.eqb key "3").
  { apply fmap_pair_inv in Hu. destruct Hu as [Hu _]. do 3 right. left. eauto. }
  destruct (String.eqb key "4").
  { apply fmap_pair_inv in Hu. destruct Hu as [Hu _]. do 3 right. left. eauto. }
  destruct (String.eqb key "b").
  { destruct (choosingFight m); [|inversion Hu; left; reflexivity].
    do 4 right. left. eauto. }
  destruct (String.eqb key "w").
  { destruct (choosingFight m); [|inversion Hu; left; reflexivity].
    do 4 right. left. eauto. }
  destruct (String.eqb key "r") eqn:Hr.
  { apply String.eqb_eq in Hr. subst key.
    destruct (health m <=? 0) eqn:Hh; [|inversion Hu; left; reflexivity].
    apply Z.leb_le in Hh. inversion Hu. do 5 right. repeat split. exact Hh. }
  destruct (String.eqb key "t"); inversion Hu; left; reflexivity.
Qed.

(** The outcomes of a fight that is settled. *)
Lemma finishFight_cases (m m' : model) (cmd : Cmd) :
  finishFight m = Ok (m', cmd) ->
  (~ 0 <= selectedCard m < len (room m) /\ m' = with_choosingFight false m)
  \/ (0 <= selectedCard m < len (room m)
      /\ exists m1 : model,
           m1 = with_choosingFight false
                  (with_selectedCard (-1)
                     (with_room (without (selectedCard m) (room m))
                        (discard (at_index (room m) (selectedCard m)) (fought m))))
           /\ (m' = m1 \/ m' = dealRoom m1)).
Proof.
  intros Hf.
  assert (Hdec : 0 <= selectedCard m < len (room m) \/ ~ 0 <= selectedCard m < len (room m))
    by lia.
  destruct Hdec as [Hsel | Hsel].
  - right. split; [exact Hsel|]. rewrite (finishFight_valid m Hsel) in Hf.
    cbv zeta in Hf. eexists. split; [reflexivity|].
    destruct (4 - len _ =? 3); inversion Hf; [right | left]; reflexivity.
  - left. split; [exact Hsel|]. rewrite (finishFight_invalid m Hsel) in Hf.
    inversion Hf. reflexivity.
Qed.

(** ** The room, the counter and the selected slot *)

Lemma tidy_dealRoom (m : model) : len (room m) <= 4 -> tidy (dealRoom m).
Proof.
  intros H. unfold tidy. rewrite (dealRoom_len m H).
  rewrite dealRoom_spec. fields. lia.
Qed.

Lemma chosen_count (i : Z) (m : model) :
  0 <= cardsChosen m < 3 -> cardsChosen (chosen i m) = cardsChosen m + 1.
Proof.
  intros H. unfold chosen, GoInt.add. fields. apply wrap_in_range.
  unfold GoInt.in_range, GoInt.min_int, GoInt.max_int. lia.
Qed.

Lemma drunk_room (rm : list Card) (card : Card) (m : model) :
  len rm <= 4 ->
  len (room (drunk rm card m)) <= 4
  /\ (cardsChosen (drunk rm card m) = cardsChosen m
      /\ selectedCard (drunk rm card m) = selectedCard m
      \/ cardsChosen (drunk rm card m) = 0 /\ selectedCard (drunk rm card m) = -1).
Proof.
  intros H. unfold drunk. cbv zeta. destruct (4 - len rm =? 3).
  - destruct (tidy_dealRoom
                (with_room rm
                   (with_potionUsedThisTurn true
                      (discard card (with_health (healed m card) m)))) H)
      as (Hr & _). split; [exact Hr|]. right. rewrite dealRoom_spec. fields. auto.
  - fields. split; [exact H|]. left. auto.
Qed.

Lemma tidy_selectCard (index i : Z) (m m' : model) :
  tidy m -> selectCard index i m = Ok m' -> tidy m'.
Proof.
  intros Ht Hs. pose proof Ht as (Hr & Hc & Hsel).
  destruct (selectCard_cases _ _ _ _ Hs) as [-> | ([Hi H3] & Hcase)]; [exact Ht|].
  assert (Hcc : cardsChosen (chosen i m) = cardsChosen m + 1)
    by (apply chosen_count; lia).
  assert (Hsc : selectedCard (chosen i m) = i) by reflexivity.
  assert (Hrc : room (chosen i m) = room m) by reflexivity.
  pose proof (len_without i (room m) Hi) as Hw.
  destruct Hcase as [-> | [(_ & ->) | [(_ & Hx & Hi' & ->) | [-> | ->]]]].
  - rewrite equipWeapon_spec. unfold tidy. fields. rewrite Hcc, Hsc. lia.
  - unfold tidy. fields. rewrite Hcc, Hsc. lia.
  - pose proof (len_without index (room m) Hx) as Hwx.
    destruct (drunk_room (without index (room m)) (at_index (room m) i) (chosen i m))
      as (Hd & Hflags); [lia|].
    pose proof (len_without i _ Hi') as Hw'.
    unfold tidy. fields. rewrite Hw'.
    destruct Hflags as [[-> ->] | [-> ->]]; rewrite ?Hcc, ?Hsc; lia.
  - unfold tidy. fields. rewrite Hcc, Hsc, Hrc. lia.
  - unfold tidy. rewrite Hcc, Hsc, Hrc. lia.
Qed.

Lemma tidy_finishFight (m m' : model) (cmd : Cmd) :
  tidy m -> finishFight m = Ok (m', cmd) -> tidy m'.
Proof.
  intros (Hr & Hc & Hs) Hf.
  destruct (finishFight_cases _ _ _ Hf) as [(_ & ->) | (Hsel & m1 & Hm1 & Hcase)].
  - unfold tidy. fields. lia.
  - destruct (fought_frame m) as (_ & Hroom & _ & _ & Hcc & _).
    pose proof (len_without _ _ Hsel) as Hw.
    assert (H1 : tidy m1).
    { subst m1. unfold tidy. fields. rewrite Hcc, Hw. lia. }
    destruct Hcase as [-> | ->]; [exact H1|].
    apply tidy_dealRoom. destruct H1 as (H1 & _). exact H1.
Qed.

Lemma tidy_Update (index : Z) (deck : list Card) (msg : Msg)
      (m m' : model) (cmd : Cmd) :
  tidy m -> Update index deck msg m = Ok (m', cmd) -> tidy m'.
Proof.
  intros Ht Hu.
  destruct (Update_cases _ _ _ _ _ _ Hu)
    as [-> | [-> | [-> | [(i & Hs) | [(style & Hf) | (_ & _ & ->)]]]]].
  - exact Ht.
  - destruct (tidy_dealRoom (with_room [] (with_dungeon (dungeon m ++ room m) m)))
      as (Hr & Hc & Hs); [fields; change (len []) with 0; lia|].
    unfold tidy. fields. auto.
  - apply tidy_dealRoom. destruct Ht as (Hr & _). exact Hr.
  - exact (tidy_selectCard _ _ _ _ Ht Hs).
  - refine (tidy_finishFight _ _ _ _ Hf). exact Ht.
  - apply tidy_dealRoom. fields. change (len []) with 0. lia.
Qed.

(** X7. In every session the runtime can reach, the room holds at most
    four cards, the selection counter is between 0 and 3, and the selected
    slot is -1 (none) or one of the four slots. *)
Theorem reachable_tidy (m : model) :
  reachable m ->
  len (room m) <= 4 /\ 0 <= cardsChosen m <= 3 /\ -1 <= selectedCard m <= 3.
Proof.
  induction 1 as [deck Hp | m m' index deck msg cmd _ IH Hp Hu].
  - apply tidy_dealRoom. fields. change (len []) with 0. lia.
  - exact (tidy_Update _ _ _ _ _ _ IH Hu).
Qed.

Lemma reachable_tidy_witness :
  reachable (run_from 0 createDeck ["1"; "b"; "2"] (initialModel createDeck))
  /\ len (room (run_from 0 createDeck ["1"; "b"; "2"] (initialModel createDeck))) <= 4
  /\ 0 <= cardsChosen (run_from 0 createDeck ["1"; "b"; "2"] (initialModel createDeck)) <= 3
  /\ -1 <= selectedCard (run_from 0 createDeck ["1"; "b"; "2"] (initialModel createDeck)) <= 3.
Proof.
  assert (H : reachable (run_from 0 createDeck ["1"; "b"; "2"] (initialModel createDeck)))
    by (apply reachable_run_from, Permutation_refl).
  split; [exact H | exact (reachable_tidy _ H)].
Defined.

(** ** Cards are never created *)

Lemma in_hand_bounds (card : Card) :
  0 <= (if Card_eqb card emptyCard then 0 else 1) <= 1.
Proof. destruct (Card_eqb card emptyCard); lia. Qed.

Lemma held_dealRoom (m : model) : cards_held (dealRoom m) = cards_held m.
Proof.
  rewrite dealRoom_spec. unfold cards_held. fields. rewrite len_app.
  pose proof (len_firstn_skipn (missing (room m)) (dungeon m)). lia.
Qed.

Lemma held_initialModel (deck : list Card) :
  Permutation createDeck deck -> cards_held (initialModel deck) = 44.
Proof.
  intros Hp. unfold initialModel. cbv zeta. rewrite held_dealRoom.
  unfold cards_held. fields. rewrite (len_shuffle deck Hp). reflexivity.
Qed.

Lemma held_drunk (index : Z) (card : Card) (m : model) :
  0 <= index < len (room m) ->
  cards_held (drunk (without index (room m)) card m) = cards_held m.
Proof.
  intros Hi. unfold drunk. cbv zeta.
  destruct (_ =? 3); rewrite ?held_dealRoom; unfold cards_held; fields;
    rewrite len_app, (len_without _ _ Hi); change (len [card]) with 1; lia.
Qed.

Lemma held_selectCard (index i : Z) (m m' : model) :
  selectCard index i m = Ok m' -> cards_held m' <= cards_held m.
Proof.
  intros Hs.
  destruct (selectCard_cases _ _ _ _ Hs) as [-> | ([Hi H3] & Hcase)]; [lia|].
  pose proof (len_without i (room m) Hi) as Hw.
  destruct Hcase as [-> | [(_ & ->) | [(_ & Hx & Hi' & ->) | [-> | ->]]]].
  - rewrite equipWeapon_spec.
    pose proof (in_hand_bounds (set_MonsterValue 0 (at_index (room m) i))) as Hb.
    unfold cards_held, chosen. fields. rewrite Hw.
    destruct (Card_eqb (equippedWeapon m) emptyCard);
      rewrite ?len_app; change (len [equippedWeapon m]) with 1; lia.
  - unfold cards_held, chosen. fields. rewrite Hw, len_app.
    change (len [_]) with 1. lia.
  - pose proof (held_drunk index (at_index (room m) i) (chosen i m) Hx) as Hd.
    pose proof (len_without i _ Hi') as Hw'.
    change (room (chosen i m)) with (room m) in Hd.
    change (cards_held (chosen i m)) with (cards_held m) in Hd.
    unfold cards_held in *. fields. rewrite Hw'. lia.
  - apply Z.eq_le_incl. reflexivity.
  - apply Z.eq_le_incl. reflexivity.
Qed.

Lemma held_fought (m : model) :
  (if Card_eqb (equippedWeapon (fought m)) emptyCard then 0 else 1)
  <= (if Card_eqb (equippedWeapon m) emptyCard then 0 else 1).
Proof.
  destruct (barehanded_dec m (at_index (room m) (selectedCard m))) as [Hb | Hb].
  - rewrite (fought_barehanded m Hb). fields. lia.
  - assert (He : Card_eqb (equippedWeapon m) emptyCard = false).
    { apply Card_eqb_neq. intros He. apply Hb. right. left. exact He. }
    rewrite He. apply in_hand_bounds.
Qed.

Lemma held_finishFight (m m' : model) (cmd : Cmd) :
  finishFight m = Ok (m', cmd) -> cards_held m' <= cards_held m.
Proof.
  intros Hf.
  destruct (finishFight_cases _ _ _ Hf) as [(_ & ->) | (Hsel & m1 & Hm1 & Hcase)].
  - apply Z.eq_le_incl. reflexivity.
  - assert (H1 : cards_held m1 <= cards_held m).
    { destruct (fought_frame m) as (Hd & Hr & Hp & _).
      pose proof (held_fought m) as Hh. pose proof (len_without _ _ Hsel) as Hw.
      subst m1. unfold cards_held. fields. rewrite ?Hd, ?Hr, ?Hp, Hw, len_app.
      change (len [_]) with 1. lia. }
    destruct Hcase as [-> | ->]; rewrite ?held_dealRoom; exact H1.
Qed.

Lemma held_avoid (m : model) :
  cards_held (with_avoidedLastRoom true
                (dealRoom (with_room [] (with_dungeon (dungeon m ++ room m) m))))
  = cards_held m.
Proof.
  change (cards_held (with_avoidedLastRoom true ?x)) with (cards_held x).
  rewrite held_dealRoom. unfold cards_held. fields. rewrite len_app.
  change (len []) with 0. lia.
Qed.

(** X8. No step creates a card: a step that returns leaves the number of
    cards held (the three piles and the weapon in hand) as it is or lower,
    unless it is the restart of a lost game, which starts over with 44; so
    no session the runtime can reach holds more than the 44 cards of the
    deck. *)
Theorem cards_never_created :
  (forall (index : Z) (deck : list Card) (msg : Msg) (m m' : model) (cmd : Cmd),
     Update index deck msg m = Ok (m', cmd) ->
     cards_held m' <= cards_held m
     \/ (msg = KeyMsg "r" /\ health m <= 0 /\ m' = initialModel deck))
  /\ (forall m : model, reachable m -> cards_held m <= 44).
Proof.
  assert (Hstep : forall (index : Z) (deck : list Card) (msg : Msg)
                         (m m' : model) (cmd : Cmd),
             Update index deck msg m = Ok (m', cmd) ->
             cards_held m' <= cards_held m
             \/ (msg = KeyMsg "r" /\ health m <= 0 /\ m' = initialModel deck)).
  { intros index deck msg m m' cmd Hu.
    destruct (Update_cases _ _ _ _ _ _ Hu)
      as [-> | [-> | [-> | [(i & Hs) | [(style & Hf) | Hr]]]]].
    - left. lia.
    - left. rewrite held_avoid. lia.
    - left. rewrite held_dealRoom. lia.
    - left. exact (held_selectCard _ _ _ _ Hs).
    - left. exact (held_finishFight _ _ _ Hf).
    - right. exact Hr. }
  split; [exact Hstep|].
  induction 1 as [deck Hp | m m' index deck msg cmd _ IH Hp Hu].
  - rewrite (held_initialModel deck Hp). lia.
  - destruct (Hstep _ _ _ _ _ _ Hu) as [Hle | (_ & _ & ->)]; [lia|].
    rewrite (held_initialModel deck Hp). lia.
Qed.

Lemma cards_never_created_witness :
  reachable (run_from 0 hearts_first ["1"] (initialModel hearts_first))
  /\ cards_held (run_from 0 hearts_first ["1"] (initialModel hearts_first)) <= 44.
Proof.
  assert (H : reachable (run_from 0 hearts_first ["1"] (initialModel hearts_first))).
  { apply reachable_run_from. unfold hearts_first. apply Permutation_rev. }
  split; [exact H | exact (proj2 cards_never_created _ H)].
Defined.

(** ** Cards that only change place *)

Lemma without_perm_nat (n : nat) (s : list Card) :
  (n < List.length s)%nat ->
  Permutation s (nth n s emptyCard :: firstn n s ++ skipn (S n) s).
Proof.
  revert n. induction s as [|a s IH]; intros n Hn; [simpl in Hn; lia|].
  destruct n as [|n].
  - apply Permutation_refl.
  - simpl in Hn. assert (Hn' : (n < List.length s)%nat) by lia.
    change (Permutation (a :: s)
              (nth n s emptyCard :: a :: firstn n s ++ skipn (S n) s)).
    eapply perm_trans; [apply perm_skip, (IH n Hn') | apply perm_swap].
Qed.

Lemma without_perm (i : Z) (s : list Card) :
  0 <= i < len s -> Permutation s (at_index s i :: without i s).
Proof.
  intros Hi. unfold at_index, without.
  replace (Z.to_nat (i + 1)) with (S (Z.to_nat i)) by lia.
  apply without_perm_nat. unfold len in Hi. lia.
Qed.

Lemma piles_dealRoom (m : model) : Permutation (piles m) (piles (dealRoom m)).
Proof.
  rewrite dealRoom_spec. unfold piles. fields.
  rewrite <- (firstn_skipn (missing (room m)) (dungeon m)) at 1.
  rewrite !app_assoc. apply Permutation_app_tail.
  rewrite <- app_assoc. apply Permutation_app_comm.
Qed.

Lemma piles_avoid (m : model) :
  Permutation (piles m)
    (piles (with_avoidedLastRoom true
              (dealRoom (with_room [] (with_dungeon (dungeon m ++ room m) m))))).
Proof.
  change (piles (with_avoidedLastRoom true ?x)) with (piles x).
  eapply perm_trans; [|apply piles_dealRoom].
  unfold piles. fields. cbn [app]. rewrite app_assoc. apply Permutation_refl.
Qed.

Lemma piles_finishFight (m m' : model) (cmd : Cmd) :
  finishFight m = Ok (m', cmd) -> Permutation (piles m) (piles m').
Proof.
  intros Hf.
  destruct (finishFight_cases _ _ _ Hf) as [(_ & ->) | (Hsel & m1 & Hm1 & Hcase)].
  - apply Permutation_refl.
  - assert (H1 : Permutation (piles m) (piles m1)).
    { destruct (fought_frame m) as (Hd & Hr & Hp & _).
      subst m1. unfold piles. fields. rewrite ?Hd, ?Hr, ?Hp.
      apply Permutation_app_head.
      eapply perm_trans;
        [apply Permutation_app_tail, (without_perm _ _ Hsel)|].
      cbn [app]. rewrite app_assoc. apply Permutation_cons_app.
      rewrite app_nil_r. apply Permutation_refl. }
    destruct Hcase as [-> | ->]; [exact H1|].
    eapply perm_trans; [exact H1 | apply piles_dealRoom].
Qed.

(** X9. Avoiding, redealing and settling a fight only move cards: when
    the step returns, the dungeon, the room and the discard pile together
    hold the same cards as before, each as often as before. *)
Theorem piles_only_reordered (index : Z) (deck : list Card) (key : string)
        (m m' : model) (cmd : Cmd) :
  In key ["a"; "d"; "b"; "w"] ->
  Update index deck (KeyMsg key) m = Ok (m', cmd) ->
  Permutation (piles m) (piles m').
Proof.
  intros Hk Hu. simpl in Hk.
  destruct Hk as [<- | [<- | [<- | [<- | []]]]].
  - destruct (avoidedLastRoom m) eqn:Ha.
    + rewrite (Update_avoid_rejected _ _ _ Ha) in Hu. inversion Hu.
      apply Permutation_refl.
    + rewrite (Update_avoid _ _ _ Ha) in Hu. inversion Hu. apply piles_avoid.
  - rewrite Update_redeal in Hu. inversion Hu. apply piles_dealRoom.
  - destruct (choosingFight m) eqn:Hc.
    + pose proof (Update_fight_style index deck m true Hc) as Hb. cbn iota in Hb.
      rewrite Hb in Hu. exact (piles_finishFight _ _ _ Hu).
    + unfold Update in Hu. simpl in Hu. rewrite Hc in Hu. inversion Hu.
      apply Permutation_refl.
  - destruct (choosingFight m) eqn:Hc.
    + pose proof (Update_fight_style index deck m false Hc) as Hb. cbn iota in Hb.
      rewrite Hb in Hu. exact (piles_finishFight _ _ _ Hu).
    + unfold Update in Hu. simpl in Hu. rewrite Hc in Hu. inversion Hu.
      apply Permutation_refl.
Qed.

Lemma piles_only_reordered_witness :
  In "a" ["a"; "d"; "b"; "w"]
  /\ Update 0 createDeck (KeyMsg "a") (initialModel createDeck)
     = Ok (run_from 0 createDeck ["a"] (initialModel createDeck), CmdNil)
  /\ Permutation (piles (initialModel createDeck))
       (piles (run_from 0 createDeck ["a"] (initialModel createDeck))).
Proof.
  assert (H1 : In "a" ["a"; "d"; "b"; "w"]) by (left; reflexivity).
  assert (H2 : Update 0 createDeck (KeyMsg "a") (initialModel createDeck)
               = Ok (run_from 0 createDeck ["a"] (initialModel createDeck), CmdNil))
    by (vm_compute; reflexivity).
  split; [exact H1 | split; [exact H2|]].
  exact (piles_only_reordered 0 createDeck "a" _ _ _ H1 H2).
Defined.

(** ** The weapon ceiling across steps *)

Lemma drunk_ceiling (rm : list Card) (card : Card) (m : model) :
  weaponLimit (drunk rm card m) = weaponLimit m.
Proof.
  unfold drunk. cbv zeta. destruct (_ =? 3); [rewrite dealRoom_spec|]; reflexivity.
Qed.

Lemma selectCard_ceiling (index i : Z) (m m' : model) :
  selectCard index i m = Ok m' -> weaponLimit m' = weaponLimit m.
Proof.
  intros Hs.
  destruct (selectCard_cases _ _ _ _ Hs) as [-> | (_ & Hcase)]; [reflexivity|].
  destruct Hcase as [-> | [(_ & ->) | [(_ & _ & _ & ->) | [-> | ->]]]].
  - rewrite equipWeapon_spec. reflexivity.
  - reflexivity.
  - fields. rewrite drunk_ceiling. reflexivity.
  - reflexivity.
  - reflexivity.
Qed.

Lemma Update_ceiling (index : Z) (deck : list Card) (msg : Msg)
      (m m' : model) (cmd : Cmd) :
  Update index deck msg m = Ok (m', cmd) ->
  weaponLimit m' <= weaponLimit m
  \/ (msg = KeyMsg "r" /\ health m <= 0 /\ m' = initialModel deck).
Proof.
  intros Hu.
  destruct (Update_cases _ _ _ _ _ _ Hu)
    as [-> | [-> | [-> | [(i & Hs) | [(style & Hf) | Hr]]]]].
  - left. lia.
  - left. rewrite dealRoom_spec. fields. lia.
  - left. rewrite dealRoom_spec. fields. lia.
  - left. rewrite (selectCard_ceiling _ _ _ _ Hs). lia.
  - left. exact (finishFight_ceiling _ _ _ Hf).
  - right. exact Hr.
Qed.

Lemma fought_ceiling_low (m : model) :
  sound m -> 0 <= weaponLimit m -> 0 <= weaponLimit (fought m).
Proof.
  intros Hs H0.
  pose proof (at_index_ok (room m) (selectedCard m) (sound_room _ _ Hs)) as Hc.
  unfold card_ok in Hc.
  destruct (barehanded_dec m (at_index (room m) (selectedCard m))) as [Hb | Hb].
  - rewrite (fought_barehanded m Hb). fields. exact H0.
  - rewrite (fought_with_weapon m Hb). fields. lia.
Qed.

Lemma Update_ceiling_low (index : Z) (deck : list Card) (msg : Msg)
      (m m' : model) (cmd : Cmd) :
  sound m -> 0 <= weaponLimit m ->
  Update index deck msg m = Ok (m', cmd) -> 0 <= weaponLimit m'.
Proof.
  intros Hs H0 Hu.
  destruct (Update_cases _ _ _ _ _ _ Hu)
    as [-> | [-> | [-> | [(i & Hi) | [(style & Hf) | (_ & _ & ->)]]]]].
  - exact H0.
  - rewrite dealRoom_spec. fields. exact H0.
  - rewrite dealRoom_spec. fields. exact H0.
  - rewrite (selectCard_ceiling _ _ _ _ Hi). exact H0.
  - assert (Hs' : sound (with_fightingBarehanded style m))
      by (apply (sound_flags 44 m); auto).
    pose proof (fought_ceiling_low _ Hs' H0) as Hlow.
    destruct (finishFight_cases _ _ _ Hf) as [(_ & ->) | (_ & m1 & -> & [-> | ->])].
    + exact H0.
    + exact Hlow.
    + rewrite dealRoom_spec. exact Hlow.
  - unfold initialModel. cbv zeta. rewrite dealRoom_spec. fields. lia.
Qed.

(** X10. Only the restart of a lost game lifts the weapon ceiling: any
    other step that returns leaves [weaponLimit] as it is or lower, and a
    selection, taking a new weapon included, leaves it as it is, so a new
    weapon starts under the ceiling the previous one was left with.  In
    every reachable session the ceiling is between 0 and 14. *)
Theorem ceiling_lifted_only_by_restart :
  (forall (index : Z) (deck : list Card) (msg : Msg) (m m' : model) (cmd : Cmd),
     Update index deck msg m = Ok (m', cmd) ->
     weaponLimit m' <= weaponLimit m
     \/ (msg = KeyMsg "r" /\ health m <= 0 /\ m' = initialModel deck))
  /\ (forall (index i : Z) (m m' : model),
        selectCard index i m = Ok m' -> weaponLimit m' = weaponLimit m)
  /\ (forall m : model, reachable m -> 0 <= weaponLimit m <= 14).
Proof.
  split; [exact Update_ceiling | split; [exact selectCard_ceiling|]].
  induction 1 as [deck Hp | m m' index deck msg cmd Hm IH Hp Hu].
  - unfold initialModel. cbv zeta. rewrite dealRoom_spec. fields. lia.
  - split.
    + exact (Update_ceiling_low _ _ _ _ _ _ (reachable_sound m Hm) (proj1 IH) Hu).
    + destruct (Update_ceiling _ _ _ _ _ _ Hu) as [Hle | (_ & _ & ->)]; [lia|].
      unfold initialModel. cbv zeta. rewrite dealRoom_spec. fields. lia.
Qed.

Lemma ceiling_lifted_only_by_restart_witness :
  selectCard 0 0 (initialModel diamonds_first)
  = Ok (run_from 0 diamonds_first ["1"] (initialModel diamonds_first))
  /\ weaponLimit (run_from 0 diamonds_first ["1"] (initialModel diamonds_first))
     = weaponLimit (initialModel diamonds_first).
Proof.
  assert (H : selectCard 0 0 (initialModel diamonds_first)
              = Ok (run_from 0 diamonds_first ["1"] (initialModel diamonds_first)))
    by (vm_compute; reflexivity).
  split; [exact H|].
  exact (proj1 (proj2 ceiling_lifted_only_by_restart) 0 0 _ _ H).
Defined.

(** ** Taking a weapon *)

Lemma eqb_Weapon (card : Card) :
  Type_ card = "Weapon" -> String.eqb (Type_ card) "Weapon" = true.
Proof. intros ->. reflexivity. Qed.

Lemma selectCard_weapon (index i : Z) (m : model) :
  selectable i m -> Type_ (at_index (room m) i) = "Weapon" ->
  selectCard index i m
  = Ok (mkModel (health m) (dungeon m) (without i (room m))
                (set_MonsterValue 0 (at_index (room m) i)) (weapon_discarded m)
                i (GoInt.add (cardsChosen m) 1) (weaponLimit m) (choosingFight m)
                (fightingBarehanded m) (avoidedLastRoom m) (potionUsedThisTurn m)).
Proof.
  intros Hs Ht. rewrite (selectCard_valid index i m Hs). cbv zeta.
  rewrite (eqb_Weapon _ Ht). rewrite equipWeapon_spec. reflexivity.
Qed.

(** X11. Taking a weapon: a valid selection of a Weapon card returns; the
    card leaves the room for the hand with its [MonsterValue] at 0, the
    weapon that was in hand goes on the discard pile, the health, the
    dungeon and the ceiling are untouched and the room is not refilled.
    When it is the third selection in the room, every further selection
    is rejected: the room stays as it is until a redeal or an avoid. *)
Theorem weapon_selection (index i : Z) (m : model) :
  selectable i m -> 0 <= cardsChosen m ->
  Type_ (at_index (room m) i) = "Weapon" ->
  exists m' : model,
    selectCard index i m = Ok m'
    /\ equippedWeapon m' = set_MonsterValue 0 (at_index (room m) i)
    /\ discardPile m' = weapon_discarded m
    /\ room m' = without i (room m)
    /\ dungeon m' = dungeon m
    /\ health m' = health m
    /\ weaponLimit m' = weaponLimit m
    /\ cardsChosen m' = cardsChosen m + 1
    /\ (cardsChosen m = 2 ->
        forall index' j : Z, selectCard index' j m' = Ok m').
Proof.
  intros Hs H0 Ht. rewrite (selectCard_weapon index i m Hs Ht).
  eexists. split; [reflexivity|]. fields.
  assert (Hc : GoInt.add (cardsChosen m) 1 = cardsChosen m + 1).
  { destruct Hs as [_ H3]. unfold GoInt.add. apply wrap_in_range.
    unfold GoInt.in_range, GoInt.min_int, GoInt.max_int. lia. }
  do 6 (split; [reflexivity|]). split; [exact Hc|].
  intros H2 index' j. apply selectCard_rejected.
  unfold selectable. fields. lia.
Qed.

Lemma weapon_selection_witness :
  selectable 0 (initialModel diamonds_first)
  /\ 0 <= cardsChosen (initialModel diamonds_first)
  /\ Type_ (at_index (room (initialModel diamonds_first)) 0) = "Weapon"
  /\ exists m' : model,
       selectCard 0 0 (initialModel diamonds_first) = Ok m'
       /\ equippedWeapon m' = mkCard "Diamond" 10 "Weapon" 0
       /\ map Value (room m') = [9; 8; 7].
Proof.
  assert (H1 : selectable 0 (initialModel diamonds_first))
    by (unfold selectable; vm_compute; repeat split; discriminate).
  assert (H2 : 0 <= cardsChosen (initialModel diamonds_first))
    by (vm_compute; discriminate).
  assert (H3 : Type_ (at_index (room (initialModel diamonds_first)) 0) = "Weapon")
    by reflexivity.
  split; [exact H1 | split; [exact H2 | split; [exact H3|]]].
  destruct (weapon_selection 0 0 (initialModel diamonds_first) H1 H2 H3)
    as (m' & Hsel & Hw & _ & Hr & _).
  exists m'. split; [exact Hsel|]. split.
  - rewrite Hw. reflexivity.
  - rewrite Hr. reflexivity.
Defined.

(** ** A selection made while a fight is pending *)

Lemma nth_without (d : Card) (s : list Card) (n : nat) :
  nth n (firstn n s ++ skipn (S n) s) d = nth (S n) s d.
Proof.
  revert n. induction s as [|a s IH]; intros n.
  - destruct n; reflexivity.
  - destruct n as [|n]; [reflexivity|].
    change (nth n (firstn n s ++ skipn (S n) s) d = nth (S n) s d). apply IH.
Qed.

Lemma at_index_without (i : Z) (s : list Card) :
  0 <= i -> at_index (without i s) i = at_index s (i + 1).
Proof.
  intros Hi. unfold at_index, without.
  replace (Z.to_nat (i + 1)) with (S (Z.to_nat i)) by lia. apply nth_without.
Qed.

Lemma finishFight_barehanded (m : model) :
  0 <= selectedCard m < len (room m) -> fightingBarehanded m = true ->
  exists m' : model,
    finishFight m = Ok (m', CmdNil)
    /\ health m' = GoInt.sub (health m) (Value (at_index (room m) (selectedCard m)))
    /\ discardPile m' = discardPile m ++ [at_index (room m) (selectedCard m)]
    /\ equippedWeapon m' = equippedWeapon m
    /\ choosingFight m' = false.
Proof.
  intros Hsel Hb. rewrite (finishFight_valid m Hsel). cbv zeta.
  assert (Hf : fought m
               = with_health (GoInt.sub (health m)
                                (Value (at_index (room m) (selectedCard m)))) m)
    by (apply fought_barehanded; left; exact Hb).
  eexists. split; [reflexivity|].
  destruct (4 - len _ =? 3); rewrite ?dealRoom_spec; fields; rewrite Hf;
    repeat split.
Qed.

(** X12. A fight is settled against the slot selected last: when a Weapon
    is selected while a fight choice is pending, the key "b" that follows
    fights the card that stood after the weapon in the room, of whatever
    type, for its full rank; when the weapon stood last, the fight is
    called off at no cost. *)
Theorem pending_fight_follows_selection (index : Z) (deck : list Card)
        (key : string) (i : Z) (m : model) :
  choosingFight m = true -> slot key = Some i ->
  selectable i m -> Type_ (at_index (room m) i) = "Weapon" ->
  exists m' : model,
    run index deck [KeyMsg key; KeyMsg "b"] m = Ok m'
    /\ choosingFight m' = false
    /\ equippedWeapon m' = set_MonsterValue 0 (at_index (room m) i)
    /\ (i + 1 < len (room m) ->
        health m' = GoInt.sub (health m) (Value (at_index (room m) (i + 1)))
        /\ discardPile m' = weapon_discarded m ++ [at_index (room m) (i + 1)])
    /\ (i + 1 = len (room m) ->
        health m' = health m /\ discardPile m' = weapon_discarded m
        /\ room m' = without i (room m)).
Proof.
  intros Hc Hk Hs Ht. cbn [run].
  destruct (Update_slot index deck key i m Hk) as [_ ->].
  rewrite (selectCard_weapon index i m Hs Ht). cbn [fmap bind fst].
  set (m1 := mkModel _ _ _ _ _ _ _ _ _ _ _ _).
  assert (Hc1 : choosingFight m1 = true) by exact Hc.
  pose proof (Update_fight_style index deck m1 true Hc1) as Hb. cbn iota in Hb.
  rewrite Hb. clear Hb.
  destruct Hs as [Hi H3]. pose proof (len_without i (room m) Hi) as Hw.
  assert (Hdec : i + 1 < len (room m) \/ i + 1 = len (room m)) by lia.
  destruct Hdec as [Hlt | Heq].
  - destruct (finishFight_barehanded (with_fightingBarehanded true m1))
      as (m' & Hf & Hh & Hd & He & Hcf).
    + subst m1. fields. lia.
    + reflexivity.
    + rewrite Hf. cbn [bind fst]. exists m'. split; [reflexivity|].
      split; [exact Hcf|]. split; [exact He|]. split; [|lia].
      intros _. rewrite Hh, Hd. subst m1. fields.
      rewrite (at_index_without i (room m)) by lia. split; reflexivity.
  - rewrite finishFight_invalid by (subst m1; fields; lia).
    cbn [bind fst]. eexists. split; [reflexivity|].
    subst m1. fields. split; [reflexivity|]. split; [reflexivity|].
    split; [intros Hlt; lia|]. intros _. split; [|split]; reflexivity.
Qed.

Lemma pending_fight_follows_selection_witness :
  choosingFight redirect_example = true /\ slot "2" = Some 1
  /\ selectable 1 redirect_example
  /\ Type_ (at_index (room redirect_example) 1) = "Weapon"
  /\ exists m' : model,
       run 0 createDeck [KeyMsg "2"; KeyMsg "b"] redirect_example = Ok m'
       /\ choosingFight m' = false
       /\ health m' = 16
       /\ discardPile m' = [mkCard "Heart" 4 "Potion" 0].
Proof.
  assert (H1 : choosingFight redirect_example = true) by reflexivity.
  assert (H2 : slot "2" = Some 1) by reflexivity.
  assert (H3 : selectable 1 redirect_example)
    by (unfold selectable; vm_compute; repeat split; discriminate).
  assert (H4 : Type_ (at_index (room redirect_example) 1) = "Weapon") by reflexivity.
  split; [exact H1 | split; [exact H2 | split; [exact H3 | split; [exact H4|]]]].
  destruct (pending_fight_follows_selection 0 createDeck "2" 1 redirect_example
              H1 H2 H3 H4) as (m' & Hrun & Hcf & _ & Hnext & _).
  assert (Hlt : 1 + 1 < len (room redirect_example)) by (vm_compute; reflexivity).
  destruct (Hnext Hlt) as [Hh Hd].
  exists m'. split; [exact Hrun|]. split; [exact Hcf|]. split.
  - rewrite Hh. reflexivity.
  - rewrite Hd. reflexivity.
Defined.

(** ** The steps that panic *)

Lemma removeAt_out {A : Type} (i : Z) (s : list A) :
  ~ 0 <= i < len s -> removeAt i s = Panic.
Proof.
  intros H. unfold removeAt.
  destruct ((0 <=? i) && (i <? len s)) eqn:Hg; [|reflexivity].
  apply andb_true_iff in Hg. destruct Hg as [H0 H1].
  apply Z.leb_le in H0. apply Z.ltb_lt in H1. lia.
Qed.

Lemma removeAt_Panic {A : Type} (i : Z) (s : list A) :
  removeAt i s = Panic -> ~ 0 <= i < len s.
Proof. intros H Hi. rewrite (removeAt_ok i s Hi) in H. discriminate. Qed.

Lemma drunk_room_len (index : Z) (card : Card) (m : model) :
  0 <= index < len (room m) ->
  len (room (drunk (without index (room m)) card m))
  = if len (room m) =? 2 then Z.min 4 (1 + len (dungeon m)) else len (room m) - 1.
Proof.
  intros Hi. pose proof (len_without index (room m) Hi) as Hw.
  unfold drunk. cbv zeta. rewrite Hw.
  destruct (len (room m) =? 2) eqn:H2.
  - apply Z.eqb_eq in H2. rewrite H2. change (4 - (2 - 1) =? 3) with true. cbv iota.
    rewrite dealRoom_len by (fields; lia). fields. rewrite Hw, H2. reflexivity.
  - apply Z.eqb_neq in H2.
    replace (4 - (len (room m) - 1) =? 3) with false
      by (symmetry; apply Z.eqb_neq; lia).
    fields. exact Hw.
Qed.

Lemma len_zero_nil {A : Type} (s : list A) : len s = 0 <-> s = [].
Proof.
  split; [|intros ->; reflexivity].
  destruct s; [reflexivity|]. unfold len. simpl. lia.
Qed.

Lemma eqb_Potion (card : Card) :
  Type_ card = "Potion" ->
  String.eqb (Type_ card) "Weapon" = false /\ String.eqb (Type_ card) "Potion" = true.
Proof. intros ->. split; reflexivity. Qed.

(** The slot is out of the room a first potion leaves. *)
Lemma potion_slot_gone (index i : Z) (card : Card) (m : model) :
  0 <= index < len (room m) -> 0 <= i < len (room m) ->
  (~ 0 <= i < len (room (drunk (without index (room m)) card m)))
  <-> ((len (room m) <> 2 /\ i = len (room m) - 1)
       \/ (len (room m) = 2 /\ i = 1 /\ dungeon m = [])).
Proof.
  intros Hx Hi. rewrite (drunk_room_len index card m Hx).
  pose proof (len_nonneg (dungeon m)) as Hd.
  rewrite <- (len_zero_nil (dungeon m)).
  destruct (len (room m) =? 2) eqn:H2.
  - apply Z.eqb_eq in H2. lia.
  - apply Z.eqb_neq in H2. lia.
Qed.

Lemma selectCard_Panic_iff (index i : Z) (m : model) :
  selectCard index i m = Panic <-> potion_panics index i m.
Proof.
  unfold potion_panics. split.
  - intros H. destruct (selectable_dec i m) as [Hs | Hs];
      [|rewrite (selectCard_rejected index i m Hs) in H; discriminate].
    split; [exact Hs|]. rewrite (selectCard_valid index i m Hs) in H.
    cbv zeta in H.
    destruct (String.eqb (Type_ (at_index (room m) i)) "Weapon"); [discriminate|].
    destruct (String.eqb (Type_ (at_index (room m) i)) "Potion") eqn:Tp;
      [|destruct (String.eqb (Type_ (at_index (room m) i)) "Monster"); discriminate].
    apply String.eqb_eq in Tp. split; [exact Tp|].
    destruct Hs as [Hi H3].
    destruct (potionUsedThisTurn m) eqn:Hp.
    { rewrite usePotion_again in H by exact Hp. cbn [bind] in H. fields.
      rewrite removeAt_ok in H by exact Hi. discriminate. }
    split; [reflexivity|].
    rewrite usePotion_first in H by exact Hp.
    change (room (chosen i m)) with (room m) in H.
    destruct (removeAt index (room m)) as [rm|] eqn:Hr.
    + apply removeAt_inv in Hr. destruct Hr as [Hx ->]. cbn [bind] in H. right.
      apply (potion_slot_gone index i (at_index (room m) i) (chosen i m) Hx Hi).
      destruct (removeAt i (room (drunk (without index (room m))
                                        (at_index (room m) i) (chosen i m))))
        eqn:Hr; [discriminate|].
      exact (removeAt_Panic _ _ Hr).
    + left. exact (removeAt_Panic _ _ Hr).
  - intros (Hs & Tp & Hp & Hcase).
    rewrite (selectCard_valid index i m Hs). cbv zeta.
    destruct (eqb_Potion _ Tp) as [-> ->].
    rewrite usePotion_first by exact Hp.
    change (room (chosen i m)) with (room m).
    assert (Hdec : 0 <= index < len (room m) \/ ~ 0 <= index < len (room m)) by lia.
    destruct Hdec as [Hx | Hx]; [|rewrite (removeAt_out _ _ Hx); reflexivity].
    destruct Hcase as [Hcase | Hcase]; [contradiction|].
    rewrite (removeAt_ok _ _ Hx). cbn [bind].
    destruct Hs as [Hi H3].
    apply (potion_slot_gone index i (at_index (room m) i) (chosen i m) Hx Hi)
      in Hcase.
    change (room (chosen i m)) with (room m) in Hcase.
    rewrite (removeAt_out _ _ Hcase). reflexivity.
Qed.

Lemma finishFight_returns (m : model) :
  exists m' : model, finishFight m = Ok (m', CmdNil).
Proof.
  assert (Hdec : 0 <= selectedCard m < len (room m) \/ ~ 0 <= selectedCard m < len (room m))
    by lia.
  destruct Hdec as [Hsel | Hsel].
  - rewrite (finishFight_valid m Hsel). cbv zeta. eexists. reflexivity.
  - rewrite (finishFight_invalid m Hsel). eexists. reflexivity.
Qed.

Lemma fmap_Panic (r : result model) :
  fmap (fun m => (m, CmdNil)) r = Panic -> r = Panic.
Proof. destruct r; [discriminate | reflexivity]. Qed.

(** X13. The steps that panic are exactly the selections of a first
    potion of the room that [usePotion] and [selectCard] cannot both
    remove: the package-level [index] is outside the room, or the selected
    slot is gone once the card at [index] has left.  Every other message
    makes [Update] return, and settling a fight always returns. *)
Theorem Update_panics_iff (index : Z) (deck : list Card) (msg : Msg) (m : model) :
  (Update index deck msg m = Panic
   <-> exists (key : string) (i : Z),
         msg = KeyMsg key /\ slot key = Some i /\ potion_panics index i m)
  /\ (forall i : Z, selectCard index i m = Panic <-> potion_panics index i m)
  /\ exists m' : model, finishFight m = Ok (m', CmdNil).
Proof.
  split; [|split; [intros i; apply selectCard_Panic_iff | apply finishFight_returns]].
  split.
  - intros H. unfold Update in H. destruct msg as [key|]; [|discriminate].
    destruct (String.eqb key "ctrl+c"); [discriminate|].
    destruct (String.eqb key "a");
      [destruct (negb (avoidedLastRoom m)); discriminate|].
    destruct (String.eqb key "d"); [discriminate|].
    destruct (String.eqb key "1") eqn:K1.
    { apply String.eqb_eq in K1. subst key. exists "1", 0.
      split; [reflexivity | split; [reflexivity|]].
      apply selectCard_Panic_iff, fmap_Panic, H. }
    destruct (String.eqb key "2") eqn:K2.
    { apply String.eqb_eq in K2. subst key. exists "2", 1.
      split; [reflexivity | split; [reflexivity|]].
      apply selectCard_Panic_iff, fmap_Panic, H. }
    destruct (String.eqb key "3") eqn:K3.
    { apply String.eqb_eq in K3. subst key. exists "3", 2.
      split; [reflexivity | split; [reflexivity|]].
      apply selectCard_Panic_iff, fmap_Panic, H. }
    destruct (String.eqb key "4") eqn:K4.
    { apply String.eqb_eq in K4. subst key. exists "4", 3.
      split; [reflexivity | split; [reflexivity|]].
      apply selectCard_Panic_iff, fmap_Panic, H. }
    destruct (String.eqb key "b").
    { destruct (choosingFight m); [|discriminate].
      destruct (finishFight_returns (with_fightingBarehanded true m)) as [m' Hf].
      rewrite Hf in H. discriminate. }
    destruct (String.eqb key "w").
    { destruct (choosingFight m); [|discriminate].
      destruct (finishFight_returns (with_fightingBarehanded false m)) as [m' Hf].
      rewrite Hf in H. discriminate. }
    destruct (String.eqb key "r"); [destruct (health m <=? 0); discriminate|].
    destruct (String.eqb key "t"); discriminate.
  - intros (key & i & -> & Hk & Hp).
    destruct (Update_slot index deck key i m Hk) as [_ ->].
    apply selectCard_Panic_iff in Hp. rewrite Hp. reflexivity.
Qed.

(** ** Quitting, and the messages that do nothing *)

Lemma finishFight_cmd (m m' : model) (cmd : Cmd) :
  finishFight m = Ok (m', cmd) -> cmd = CmdNil.
Proof.
  intros H. destruct (finishFight_returns m) as [m1 H1].
  rewrite H1 in H. inversion H. reflexivity.
Qed.

(** X14. [Update] asks the runtime to quit on the key "ctrl+c" and on
    nothing else, and leaves the session as it is when it does; a key it
    has no case for, the debug key "t" and a message that is not a key
    press return the session as it is with no command. *)
Theorem Update_quit_and_idle (index : Z) (deck : list Card) (m : model) :
  (forall (msg : Msg) (m' : model),
     Update index deck msg m = Ok (m', CmdQuit)
     <-> msg = KeyMsg "ctrl+c" /\ m' = m)
  /\ (forall key : string,
        ~ In key bound_keys -> Update index deck (KeyMsg key) m = Ok (m, CmdNil))
  /\ Update index deck (KeyMsg "t") m = Ok (m, CmdNil)
  /\ Update index deck OtherMsg m = Ok (m, CmdNil).
Proof.
  split; [|split; [|split; reflexivity]].
  - intros msg m'. split.
    + intros H. unfold Update in H. destruct msg as [key|]; [|discriminate].
      destruct (String.eqb key "ctrl+c") eqn:K.
      { apply String.eqb_eq in K. subst key. inversion H. split; reflexivity. }
      exfalso.
      destruct (String.eqb key "a");
        [destruct (negb (avoidedLastRoom m)); discriminate|].
      destruct (String.eqb key "d"); [discriminate|].
      destruct (String.eqb key "1");
        [apply fmap_pair_inv in H; destruct H; discriminate|].
      destruct (String.eqb key "2");
        [apply fmap_pair_inv in H; destruct H; discriminate|].
      destruct (String.eqb key "3");
        [apply fmap_pair_inv in H; destruct H; discriminate|].
      destruct (String.eqb key "4");
        [apply fmap_pair_inv in H; destruct H; discriminate|].
      destruct (String.eqb key "b").
      { destruct (choosingFight m); [|discriminate].
        apply finishFight_cmd in H. discriminate. }
      destruct (String.eqb key "w").
      { destruct (choosingFight m); [|discriminate].
        apply finishFight_cmd in H. discriminate. }
      destruct (String.eqb key "r"); [destruct (health m <=? 0); discriminate|].
      destruct (String.eqb key "t"); discriminate.
    + intros [-> ->]. reflexivity.
  - intros key Hk. unfold Update.
    repeat match goal with
           | |- context [String.eqb key ?k] =>
               let E := fresh "E" in
               destruct (String.eqb key k) eqn:E;
               [apply String.eqb_eq in E; exfalso; apply Hk; rewrite E;
                unfold bound_keys; simpl; tauto|]
           end.
    reflexivity.
Qed.

Lemma Update_quit_and_idle_witness :
  ~ In "x" bound_keys
  /\ Update 0 createDeck (KeyMsg "x") (initialModel createDeck)
     = Ok (initialModel createDeck, CmdNil).
Proof.
  assert (H : ~ In "x" bound_keys).
  { unfold bound_keys. simpl. intros Hin.
    repeat (destruct Hin as [Hin | Hin]; [discriminate|]). exact Hin. }
  split; [exact H|].
  exact (proj1 (proj2 (Update_quit_and_idle 0 createDeck (initialModel createDeck)))
           "x" H).
Defined.

(** ** The score of a reachable session *)

(** X15. In every session the runtime can reach the score tells a lost
    game from a live one: it is positive exactly when the health is; a
    lost game scores its health at best; a live game below 20 scores its
    health; and the score stays between -596 and 34. *)
Theorem score_of_reachable (m : model) :
  reachable m ->
  (0 < calculateScore m <-> 0 < health m)
  /\ (health m <= 0 -> calculateScore m <= health m)
  /\ (0 < health m < 20 -> calculateScore m = health m)
  /\ -596 <= calculateScore m <= 34.
Proof.
  intros Hr. destruct (reachable_sound m Hr) as [Sd Sr Sw Sc Sh Sp].
  pose proof (monster_ranks_bound (dungeon m) Sd) as Hm.
  pose proof (len_nonneg (dungeon m)). pose proof (len_nonneg (room m)).
  pose proof (len_nonneg (discardPile m)).
  pose proof (at_index_ok (discardPile m) (len (discardPile m) - 1) Sp) as Hc.
  unfold card_ok in Hc.
  unfold calculateScore. destruct (health m <=? 0) eqn:Hh.
  - apply Z.leb_le in Hh.
    rewrite penalty_loop
      by (unfold GoInt.in_range, GoInt.min_int, GoInt.max_int; lia).
    rewrite wrap_in_range
      by (unfold GoInt.in_range, GoInt.min_int, GoInt.max_int; lia).
    lia.
  - apply Z.leb_gt in Hh. cbv zeta.
    destruct (health m =? 20) eqn:H20.
    + apply Z.eqb_eq in H20.
      destruct (0 <? len (discardPile m)); cbn [andb]; [|lia].
      destruct (String.eqb (Type_ (at_index (discardPile m)
                                            (len (discardPile m) - 1))) "Potion");
        [|lia].
      unfold GoInt.add.
      rewrite wrap_in_range
        by (unfold GoInt.in_range, GoInt.min_int, GoInt.max_int; lia).
      lia.
    + apply Z.eqb_neq in H20. cbn [andb]. lia.
Qed.

Lemma score_of_reachable_witness :
  reachable dead_example
  /\ health dead_example <= 0
  /\ calculateScore dead_example <= health dead_example.
Proof.
  assert (H : reachable dead_example)
    by (apply reachable_run_from, Permutation_refl).
  assert (Hd : health dead_example <= 0) by (vm_compute; discriminate).
  split; [exact H | split; [exact Hd|]].
  exact (proj1 (proj2 (score_of_reachable dead_example H)) Hd).
Defined.

(** * The earlier program, [main.go] *)

Ltac legacy_fields :=
  cbn [Legacy.health Legacy.dungeon Legacy.room Legacy.equippedWeapon
       Legacy.discardPile Legacy.selectedCard Legacy.cardsChosen
       Legacy.weaponLimit Legacy.with_health Legacy.with_dungeon
       Legacy.with_room Legacy.with_equippedWeapon Legacy.with_discardPile
       Legacy.with_selectedCard Legacy.with_cardsChosen Legacy.with_weaponLimit
       Legacy.discard Legacy.Value Legacy.Suit Legacy.Type_] in *.

(** ** The shapes of a selection *)

Lemma legacy_dealRoom_spec (m : Legacy.model) :
  Legacy.dealRoom m
  = Legacy.mkModel (Legacy.health m) (skipn 4 (Legacy.dungeon m))
                   (firstn 4 (Legacy.dungeon m)) (Legacy.equippedWeapon m)
                   (Legacy.discardPile m) (-1) 0 (Legacy.weaponLimit m).
Proof.
  unfold Legacy.dealRoom. cbv zeta. legacy_fields.
  rewrite legacy_dealLoop_spec. reflexivity.
Qed.

Lemma legacy_selectable_dec (i : Z) (m : Legacy.model) :
  legacy_selectable i m \/ ~ legacy_selectable i m.
Proof. unfold legacy_selectable. lia. Qed.

Lemma legacy_selectCard_valid (i : Z) (m : Legacy.model) :
  legacy_selectable i m ->
  Legacy.selectCard i m
  = Ok (legacy_room_end
          (Legacy.with_room (without i (Legacy.room m))
             (legacy_resolved (Legacy.at_index (Legacy.room m) i)
                              (legacy_chosen i m)))).
Proof.
  intros [Hi H3]. unfold Legacy.selectCard.
  replace (0 <=? i) with true by (symmetry; apply Z.leb_le; lia).
  replace (i <? len (Legacy.room m)) with true by (symmetry; apply Z.ltb_lt; lia).
  replace (Legacy.cardsChosen m <? 3) with true by (symmetry; apply Z.ltb_lt; lia).
  cbn [andb]. cbv zeta.
  change (Legacy.with_cardsChosen
            (GoInt.add (Legacy.cardsChosen (Legacy.with_selectedCard i m)) 1)
            (Legacy.with_selectedCard i m)) with (legacy_chosen i m).
  fold (legacy_resolved (Legacy.at_index (Legacy.room m) i) (legacy_chosen i m)).
  destruct (legacy_resolved_frame (Legacy.at_index (Legacy.room m) i)
              (legacy_chosen i m)) as (Hr & _).
  change (Legacy.room (legacy_chosen i m)) with (Legacy.room m) in Hr.
  rewrite Hr, (removeAt_ok _ _ Hi). cbn [bind]. unfold legacy_room_end.
  destruct (Legacy.cardsChosen _ =? 3); [|reflexivity].
  destruct (0 <? len _); reflexivity.
Qed.

Lemma legacy_selectCard_invalid (i : Z) (m : Legacy.model) :
  ~ legacy_selectable i m ->
  Legacy.selectCard i m = Ok (Legacy.with_selectedCard (-1) m).
Proof.
  intros H. unfold Legacy.selectCard.
  destruct ((0 <=? i) && (i <? len (Legacy.room m)) && (Legacy.cardsChosen m <? 3))
    eqn:Hg; [|reflexivity].
  exfalso. apply H.
  apply andb_true_iff in Hg. destruct Hg as [Hg H3].
  apply andb_true_iff in Hg. destruct Hg as [H0 H1].
  apply Z.leb_le in H0. apply Z.ltb_lt in H1. apply Z.ltb_lt in H3.
  unfold legacy_selectable. lia.
Qed.

Lemma legacy_selectCard_returns (i : Z) (m : Legacy.model) :
  exists m' : Legacy.model, Legacy.selectCard i m = Ok m'.
Proof.
  destruct (legacy_selectable_dec i m) as [Hs | Hs].
  - rewrite (legacy_selectCard_valid i m Hs). eexists. reflexivity.
  - rewrite (legacy_selectCard_invalid i m Hs). eexists. reflexivity.
Qed.

Lemma legacy_Update_returns (deck : list Legacy.Card) (msg : Msg) (m : Legacy.model) :
  exists (m' : Legacy.model) (cmd : Cmd), Legacy.Update deck msg m = Ok (m', cmd).
Proof.
  unfold Legacy.Update. destruct msg as [key|]; [|eexists; eexists; reflexivity].
  destruct (String.eqb key "ctrl+c"); [eexists; eexists; reflexivity|].
  destruct (String.eqb key "d"); [eexists; eexists; reflexivity|].
  destruct (String.eqb key "1").
  { destruct (legacy_selectCard_returns 0 m) as [m' ->]. eexists. eexists. reflexivity. }
  destruct (String.eqb key "2").
  { destruct (legacy_selectCard_returns 1 m) as [m' ->]. eexists. eexists. reflexivity. }
  destruct (String.eqb key "3").
  { destruct (legacy_selectCard_returns 2 m) as [m' ->]. eexists. eexists. reflexivity. }
  destruct (String.eqb key "4").
  { destruct (legacy_selectCard_returns 3 m) as [m' ->]. eexists. eexists. reflexivity. }
  destruct (String.eqb key "r");
    [destruct (Legacy.health m <=? 0)|]; eexists; eexists; reflexivity.
Qed.

(** X16. The earlier program never panics: [selectCard] returns on every
    slot and every session, an invalid selection only clearing the
    selected slot, and a run of [Update] over any messages returns. *)
Theorem legacy_never_panics :
  (forall (i : Z) (m : Legacy.model),
     exists m' : Legacy.model, Legacy.selectCard i m = Ok m')
  /\ (forall (i : Z) (m : Legacy.model),
        ~ legacy_selectable i m ->
        Legacy.selectCard i m = Ok (Legacy.with_selectedCard (-1) m))
  /\ (forall (deck : list Legacy.Card) (msgs : list Msg) (m : Legacy.model),
        exists m' : Legacy.model, Legacy.run deck msgs m = Ok m').
Proof.
  split; [exact legacy_selectCard_returns|].
  split; [exact legacy_selectCard_invalid|].
  intros deck msgs. induction msgs as [|msg rest IH]; intros m.
  - exists m. reflexivity.
  - cbn [Legacy.run].
    destruct (legacy_Update_returns deck msg m) as (m1 & cmd & ->).
    cbn [bind fst]. apply IH.
Qed.

Lemma legacy_never_panics_witness :
  ~ legacy_selectable 3 legacy_third_example
  /\ Legacy.selectCard 3 legacy_third_example
     = Ok (Legacy.with_selectedCard (-1) legacy_third_example).
Proof.
  assert (H : ~ legacy_selectable 3 legacy_third_example).
  { unfold legacy_selectable. intros [[_ Hlt] _]. vm_compute in Hlt. discriminate. }
  split; [exact H | exact (proj1 (proj2 legacy_never_panics) 3 _ H)].
Defined.

(** X17. In the earlier program a redeal drops the room: after the key
    "d" the room is the first four cards of the dungeon and the dungeon
    the rest, the discard pile is as it was, and the cards that were in
    the room are in no pile; the piles hold the cards of the old dungeon
    and discard pile and nothing else. *)
Theorem legacy_redeal_drops_room (deck : list Legacy.Card) (m : Legacy.model) :
  exists m' : Legacy.model,
    Legacy.Update deck (KeyMsg "d") m = Ok (m', CmdNil)
    /\ Legacy.room m' = firstn 4 (Legacy.dungeon m)
    /\ Legacy.dungeon m' = skipn 4 (Legacy.dungeon m)
    /\ Legacy.discardPile m' = Legacy.discardPile m
    /\ Legacy.health m' = Legacy.health m
    /\ Legacy.equippedWeapon m' = Legacy.equippedWeapon m
    /\ Legacy.room m' ++ Legacy.dungeon m' = Legacy.dungeon m
    /\ len (Legacy.dungeon m') + len (Legacy.room m') + len (Legacy.discardPile m')
       = len (Legacy.dungeon m) + len (Legacy.room m) + len (Legacy.discardPile m)
         - len (Legacy.room m).
Proof.
  exists (Legacy.dealRoom m). split; [reflexivity|].
  rewrite legacy_dealRoom_spec. legacy_fields.
  do 5 (split; [reflexivity|]). split; [apply firstn_skipn|].
  pose proof (len_firstn_skipn 4 (Legacy.dungeon m)). lia.
Qed.

(** ** Potions *)

Lemma legacy_room_end_frame (m : Legacy.model) :
  Legacy.health (legacy_room_end m) = Legacy.health m
  /\ Legacy.equippedWeapon (legacy_room_end m) = Legacy.equippedWeapon m
  /\ Legacy.weaponLimit (legacy_room_end m) = Legacy.weaponLimit m
  /\ exists pile : list Legacy.Card,
       Legacy.discardPile (legacy_room_end m) = Legacy.discardPile m ++ pile
       /\ len pile <= 1.
Proof.
  unfold legacy_room_end.
  destruct (Legacy.cardsChosen m =? 3).
  - rewrite legacy_dealRoom_spec. destruct (0 <? len (Legacy.room m)); legacy_fields.
    + repeat split. eexists. split; [reflexivity|]. vm_compute. discriminate.
    + repeat split. exists []. rewrite app_nil_r. split; [reflexivity|].
      vm_compute. discriminate.
  - repeat split. exists []. rewrite app_nil_r. split; [reflexivity|].
    vm_compute. discriminate.
Qed.

Lemma legacy_resolved_potion (card : Legacy.Card) (m : Legacy.model) :
  Legacy.Type_ card = "Potion" -> legacy_resolved card m = Legacy.usePotion card m.
Proof. intros H. unfold legacy_resolved. rewrite H. reflexivity. Qed.

(** X18. In the earlier program every potion heals: a valid selection of
    a Potion card returns with the health raised by the rank of the card,
    capped at 20, whatever was selected before it in the room, and the
    card is put on the discard pile. *)
Theorem legacy_every_potion_heals (i : Z) (m : Legacy.model) :
  legacy_selectable i m ->
  Legacy.Type_ (Legacy.at_index (Legacy.room m) i) = "Potion" ->
  GoInt.in_range (Legacy.health m + Legacy.Value (Legacy.at_index (Legacy.room m) i)) ->
  exists (m' : Legacy.model) (pile : list Legacy.Card),
    Legacy.selectCard i m = Ok m'
    /\ Legacy.health m'
       = Z.min 20 (Legacy.health m + Legacy.Value (Legacy.at_index (Legacy.room m) i))
    /\ Legacy.discardPile m'
       = Legacy.discardPile m ++ Legacy.at_index (Legacy.room m) i :: pile.
Proof.
  intros Hs Ht Hfit. rewrite (legacy_selectCard_valid i m Hs).
  rewrite (legacy_resolved_potion _ _ Ht).
  set (m2 := Legacy.with_room _ _).
  destruct (legacy_room_end_frame m2) as (Hh & _ & _ & pile & Hd & _).
  exists (legacy_room_end m2), pile. split; [reflexivity|].
  rewrite Hh, Hd. subst m2. unfold Legacy.usePotion, legacy_chosen. cbv zeta.
  legacy_fields. unfold GoInt.add. rewrite (wrap_in_range _ Hfit).
  destruct (20 <? _) eqn:H20; legacy_fields.
  - apply Z.ltb_lt in H20. split; [lia|]. rewrite <- app_assoc. reflexivity.
  - apply Z.ltb_ge in H20. split; [lia|]. rewrite <- app_assoc. reflexivity.
Qed.

Lemma legacy_every_potion_heals_witness :
  legacy_selectable 0 legacy_potion_example
  /\ Legacy.Type_ (Legacy.at_index (Legacy.room legacy_potion_example) 0) = "Potion"
  /\ exists (m' : Legacy.model) (pile : list Legacy.Card),
       Legacy.selectCard 0 legacy_potion_example = Ok m'
       /\ Legacy.health m' = 20
       /\ Legacy.discardPile m'
          = [Legacy.mkCard "Heart" 5 "Potion"] ++ Legacy.mkCard "Heart" 7 "Potion" :: pile.
Proof.
  assert (H1 : legacy_selectable 0 legacy_potion_example)
    by (unfold legacy_selectable; vm_compute; repeat split; discriminate).
  assert (H2 : Legacy.Type_ (Legacy.at_index (Legacy.room legacy_potion_example) 0)
               = "Potion") by reflexivity.
  assert (H3 : GoInt.in_range
                 (Legacy.health legacy_potion_example
                  + Legacy.Value (Legacy.at_index (Legacy.room legacy_potion_example) 0)))
    by (vm_compute; split; discriminate).
  split; [exact H1 | split; [exact H2|]].
  exact (legacy_every_potion_heals 0 legacy_potion_example H1 H2 H3).
Defined.

(** ** The weapon ceiling of the earlier program *)

Lemma legacy_same_game_ceiling (m1 m2 : Legacy.model) :
  legacy_same_game m1 m2 <-> exists l : Z, m2 = Legacy.with_weaponLimit l m1.
Proof.
  unfold legacy_same_game. split.
  - intros H. exists (Legacy.weaponLimit m2). destruct m1, m2. simpl in *.
    inversion H. reflexivity.
  - intros [l ->]. reflexivity.
Qed.

Lemma legacy_resolved_ceiling (card : Legacy.Card) (l : Z) (m : Legacy.model) :
  legacy_same_game (legacy_resolved card m)
    (legacy_resolved card (Legacy.with_weaponLimit l m)).
Proof.
  unfold legacy_same_game, legacy_resolved, Legacy.equipWeapon, Legacy.usePotion,
    Legacy.fightMonster.
  destruct m; cbv zeta; legacy_fields.
  repeat match goal with
         | |- context [if ?b then _ else _] => destruct b
         end; reflexivity.
Qed.

Lemma legacy_room_end_ceiling (m1 m2 : Legacy.model) :
  legacy_same_game m1 m2 ->
  legacy_same_game (legacy_room_end m1) (legacy_room_end m2).
Proof.
  intros H. apply legacy_same_game_ceiling in H. destruct H as [l ->].
  unfold legacy_room_end, legacy_same_game. legacy_fields.
  destruct (Legacy.cardsChosen m1 =? 3); [|reflexivity].
  destruct (0 <? len (Legacy.room m1)); rewrite !legacy_dealRoom_spec; reflexivity.
Qed.

Lemma legacy_with_room_ceiling (rm : list Legacy.Card) (m1 m2 : Legacy.model) :
  legacy_same_game m1 m2 ->
  legacy_same_game (Legacy.with_room rm m1) (Legacy.with_room rm m2).
Proof.
  intros H. apply legacy_same_game_ceiling in H. destruct H as [l ->]. reflexivity.
Qed.

Lemma legacy_selectCard_ceiling (i l : Z) (m : Legacy.model) :
  exists m1 m2 : Legacy.model,
    Legacy.selectCard i m = Ok m1
    /\ Legacy.selectCard i (Legacy.with_weaponLimit l m) = Ok m2
    /\ legacy_same_game m1 m2.
Proof.
  destruct (legacy_selectable_dec i m) as [Hs | Hs].
  - rewrite (legacy_selectCard_valid i m Hs).
    rewrite (legacy_selectCard_valid i (Legacy.with_weaponLimit l m)) by exact Hs.
    eexists. eexists. split; [reflexivity|]. split; [reflexivity|].
    apply legacy_room_end_ceiling, legacy_with_room_ceiling.
    apply (legacy_resolved_ceiling _ l (legacy_chosen i m)).
  - rewrite (legacy_selectCard_invalid i m Hs).
    rewrite (legacy_selectCard_invalid i (Legacy.with_weaponLimit l m)) by exact Hs.
    eexists. eexists. split; [reflexivity|]. split; reflexivity.
Qed.

(** X19. The earlier program never reads the weapon ceiling: from two
    sessions that differ in [weaponLimit] at most, every message makes
    [Update] return the same command and two sessions that again differ in
    [weaponLimit] at most.  The ceiling is written by a fight and has no
    effect on any later step. *)
Theorem legacy_ceiling_never_read (deck : list Legacy.Card) (msg : Msg)
        (m1 m2 : Legacy.model) :
  legacy_same_game m1 m2 ->
  exists (m1' m2' : Legacy.model) (cmd : Cmd),
    Legacy.Update deck msg m1 = Ok (m1', cmd)
    /\ Legacy.Update deck msg m2 = Ok (m2', cmd)
    /\ legacy_same_game m1' m2'.
Proof.
  intros H. apply legacy_same_game_ceiling in H. destruct H as [l ->].
  unfold Legacy.Update. destruct msg as [key|].
  2:{ eexists. eexists. eexists. split; [reflexivity|]. split; reflexivity. }
  destruct (String.eqb key "ctrl+c").
  { eexists. eexists. eexists. split; [reflexivity|]. split; reflexivity. }
  destruct (String.eqb key "d").
  { eexists. eexists. eexists. split; [reflexivity|]. split; [reflexivity|].
    unfold legacy_same_game. rewrite !legacy_dealRoom_spec. reflexivity. }
  destruct (String.eqb key "1").
  { destruct (legacy_selectCard_ceiling 0 l m1) as (a & b & -> & -> & Hab).
    exists a, b, CmdNil. split; [reflexivity|]. split; [reflexivity | exact Hab]. }
  destruct (String.eqb key "2").
  { destruct (legacy_selectCard_ceiling 1 l m1) as (a & b & -> & -> & Hab).
    exists a, b, CmdNil. split; [reflexivity|]. split; [reflexivity | exact Hab]. }
  destruct (String.eqb key "3").
  { destruct (legacy_selectCard_ceiling 2 l m1) as (a & b & -> & -> & Hab).
    exists a, b, CmdNil. split; [reflexivity|]. split; [reflexivity | exact Hab]. }
  destruct (String.eqb key "4").
  { destruct (legacy_selectCard_ceiling 3 l m1) as (a & b & -> & -> & Hab).
    exists a, b, CmdNil. split; [reflexivity|]. split; [reflexivity | exact Hab]. }
  legacy_fields.
  destruct (String.eqb key "r"); [destruct (Legacy.health m1 <=? 0)|];
    eexists; eexists; eexists; (split; [reflexivity|]); split; reflexivity.
Qed.

Lemma legacy_ceiling_never_read_witness :
  legacy_same_game legacy_after_small (Legacy.with_weaponLimit 14 legacy_after_small)
  /\ exists (m1' m2' : Legacy.model) (cmd : Cmd),
       Legacy.Update legacy_stacked (KeyMsg "1") legacy_after_small = Ok (m1', cmd)
       /\ Legacy.Update legacy_stacked (KeyMsg "1")
            (Legacy.with_weaponLimit 14 legacy_after_small) = Ok (m2', cmd)
       /\ legacy_same_game m1' m2'.
Proof.
  assert (H : legacy_same_game legacy_after_small
                (Legacy.with_weaponLimit 14 legacy_after_small)) by reflexivity.
  split; [exact H|].
  exact (legacy_ceiling_never_read legacy_stacked (KeyMsg "1") _ _ H).
Defined.

(** ** An invariant of the earlier program *)

Lemma legacy_card_ok_empty : legacy_card_ok Legacy.emptyCard.
Proof. unfold legacy_card_ok. simpl. lia. Qed.

Lemma legacy_at_index_ok (s : list Legacy.Card) (i : Z) :
  Forall legacy_card_ok s -> legacy_card_ok (Legacy.at_index s i).
Proof.
  intros H. unfold Legacy.at_index.
  destruct (nth_in_or_default (Z.to_nat i) s Legacy.emptyCard) as [Hin | ->].
  - rewrite Forall_forall in H. apply H, Hin.
  - apply legacy_card_ok_empty.
Qed.

Lemma legacy_createDeck_ok : Forall legacy_card_ok Legacy.createDeck.
Proof.
  unfold Legacy.createDeck, ranks. simpl.
  repeat constructor; unfold legacy_card_ok; simpl; lia.
Qed.

Lemma legacy_len_shuffle (deck : list Legacy.Card) :
  Permutation Legacy.createDeck deck -> len deck = 44.
Proof.
  intros H. unfold len. rewrite <- (Permutation_length H). reflexivity.
Qed.

Lemma legacy_sound_dealRoom (m : Legacy.model) :
  Forall legacy_card_ok (Legacy.dungeon m) ->
  legacy_card_ok (Legacy.equippedWeapon m) ->
  len (Legacy.dungeon m) + len (Legacy.discardPile m) <= 44 ->
  20 - 14 * len (Legacy.discardPile m) <= Legacy.health m <= 20 ->
  legacy_sound (Legacy.dealRoom m).
Proof.
  intros Hd Hw Hc Hh. rewrite legacy_dealRoom_spec.
  destruct (Forall_firstn_skipn legacy_card_ok 4 (Legacy.dungeon m) Hd) as [Hf Hs].
  pose proof (len_firstn_skipn 4 (Legacy.dungeon m)) as Hl.
  pose proof (len_nonneg (skipn 4 (Legacy.dungeon m))) as Hn.
  assert (H4 : len (firstn 4 (Legacy.dungeon m)) <= 4).
  { unfold len. rewrite length_firstn. lia. }
  constructor; legacy_fields; auto; lia.
Qed.

Lemma legacy_sound_initialModel (deck : list Legacy.Card) :
  Permutation Legacy.createDeck deck -> legacy_sound (Legacy.initialModel deck).
Proof.
  intros Hp. unfold Legacy.initialModel. apply legacy_sound_dealRoom; legacy_fields.
  - eapply Permutation_Forall; [exact Hp | exact legacy_createDeck_ok].
  - apply legacy_card_ok_empty.
  - rewrite (legacy_len_shuffle deck Hp). change (len []) with 0. lia.
  - change (len []) with 0. lia.
Qed.

(** What the selected card can do to the hand, the discard pile and the
    health. *)
Lemma legacy_resolved_bounds (card : Legacy.Card) (m : Legacy.model) :
  legacy_card_ok card -> legacy_card_ok (Legacy.equippedWeapon m) ->
  len (Legacy.discardPile m) <= 44 ->
  20 - 14 * len (Legacy.discardPile m) <= Legacy.health m <= 20 ->
  legacy_card_ok (Legacy.equippedWeapon (legacy_resolved card m))
  /\ len (Legacy.discardPile m) <= len (Legacy.discardPile (legacy_resolved card m))
     <= len (Legacy.discardPile m) + 1
  /\ 20 - 14 * len (Legacy.discardPile (legacy_resolved card m))
     <= Legacy.health (legacy_resolved card m) <= 20
  /\ Legacy.selectedCard (legacy_resolved card m) = Legacy.selectedCard m.
Proof.
  unfold legacy_card_ok. intros Hc Hw H44 Hh.
  pose proof (len_nonneg (Legacy.discardPile m)) as Hn.
  unfold legacy_resolved.
  destruct (String.eqb (Legacy.Type_ card) "Weapon").
  { unfold Legacy.equipWeapon. cbv zeta.
    destruct (negb (Legacy.Card_eqb (Legacy.equippedWeapon m) Legacy.emptyCard));
      legacy_fields; rewrite ?len_app; change (len [Legacy.equippedWeapon m]) with 1;
      repeat split; lia. }
  destruct (String.eqb (Legacy.Type_ card) "Potion").
  { unfold Legacy.usePotion. cbv zeta. legacy_fields. unfold GoInt.add.
    rewrite wrap_in_range
      by (unfold GoInt.in_range, GoInt.min_int, GoInt.max_int; lia).
    destruct (20 <? Legacy.health m + Legacy.Value card) eqn:H20; legacy_fields;
      rewrite len_app; change (len [card]) with 1;
      [apply Z.ltb_lt in H20 | apply Z.ltb_ge in H20]; repeat split; lia. }
  destruct (String.eqb (Legacy.Type_ card) "Monster"); [|repeat split; lia].
  unfold Legacy.fightMonster. cbv zeta.
  destruct (Legacy.Card_eqb (Legacy.equippedWeapon m) Legacy.emptyCard).
  - legacy_fields. unfold GoInt.sub.
    rewrite wrap_in_range
      by (unfold GoInt.in_range, GoInt.min_int, GoInt.max_int; lia).
    rewrite len_app. change (len [card]) with 1. repeat split; lia.
  - unfold GoInt.sub.
    rewrite (wrap_in_range (Legacy.Value card - Legacy.Value (Legacy.equippedWeapon m)))
      by (unfold GoInt.in_range, GoInt.min_int, GoInt.max_int; lia).
    destruct (0 <? Legacy.Value card - Legacy.Value (Legacy.equippedWeapon m)) eqn:Hp;
      legacy_fields; rewrite len_app; change (len [card]) with 1.
    + apply Z.ltb_lt in Hp.
      rewrite wrap_in_range
        by (unfold GoInt.in_range, GoInt.min_int, GoInt.max_int; lia).
      repeat split; lia.
    + repeat split; lia.
Qed.

Lemma legacy_sound_selectCard (i : Z) (m m' : Legacy.model) :
  legacy_sound m -> Legacy.selectCard i m = Ok m' -> legacy_sound m'.
Proof.
  intros Hs Hsel. pose proof Hs as [Sd Sr Sw Sl Sc Ss Sn Sh].
  destruct (legacy_selectable_dec i m) as [Hv | Hv].
  2:{ rewrite (legacy_selectCard_invalid i m Hv) in Hsel. inversion Hsel.
      constructor; legacy_fields; auto. lia. }
  rewrite (legacy_selectCard_valid i m Hv) in Hsel. inversion Hsel. clear Hsel.
  destruct Hv as [Hi H3].
  pose proof (len_nonneg (Legacy.dungeon m)) as Hnd.
  pose proof (len_nonneg (Legacy.discardPile m)) as Hnp.
  pose proof (len_without i (Legacy.room m) Hi) as Hw.
  pose proof (len_nonneg (without i (Legacy.room m))) as Hnw.
  set (card := Legacy.at_index (Legacy.room m) i).
  assert (Hc : legacy_card_ok card) by (apply legacy_at_index_ok, Sr).
  destruct (legacy_resolved_frame card (legacy_chosen i m)) as (Hr & Hd & Hcc).
  destruct (legacy_resolved_bounds card (legacy_chosen i m) Hc Sw) as (Bw & Bd & Bh & Bs);
    [change (Legacy.discardPile (legacy_chosen i m)) with (Legacy.discardPile m); lia
    |exact Sh|].
  change (Legacy.discardPile (legacy_chosen i m)) with (Legacy.discardPile m) in Bd, Bh.
  change (Legacy.health (legacy_chosen i m)) with (Legacy.health m) in Bh.
  change (Legacy.dungeon (legacy_chosen i m)) with (Legacy.dungeon m) in Hd.
  change (Legacy.selectedCard (legacy_chosen i m)) with i in Bs.
  assert (Hcount : Legacy.cardsChosen (legacy_chosen i m) = Legacy.cardsChosen m + 1).
  { unfold legacy_chosen, GoInt.add. legacy_fields. apply wrap_in_range.
    unfold GoInt.in_range, GoInt.min_int, GoInt.max_int. lia. }
  rewrite Hcount in Hcc.
  set (m2 := legacy_resolved card (legacy_chosen i m)) in *.
  unfold legacy_room_end. legacy_fields. rewrite Hcc.
  destruct (Legacy.cardsChosen m + 1 =? 3) eqn:H33.
  - destruct (0 <? len (without i (Legacy.room m))) eqn:Hpos.
    + apply Z.ltb_lt in Hpos.
      apply legacy_sound_dealRoom; legacy_fields; rewrite ?Hd; auto;
        rewrite len_app; change (len [_]) with 1; lia.
    + apply legacy_sound_dealRoom; legacy_fields; rewrite ?Hd; auto; lia.
  - apply Z.eqb_neq in H33.
    constructor; legacy_fields; rewrite ?Hd, ?Hcc, ?Bs; auto; try lia.
    apply Forall_without, Sr.
Qed.

Lemma legacy_sound_Update (deck : list Legacy.Card) (msg : Msg)
      (m m' : Legacy.model) (cmd : Cmd) :
  Permutation Legacy.createDeck deck -> legacy_sound m ->
  Legacy.Update deck msg m = Ok (m', cmd) -> legacy_sound m'.
Proof.
  intros Hp Hs Hu. unfold Legacy.Update in Hu.
  destruct msg as [key|]; [|inversion Hu; subst; exact Hs].
  destruct (String.eqb key "ctrl+c"); [inversion Hu; subst; exact Hs|].
  destruct (String.eqb key "d").
  { inversion Hu. destruct Hs as [Sd Sr Sw Sl Sc Ss Sn Sh].
    pose proof (len_nonneg (Legacy.room m)).
    apply legacy_sound_dealRoom; auto. lia. }
  destruct (String.eqb key "1").
  { destruct (Legacy.selectCard 0 m) as [m1|] eqn:H1; [|discriminate].
    inversion Hu. subst. exact (legacy_sound_selectCard _ _ _ Hs H1). }
  destruct (String.eqb key "2").
  { destruct (Legacy.selectCard 1 m) as [m1|] eqn:H1; [|discriminate].
    inversion Hu. subst. exact (legacy_sound_selectCard _ _ _ Hs H1). }
  destruct (String.eqb key "3").
  { destruct (Legacy.selectCard 2 m) as [m1|] eqn:H1; [|discriminate].
    inversion Hu. subst. exact (legacy_sound_selectCard _ _ _ Hs H1). }
  destruct (String.eqb key "4").
  { destruct (Legacy.selectCard 3 m) as [m1|] eqn:H1; [|discriminate].
    inversion Hu. subst. exact (legacy_sound_selectCard _ _ _ Hs H1). }
  destruct (String.eqb key "r"); [|inversion Hu; subst; exact Hs].
  destruct (Legacy.health m <=? 0); inversion Hu; subst; [|exact Hs].
  apply legacy_sound_initialModel, Hp.
Qed.

Lemma legacy_reachable_sound (m : Legacy.model) :
  Legacy.reachable m -> legacy_sound m.
Proof.
  induction 1 as [deck Hp | m m' deck msg cmd _ IH Hp Hu].
  - apply legacy_sound_initialModel, Hp.
  - exact (legacy_sound_Update _ _ _ _ _ Hp IH Hu).
Qed.

(** X20. In every session the earlier program can reach the health is at
    most 20 and at least 20 minus 14 for each discarded card, the room
    holds at most four cards, the piles hold at most 44 cards, and fewer
    than three selections are counted: the third selection always deals a
    new room, so a selection is rejected only when its slot is outside the
    room. *)
Theorem legacy_reachable_bounds (m : Legacy.model) :
  Legacy.reachable m ->
  20 - 14 * len (Legacy.discardPile m) <= Legacy.health m <= 20
  /\ len (Legacy.room m) <= 4
  /\ len (Legacy.dungeon m) + len (Legacy.room m) + len (Legacy.discardPile m) <= 44
  /\ 0 <= Legacy.cardsChosen m <= 2
  /\ -1 <= Legacy.selectedCard m <= 3
  /\ (forall i : Z, 0 <= i < len (Legacy.room m) -> legacy_selectable i m).
Proof.
  intros Hr. destruct (legacy_reachable_sound m Hr) as [Sd Sr Sw Sl Sc Ss Sn Sh].
  split; [exact Sh|]. split; [exact Sl|]. split; [exact Sn|].
  split; [exact Sc|]. split; [exact Ss|].
  intros i Hi. unfold legacy_selectable. lia.
Qed.

Lemma legacy_reachable_bounds_witness :
  Legacy.reachable legacy_after_big
  /\ Legacy.health legacy_after_big <= 20
  /\ len (Legacy.room legacy_after_big) <= 4
  /\ 0 <= Legacy.cardsChosen legacy_after_big <= 2.
Proof.
  assert (H : Legacy.reachable legacy_after_big)
    by (apply legacy_reachable_run_from, legacy_stacked_shuffle).
  split; [exact H|].
  destruct (legacy_reachable_bounds legacy_after_big H) as ([_ Hh] & Hl & _ & Hc & _).
  split; [exact Hh | split; [exact Hl | exact Hc]].
Defined.

(** ** Fights of the earlier program *)

Lemma legacy_resolved_monster (card : Legacy.Card) (m : Legacy.model) :
  Legacy.Type_ card = "Monster" ->
  legacy_resolved card m = Legacy.fightMonster card m.
Proof. intros H. unfold legacy_resolved. rewrite H. reflexivity. Qed.

(** X21. A fight in the earlier program: in a reachable session a
    selection of a Monster card in the room returns; without a weapon in
    hand it costs the rank of the card and leaves the ceiling alone, with
    a weapon it costs the rank above the weapon's, if any, and sets the
    ceiling to the rank of the card, whatever the ceiling was; the card is
    put on the discard pile. *)
Theorem legacy_fight (i : Z) (m : Legacy.model) :
  Legacy.reachable m -> 0 <= i < len (Legacy.room m) ->
  Legacy.Type_ (Legacy.at_index (Legacy.room m) i) = "Monster" ->
  exists (m' : Legacy.model) (pile : list Legacy.Card),
    Legacy.selectCard i m = Ok m'
    /\ Legacy.health m'
       = Legacy.health m - legacy_damage m (Legacy.at_index (Legacy.room m) i)
    /\ Legacy.weaponLimit m'
       = (if Legacy.Card_eqb (Legacy.equippedWeapon m) Legacy.emptyCard
          then Legacy.weaponLimit m
          else Legacy.Value (Legacy.at_index (Legacy.room m) i))
    /\ Legacy.equippedWeapon m' = Legacy.equippedWeapon m
    /\ Legacy.discardPile m'
       = Legacy.discardPile m ++ Legacy.at_index (Legacy.room m) i :: pile.
Proof.
  intros Hr Hi Ht.
  destruct (legacy_reachable_sound m Hr) as [Sd Sr Sw Sl Sc Ss Sn Sh].
  assert (Hs : legacy_selectable i m) by (unfold legacy_selectable; lia).
  pose proof (legacy_at_index_ok (Legacy.room m) i Sr) as Hc.
  pose proof (len_nonneg (Legacy.discardPile m)) as Hnp.
  pose proof (len_nonneg (Legacy.dungeon m)) as Hnd.
  pose proof (len_nonneg (Legacy.room m)) as Hnr.
  unfold legacy_card_ok in *.
  rewrite (legacy_selectCard_valid i m Hs).
  rewrite (legacy_resolved_monster _ _ Ht).
  set (m2 := Legacy.with_room _ _).
  destruct (legacy_room_end_frame m2) as (Hh & Hw & Hl & pile & Hd & _).
  exists (legacy_room_end m2), pile. split; [reflexivity|].
  rewrite Hh, Hw, Hl, Hd. subst m2.
  unfold Legacy.fightMonster, legacy_chosen, legacy_damage. cbv zeta. legacy_fields.
  destruct (Legacy.Card_eqb (Legacy.equippedWeapon m) Legacy.emptyCard).
  - legacy_fields. unfold GoInt.sub.
    rewrite wrap_in_range
      by (unfold GoInt.in_range, GoInt.min_int, GoInt.max_int; lia).
    rewrite <- app_assoc. repeat split.
  - unfold GoInt.sub.
    rewrite (wrap_in_range (Legacy.Value _ - Legacy.Value _))
      by (unfold GoInt.in_range, GoInt.min_int, GoInt.max_int; lia).
    destruct (0 <? _) eqn:Hp; legacy_fields; rewrite <- app_assoc.
    + apply Z.ltb_lt in Hp.
      rewrite wrap_in_range
        by (unfold GoInt.in_range, GoInt.min_int, GoInt.max_int; lia).
      split; [lia|]. repeat split.
    + apply Z.ltb_ge in Hp. split; [lia|]. repeat split.
Qed.

Lemma legacy_fight_witness :
  Legacy.reachable legacy_after_small
  /\ 0 <= 0 < len (Legacy.room legacy_after_small)
  /\ Legacy.Type_ (Legacy.at_index (Legacy.room legacy_after_small) 0) = "Monster"
  /\ exists (m' : Legacy.model) (pile : list Legacy.Card),
       Legacy.selectCard 0 legacy_after_small = Ok m'
       /\ Legacy.health m' = 20 - 5
       /\ Legacy.weaponLimit m' = 10.
Proof.
  assert (H1 : Legacy.reachable legacy_after_small)
    by (apply legacy_reachable_run_from, legacy_stacked_shuffle).
  assert (H2 : 0 <= 0 < len (Legacy.room legacy_after_small))
    by (vm_compute; split; [discriminate | reflexivity]).
  assert (H3 : Legacy.Type_ (Legacy.at_index (Legacy.room legacy_after_small) 0)
               = "Monster") by (vm_compute; reflexivity).
  split; [exact H1 | split; [exact H2 | split; [exact H3|]]].
  destruct (legacy_fight 0 legacy_after_small H1 H2 H3)
    as (m' & pile & Hs & Hh & Hl & _).
  exists m', pile. split; [exact Hs|]. split.
  - rewrite Hh. vm_compute. reflexivity.
  - rewrite Hl. vm_compute. reflexivity.
Defined.

(** * More on selections in the game loop with the fight-style choice *)

(** ** Fighting by keys *)

Lemma eqb_Monster (card : Card) :
  Type_ card = "Monster" ->
  String.eqb (Type_ card) "Weapon" = false
  /\ String.eqb (Type_ card) "Potion" = false
  /\ String.eqb (Type_ card) "Monster" = true.
Proof. intros ->. repeat split. Qed.

(** X22. A barehanded fight by keys: a card key on a Monster in the room
    followed by the key "b" returns; the health drops by the rank of the
    card, the card goes from the room to the discard pile, the weapon and
    the ceiling are untouched and no choice is pending.  When the fight
    leaves one card in the room, the room is topped up from the dungeon
    behind that card and the selection counter starts again at 0;
    otherwise the room is not refilled and the selection is counted. *)
Theorem barehanded_fight_by_keys (index : Z) (deck : list Card) (key : string)
        (i : Z) (m : model) :
  slot key = Some i -> selectable i m -> 0 <= cardsChosen m ->
  Type_ (at_index (room m) i) = "Monster" ->
  exists m' : model,
    run index deck [KeyMsg key; KeyMsg "b"] m = Ok m'
    /\ health m' = GoInt.sub (health m) (Value (at_index (room m) i))
    /\ discardPile m' = discardPile m ++ [at_index (room m) i]
    /\ equippedWeapon m' = equippedWeapon m
    /\ weaponLimit m' = weaponLimit m
    /\ choosingFight m' = false
    /\ selectedCard m' = -1
    /\ (len (room m) = 2 ->
        room m' = without i (room m) ++ firstn 3 (dungeon m)
        /\ dungeon m' = skipn 3 (dungeon m)
        /\ cardsChosen m' = 0)
    /\ (len (room m) <> 2 ->
        room m' = without i (room m)
        /\ dungeon m' = dungeon m
        /\ cardsChosen m' = cardsChosen m + 1).
Proof.
  intros Hk Hs H0 Ht. cbn [run].
  destruct (Update_slot index deck key i m Hk) as [_ ->].
  rewrite (selectCard_valid index i m Hs). cbv zeta.
  destruct (eqb_Monster _ Ht) as (-> & -> & ->). cbn [fmap bind fst].
  set (m1 := with_choosingFight true (chosen i m)).
  assert (Hc1 : choosingFight m1 = true) by reflexivity.
  pose proof (Update_fight_style index deck m1 true Hc1) as Hb. cbn iota in Hb.
  rewrite Hb. clear Hb.
  destruct Hs as [Hi H3]. pose proof (len_without i (room m) Hi) as Hw.
  assert (Hcc : cardsChosen (chosen i m) = cardsChosen m + 1)
    by (apply chosen_count; lia).
  assert (Hsel : 0 <= selectedCard (with_fightingBarehanded true m1)
                 < len (room (with_fightingBarehanded true m1))) by exact Hi.
  rewrite (finishFight_valid _ Hsel). cbv zeta.
  rewrite fought_barehanded by (left; reflexivity).
  subst m1. unfold chosen in *. fields. rewrite Hw.
  destruct (4 - (len (room m) - 1) =? 3) eqn:H2; cbn [bind fst].
  - apply Z.eqb_eq in H2. eexists. split; [reflexivity|].
    rewrite dealRoom_spec. fields.
    do 6 (split; [reflexivity|]). split; [|intros Hn; lia].
    intros _. unfold missing. rewrite Hw.
    replace (Z.to_nat (4 - (len (room m) - 1))) with 3%nat by lia.
    repeat split.
  - apply Z.eqb_neq in H2. eexists. split; [reflexivity|]. fields.
    do 6 (split; [reflexivity|]). split; [intros Hn; lia|].
    intros _. split; [reflexivity|]. split; [reflexivity | exact Hcc].
Qed.

Lemma barehanded_fight_by_keys_witness :
  slot "1" = Some 0 /\ selectable 0 (initialModel createDeck)
  /\ 0 <= cardsChosen (initialModel createDeck)
  /\ Type_ (at_index (room (initialModel createDeck)) 0) = "Monster"
  /\ exists m' : model,
       run 0 createDeck [KeyMsg "1"; KeyMsg "b"] (initialModel createDeck) = Ok m'
       /\ health m' = 18
       /\ discardPile m' = [mkCard "Club" 2 "Monster" 0].
Proof.
  assert (H1 : slot "1" = Some 0) by reflexivity.
  assert (H2 : selectable 0 (initialModel createDeck))
    by (unfold selectable; vm_compute; repeat split; discriminate).
  assert (H3 : 0 <= cardsChosen (initialModel createDeck))
    by (vm_compute; discriminate).
  assert (H4 : Type_ (at_index (room (initialModel createDeck)) 0) = "Monster")
    by reflexivity.
  split; [exact H1 | split; [exact H2 | split; [exact H3 | split; [exact H4|]]]].
  destruct (barehanded_fight_by_keys 0 createDeck "1" 0 (initialModel createDeck)
              H1 H2 H3 H4) as (m' & Hrun & Hh & Hd & _).
  exists m'. split; [exact Hrun|]. split.
  - rewrite Hh. reflexivity.
  - rewrite Hd. reflexivity.
Defined.

(** ** The first potion of a room *)

(** X23. The first potion of a room always costs a card: whenever the
    selection of a Potion returns in a room where no potion was used, the
    session holds one card fewer than before.  The potion is the only
    card added to the discard pile, while two cards have left the room:
    the one [usePotion] removes at the package-level [index] and the one
    [selectCard] removes at the selected slot; when [index] is the
    selected slot and the room did not hold two cards, these are the
    potion and the card after it. *)
Theorem first_potion_costs_a_card (index i : Z) (m m' : model) :
  potionUsedThisTurn m = false -> selectable i m ->
  Type_ (at_index (room m) i) = "Potion" ->
  selectCard index i m = Ok m' ->
  cards_held m' = cards_held m - 1
  /\ discardPile m' = discardPile m ++ [at_index (room m) i]
  /\ equippedWeapon m' = equippedWeapon m
  /\ potionUsedThisTurn m' = negb (len (room m) =? 2)
  /\ (len (room m) <> 2 ->
      room m' = without i (without index (room m)) /\ dungeon m' = dungeon m).
Proof.
  intros Hp Hs Ht Hsel.
  rewrite (selectCard_valid index i m Hs) in Hsel. cbv zeta in Hsel.
  destruct (eqb_Potion _ Ht) as [Hw Hpo]. rewrite Hw, Hpo in Hsel.
  rewrite usePotion_first in Hsel by exact Hp.
  change (room (chosen i m)) with (room m) in Hsel.
  destruct (removeAt index (room m)) as [rm|] eqn:Hr; [|discriminate].
  apply removeAt_inv in Hr. destruct Hr as [Hx ->]. cbn [bind] in Hsel.
  set (m3 := drunk (without index (room m)) (at_index (room m) i) (chosen i m)) in *.
  destruct (removeAt i (room m3)) as [rm|] eqn:Hr; [|discriminate].
  apply removeAt_inv in Hr. destruct Hr as [Hi' ->]. cbn [bind] in Hsel.
  inversion Hsel. clear Hsel.
  pose proof (held_drunk index (at_index (room m) i) (chosen i m) Hx) as Hd.
  change (room (chosen i m)) with (room m) in Hd.
  change (cards_held (chosen i m)) with (cards_held m) in Hd. fold m3 in Hd.
  pose proof (len_without i _ Hi') as Hw'.
  pose proof (len_without index (room m) Hx) as Hwx.
  split.
  { unfold cards_held in *. fields. rewrite Hw'. lia. }
  fields. subst m3. unfold drunk. cbv zeta. rewrite Hwx.
  destruct (len (room m) =? 2) eqn:H2.
  - apply Z.eqb_eq in H2. rewrite H2. change (4 - (2 - 1) =? 3) with true. cbv iota.
    rewrite dealRoom_spec. fields. unfold chosen. fields.
    do 3 (split; [reflexivity|]). intros Hn. lia.
  - apply Z.eqb_neq in H2.
    replace (4 - (len (room m) - 1) =? 3) with false
      by (symmetry; apply Z.eqb_neq; lia).
    fields. unfold chosen. fields.
    do 3 (split; [reflexivity|]). intros _. split; reflexivity.
Qed.

Lemma first_potion_costs_a_card_witness :
  potionUsedThisTurn potion_example = false /\ selectable 0 potion_example
  /\ Type_ (at_index (room potion_example) 0) = "Potion"
  /\ selectCard 0 0 potion_example = Ok potion_example_1
  /\ cards_held potion_example_1 = cards_held potion_example - 1
  /\ map Value (room potion_example_1) = [7; 4].
Proof.
  assert (H1 : potionUsedThisTurn potion_example = false) by reflexivity.
  assert (H2 : selectable 0 potion_example)
    by (unfold selectable; vm_compute; repeat split; discriminate).
  assert (H3 : Type_ (at_index (room potion_example) 0) = "Potion") by reflexivity.
  assert (H4 : selectCard 0 0 potion_example = Ok potion_example_1)
    by (vm_compute; reflexivity).
  split; [exact H1 | split; [exact H2 | split; [exact H3 | split; [exact H4|]]]].
  split; [|reflexivity].
  exact (proj1 (first_potion_costs_a_card 0 0 _ _ H1 H2 H3 H4)).
Defined.
